(** * Webhook verification and dispatch of cyrus-codegen-integration

    A shallow embedding of
      packages/codegen-integration/src/services/webhook-handler.ts
      packages/codegen-integration/src/types/schemas.ts
      packages/codegen-integration/src/types/codegen.ts
      packages/codegen-integration/src/api/codegen-client.ts
      packages/codegen-integration/src/utils/index.ts
    together with the parts of the JavaScript runtime they call
    (strings and buffers, HMAC-SHA256 of node:crypto, promises), and the
    properties of the webhook subsystem stated in the specification. *)

From Stdlib Require Import NArith ZArith QArith List String Ascii Bool Lia.
From Stdlib Require Import DecimalString Qround Qminmax Qpower Qabs Lqa.
From stdpp Require Import gmap.
Import ListNotations.

Set Warnings "-register-all".
Local Open Scope N_scope.

(** ** JavaScript strings and buffers

    A string is the list of its code points: a surrogate pair of the UTF-16
    representation is one element, a lone surrogate is an element in
    [0xD800, 0xDFFF].  A buffer is a list of bytes. *)

Definition jsstring := list N.
Definition Buffer := list N.

(** An ASCII literal as a JavaScript string. *)
Definition str (s : string) : jsstring :=
  List.map N_of_ascii (list_ascii_of_string s).

(** The same with every apostrophe of the literal read as a double quote,
    to write JSON texts. *)
Definition quoted (s : string) : jsstring :=
  List.map (fun c => if c =? 0x27 then 0x22 else c) (str s).

Fixpoint jsstring_eqb (a b : jsstring) : bool :=
  match a, b with
  | [], [] => true
  | x :: a', y :: b' => (x =? y) && jsstring_eqb a' b'
  | _, _ => false
  end.

(** WhiteSpace and LineTerminator code points of ECMA-262, the ones
    String.prototype.trim strips. *)
Definition is_white_space (c : N) : bool :=
  (c =? 0x09) || (c =? 0x0A) || (c =? 0x0B) || (c =? 0x0C) || (c =? 0x0D)
  || (c =? 0x20) || (c =? 0xA0) || (c =? 0x1680)
  || ((0x2000 <=? c) && (c <=? 0x200A))
  || (c =? 0x2028) || (c =? 0x2029) || (c =? 0x202F) || (c =? 0x205F)
  || (c =? 0x3000) || (c =? 0xFEFF).

Fixpoint trimStart (s : jsstring) : jsstring :=
  match s with
  | [] => []
  | c :: r => if is_white_space c then trimStart r else s
  end.

Definition trimEnd (s : jsstring) : jsstring := rev (trimStart (rev s)).

Definition trim (s : jsstring) : jsstring := trimEnd (trimStart s).

(** Buffer.from(s, "utf8"): the UTF-8 encoding; a lone surrogate is
    encoded as U+FFFD. *)
Definition utf8_encode_code_point (c : N) : Buffer :=
  if c <? 0x80 then [c]
  else if c <? 0x800 then
    [N.lor 0xC0 (N.shiftr c 6); N.lor 0x80 (N.land c 0x3F)]
  else if (0xD800 <=? c) && (c <=? 0xDFFF) then [0xEF; 0xBF; 0xBD]
  else if c <? 0x10000 then
    [N.lor 0xE0 (N.shiftr c 12);
     N.lor 0x80 (N.land (N.shiftr c 6) 0x3F);
     N.lor 0x80 (N.land c 0x3F)]
  else
    [N.lor 0xF0 (N.land (N.shiftr c 18) 0x07);
     N.lor 0x80 (N.land (N.shiftr c 12) 0x3F);
     N.lor 0x80 (N.land (N.shiftr c 6) 0x3F);
     N.lor 0x80 (N.land c 0x3F)].

Definition Buffer_from_utf8 (s : jsstring) : Buffer :=
  flat_map utf8_encode_code_point s.

Fixpoint Buffer_eqb (a b : Buffer) : bool :=
  match a, b with
  | [], [] => true
  | x :: a', y :: b' => (x =? y) && Buffer_eqb a' b'
  | _, _ => false
  end.

(** Lower-case hexadecimal, as digest("hex") prints a buffer. *)
Definition hex_digit (d : N) : N :=
  if d <? 10 then 0x30 + d else 0x61 + (d - 10).

Definition hex_of_byte (b : N) : jsstring :=
  [hex_digit (N.shiftr b 4); hex_digit (N.land b 0xF)].

Definition hex (b : Buffer) : jsstring := flat_map hex_of_byte b.

(** ** SHA-256 (FIPS 180-4) and HMAC (RFC 2104)

    What createHmac("sha256", key).update(data).digest() of node:crypto
    computes.  Words are 32-bit, kept in N with the wrap-around written
    out. *)
Module Sha256.

Definition w32 (x : N) : N := x mod 2 ^ 32.
Definition add32 (x y : N) : N := w32 (x + y).
Definition not32 (x : N) : N := N.lxor x 0xFFFFFFFF.
Definition rotr (n x : N) : N :=
  N.lor (N.shiftr x n) (w32 (N.shiftl x (32 - n))).

Definition Ch (x y z : N) : N := N.lxor (N.land x y) (N.land (not32 x) z).
Definition Maj (x y z : N) : N :=
  N.lxor (N.lxor (N.land x y) (N.land x z)) (N.land y z).
Definition Sigma0 (x : N) : N :=
  N.lxor (N.lxor (rotr 2 x) (rotr 13 x)) (rotr 22 x).
Definition Sigma1 (x : N) : N :=
  N.lxor (N.lxor (rotr 6 x) (rotr 11 x)) (rotr 25 x).
Definition sigma0 (x : N) : N :=
  N.lxor (N.lxor (rotr 7 x) (rotr 18 x)) (N.shiftr x 3).
Definition sigma1 (x : N) : N :=
  N.lxor (N.lxor (rotr 17 x) (rotr 19 x)) (N.shiftr x 10).

(** The largest r below 2^bits with r^k <= n. *)
Fixpoint root (k n : N) (bits : nat) (r : N) : N :=
  match bits with
  | O => r
  | S b =>
      let r' := r + 2 ^ N.of_nat b in
      root k n b (if r' ^ k <=? n then r' else r)
  end.

Definition is_prime (p : N) : bool :=
  forallb (fun d => negb (p mod N.of_nat d =? 0)) (seq 2 (N.to_nat p - 2)).

(** The primes below 312: the first 64. *)
Definition primes : list N :=
  List.filter is_prime (List.map N.of_nat (seq 2 310)).

(** The first 32 bits of the fractional part of the [k]-th root of [p]. *)
Definition fractional_root (k p : N) : N :=
  w32 (root k (p * 2 ^ (32 * k)) 40 0).

(** The round constants: cube roots of the first 64 primes. *)
Definition K : list N :=
  Eval vm_compute in List.map (fractional_root 3) primes.

Record state := State
  { sa : N; sb : N; sc : N; sd : N; se : N; sf : N; sg : N; sh : N }.

(** The initial hash value: square roots of the first 8 primes. *)
Definition H0 : state :=
  Eval vm_compute in
    match List.map (fractional_root 2) (firstn 8 primes) with
    | [a; b; c; d; e; f; g; h] => State a b c d e f g h
    | _ => State 0 0 0 0 0 0 0 0
    end.

(** Big-endian words of a block. *)
Fixpoint words (b : Buffer) : list N :=
  match b with
  | b0 :: b1 :: b2 :: b3 :: r =>
      (N.shiftl b0 24 + N.shiftl b1 16 + N.shiftl b2 8 + b3) :: words r
  | _ => []
  end.

(** The message schedule: [n] more words after the ones in [w]. *)
Fixpoint schedule (n : nat) (w : list N) : list N :=
  match n with
  | O => w
  | S n' =>
      let t := List.length w in
      let at_ (i : nat) := nth (t - i) w 0 in
      schedule n'
        (w ++ [add32 (add32 (sigma1 (at_ 2%nat)) (at_ 7%nat))
                     (add32 (sigma0 (at_ 15%nat)) (at_ 16%nat))])
  end.

Definition round (s : state) (kw : N * N) : state :=
  let '(k, w) := kw in
  let t1 :=
    add32 (add32 (add32 (sh s) (Sigma1 (se s))) (Ch (se s) (sf s) (sg s)))
          (add32 k w) in
  let t2 := add32 (Sigma0 (sa s)) (Maj (sa s) (sb s) (sc s)) in
  State (add32 t1 t2) (sa s) (sb s) (sc s)
        (add32 (sd s) t1) (se s) (sf s) (sg s).

Definition compress (s : state) (block : Buffer) : state :=
  let w := schedule 48 (words block) in
  let r := fold_left round (combine K w) s in
  State (add32 (sa s) (sa r)) (add32 (sb s) (sb r))
        (add32 (sc s) (sc r)) (add32 (sd s) (sd r))
        (add32 (se s) (se r)) (add32 (sf s) (sf r))
        (add32 (sg s) (sg r)) (add32 (sh s) (sh r)).

Definition be (bytes : nat) (x : N) : Buffer :=
  List.map (fun i => N.land (N.shiftr x (8 * N.of_nat i)) 0xFF)
           (rev (seq 0 bytes)).

(** Padding: 0x80, zeros up to 56 mod 64, the bit length on 8 bytes. *)
Definition pad (m : Buffer) : Buffer :=
  let l := N.of_nat (List.length m) in
  let z := (64 - (l + 9) mod 64) mod 64 in
  m ++ [0x80] ++ repeat 0 (N.to_nat z) ++ be 8 (8 * l).

Fixpoint blocks (n : nat) (s : state) (m : Buffer) : state :=
  match n with
  | O => s
  | S n' => blocks n' (compress s (firstn 64 m)) (skipn 64 m)
  end.

Definition digest (m : Buffer) : Buffer :=
  let p := pad m in
  let s := blocks (List.length p / 64) H0 p in
  be 4 (sa s) ++ be 4 (sb s) ++ be 4 (sc s) ++ be 4 (sd s)
  ++ be 4 (se s) ++ be 4 (sf s) ++ be 4 (sg s) ++ be 4 (sh s).

Definition block_size : nat := 64.

(** The key of the MAC: hashed when longer than a block, then padded
    with zero bytes to a block. *)
Definition hmac_key (key : Buffer) : Buffer :=
  let k := if (block_size <? List.length key)%nat then digest key else key in
  k ++ repeat 0 (block_size - List.length k).

Definition hmac (key data : Buffer) : Buffer :=
  let k := hmac_key key in
  let ipad := List.map (N.lxor 0x36) k in
  let opad := List.map (N.lxor 0x5c) k in
  digest (opad ++ digest (ipad ++ data)).

End Sha256.

(** ** Values, numbers, dates, completions *)

(** A JavaScript number that is not infinite, as a value: NaN or the
    rational it is (every finite double is one).  The arithmetic on numbers
    is that of [Double] below. *)
Inductive number := NaN | Num (q : Q).

(** a <= b; false when an operand is NaN. *)
Definition number_le (a b : number) : bool :=
  match a, b with
  | Num x, Num y => Qle_bool x y
  | _, _ => false
  end.

Definition number_ge (a b : number) : bool := number_le b a.

Definition number_lt (a b : number) : bool :=
  match a, b with
  | Num x, Num y => negb (Qle_bool y x)
  | _, _ => false
  end.

Definition number_gt (a b : number) : bool := number_lt b a.

(** ** Double-precision arithmetic

    The arithmetic of JavaScript numbers where its rounding matters: the
    binary64 format of IEEE 754 with rounding to nearest, ties to even.  The
    two zeros are not told apart: 0 stands for both, which no comparison
    observes, and is the positive zero where it divides. *)
Module Double.

(** The integer nearest to [x], the even one of two that are equally
    near. *)
Definition round_half_even (x : Q) : Z :=
  let f := Qfloor x in
  match (x - inject_Z f ?= 1 # 2)%Q with
  | Lt => f
  | Eq => if Z.even f then f else (f + 1)%Z
  | Gt => (f + 1)%Z
  end.

(** The integer part of the binary logarithm of [x], for [x] above 0. *)
Definition ilog2 (x : Q) : Z :=
  let c := (Z.log2 (Qnum x) - Z.log2 (Zpos (Qden x)))%Z in
  if Qle_bool (2 ^ c) x then c else (c - 1)%Z.

(** The exponent of the last of the 53 bits [x] is rounded to; below
    2 ^ -1022 the numbers are 2 ^ -1074 apart. *)
Definition exponent (x : Q) : Z := Z.max (ilog2 x - 52) (-1074).

(** The nearest number with 53 bits, for [x] not below 0. *)
Definition nearest (x : Q) : Q :=
  (inject_Z (round_half_even (x * 2 ^ (- exponent x))) * 2 ^ exponent x)%Q.

Definition round (x : Q) : Q :=
  if Qle_bool 0 x then nearest x else (- nearest (- x))%Q.

(** The rounding keeps [x]: it has at most 53 bits above the smallest
    unit, so that below 2 ^ 1024 in magnitude it is a double. *)
Definition representable (x : Q) : Prop := (round x == x)%Q.

(** A number value: NaN, an infinity, or a finite double. *)
Inductive t := nan | inf (negative : bool) | fin (q : Q).

(** The number the exact result [x] of an operation is rounded to: an
    infinity from 2 ^ 1024 on. *)
Definition of_Q (x : Q) : t :=
  let r := round x in
  if Qle_bool (2 ^ 1024) (Qabs r) then inf (negb (Qle_bool 0 x))
  else fin (Qred r).

(** x - y *)
Definition sub (a b : t) : t :=
  match a, b with
  | nan, _ | _, nan => nan
  | inf s, inf s' => if Bool.eqb s s' then nan else inf s
  | inf s, fin _ => inf s
  | fin _, inf s => inf (negb s)
  | fin x, fin y => of_Q (x - y)
  end.

(** x * y *)
Definition mul (a b : t) : t :=
  match a, b with
  | nan, _ | _, nan => nan
  | inf s, inf s' => inf (xorb s s')
  | inf s, fin y =>
      if Qeq_bool y 0 then nan else inf (xorb s (negb (Qle_bool 0 y)))
  | fin x, inf s =>
      if Qeq_bool x 0 then nan else inf (xorb (negb (Qle_bool 0 x)) s)
  | fin x, fin y => of_Q (x * y)
  end.

(** x / y; a divisor 0 is the positive zero. *)
Definition div (a b : t) : t :=
  match a, b with
  | nan, _ | _, nan => nan
  | inf _, inf _ => nan
  | inf s, fin y => inf (xorb s (negb (Qle_bool 0 y)))
  | fin _, inf _ => fin 0
  | fin x, fin y =>
      if Qeq_bool y 0
      then if Qeq_bool x 0 then nan else inf (negb (Qle_bool 0 x))
      else of_Q (x / y)
  end.

(** 2 ** k for an integer [k] *)
Definition pow2 (k : Z) : t := of_Q (2 ^ k).

(** x <= y *)
Definition le (a b : t) : bool :=
  match a, b with
  | nan, _ | _, nan => false
  | inf true, _ => true
  | _, inf false => true
  | inf false, _ => false
  | _, inf true => false
  | fin x, fin y => Qle_bool x y
  end.

(** x >= y *)
Definition ge (a b : t) : bool := le b a.

(** Math.min(x, y) *)
Definition min (a b : t) : t :=
  match a, b with
  | nan, _ | _, nan => nan
  | _, _ => if le a b then a else b
  end.

(** A number value as a double. *)
Definition of_number (n : number) : t :=
  match n with
  | NaN => nan
  | Num q => fin q
  end.

End Double.

(** A Date object: its time value in milliseconds, or NaN. *)
Inductive Date := InvalidDate | DateAt (ms : Z).

Definition getTime (d : Date) : number :=
  match d with
  | InvalidDate => NaN
  | DateAt ms => Num (inject_Z ms)
  end.

(** The values a schema is run on: what JSON.parse returns, and Date
    objects (the schemas accept them next to date-time strings). *)
Inductive JSValue :=
| JNull
| JBool (b : bool)
| JNumber (n : number)
| JString (s : jsstring)
| JArray (items : list JSValue)
| JObject (props : list (jsstring * JSValue))
| JDate (d : Date).

(** o[k]; None is undefined. *)
Fixpoint get (o : list (jsstring * JSValue)) (k : jsstring) : option JSValue :=
  match o with
  | [] => None
  | (k', v) :: r => if jsstring_eqb k' k then Some v else get r k
  end.

(** o[k] = v: a key that is present keeps its place and takes the new
    value, a new key goes last. *)
Fixpoint set_property (o : list (jsstring * JSValue)) (k : jsstring)
    (v : JSValue) : list (jsstring * JSValue) :=
  match o with
  | [] => [(k, v)]
  | (k', v') :: r =>
      if jsstring_eqb k' k then (k', v) :: r
      else (k', v') :: set_property r k v
  end.

(** The errors thrown: the classes the code and the runtime use, and
    [Thrown] for whatever a registered handler throws or rejects with. *)
Inductive error :=
| Error (message : jsstring)
| WebhookVerificationError (message : jsstring)
| RangeError (message : jsstring)
| ZodError
| Thrown (what : N).

Inductive Completion (A : Type) :=
| Normal (a : A)
| Throw (e : error).
Arguments Normal {A} a.
Arguments Throw {A} e.

Definition try_catch {A} (body : Completion A) (handler : error -> Completion A)
  : Completion A :=
  match body with
  | Normal a => Normal a
  | Throw e => handler e
  end.

(** ** types/codegen.ts *)

Inductive CodegenEventType :=
| agent_started | agent_completed | agent_failed | agent_cancelled
| agent_progress | tool_used | file_created | file_updated | file_deleted.

Definition event_name (e : CodegenEventType) : jsstring :=
  match e with
  | agent_started => str "agent.started"
  | agent_completed => str "agent.completed"
  | agent_failed => str "agent.failed"
  | agent_cancelled => str "agent.cancelled"
  | agent_progress => str "agent.progress"
  | tool_used => str "tool.used"
  | file_created => str "file.created"
  | file_updated => str "file.updated"
  | file_deleted => str "file.deleted"
  end.

Record AgentMetadata := mkAgentMetadata
  { startTime : Date;
    endTime : option Date;
    duration : option number;
    tokensUsed : option number;
    filesModified : option (list jsstring);
    toolsUsed : option (list jsstring) }.

Record CodegenError := mkCodegenError
  { code : jsstring;
    message : jsstring;
    details : option (list (jsstring * JSValue));
    error_timestamp : Date }.

(** The tag of FileModifiedData. *)
Inductive FileEventType := FileCreated | FileUpdated | FileDeleted.

Inductive WebhookEventData :=
| AgentStartedData (prompt sessionId : jsstring)
| AgentCompletedData (sessionId result : jsstring) (metadata : AgentMetadata)
| AgentFailedData (sessionId : jsstring) (error : CodegenError)
| AgentProgressData (sessionId message : jsstring) (progress : number)
| ToolUsedData (sessionId toolName : jsstring)
    (parameters : list (jsstring * JSValue)) (result : option JSValue)
| FileModifiedData (type : FileEventType) (sessionId filePath : jsstring)
    (content : option jsstring).

(** data.type, the tag of the union. *)
Definition data_type (d : WebhookEventData) : CodegenEventType :=
  match d with
  | AgentStartedData _ _ => agent_started
  | AgentCompletedData _ _ _ => agent_completed
  | AgentFailedData _ _ => agent_failed
  | AgentProgressData _ _ _ => agent_progress
  | ToolUsedData _ _ _ _ => tool_used
  | FileModifiedData FileCreated _ _ _ => file_created
  | FileModifiedData FileUpdated _ _ _ => file_updated
  | FileModifiedData FileDeleted _ _ _ => file_deleted
  end.

Record WebhookEventPayload := mkWebhookEventPayload
  { event : CodegenEventType;
    sessionId : jsstring;
    timestamp : Date;
    data : WebhookEventData }.

(** ** The runtime

    Library functions the code calls and that are taken as given:
    JSON.parse, the date-time check of z.string().datetime(), the Date
    constructor on a string, and Date.prototype.toISOString on a valid
    date. *)
Record Runtime := mkRuntime
  { JSON_parse : jsstring -> jsstring + JSValue;  (* inl m: SyntaxError(m) *)
    zod_datetime : jsstring -> bool;
    Date_new : jsstring -> Date;
    Date_toISOString : Z -> jsstring }.

(** ** types/schemas.ts

    A schema maps a value (None is undefined, an absent property) to the
    parsed output, or to None when validation fails. *)
Section Schemas.

Variable rt : Runtime.

Definition Schema (T : Type) := option JSValue -> option T.

Definition z_string : Schema jsstring := fun v =>
  match v with
  | Some (JString s) => Some s
  | _ => None
  end.

Definition z_number : Schema number := fun v =>
  match v with
  | Some (JNumber (Num q)) => Some (Num q)
  | _ => None
  end.

(** z.number().min(lo).max(hi), both bounds inclusive *)
Definition z_number_min_max (lo hi : Q) : Schema number := fun v =>
  n ← z_number v;
  if number_lt n (Num lo) then None
  else if number_gt n (Num hi) then None
  else Some n.

Definition z_literal (lit : jsstring) : Schema jsstring := fun v =>
  match v with
  | Some (JString s) => if jsstring_eqb s lit then Some s else None
  | _ => None
  end.

(** z.enum over named alternatives: the first one whose name is the
    input string. *)
Definition z_enum {T} (alts : list (jsstring * T)) : Schema T := fun v =>
  match v with
  | Some (JString s) =>
      snd <$> List.find (fun a => jsstring_eqb (fst a) s) alts
  | _ => None
  end.

Definition z_optional {T} (s : Schema T) : Schema (option T) := fun v =>
  match v with
  | None => Some None
  | Some _ => Some <$> s v
  end.

Definition z_unknown : Schema (option JSValue) := fun v => Some v.

Definition z_array {T} (s : Schema T) : Schema (list T) := fun v =>
  match v with
  | Some (JArray items) => mapM (fun i => s (Some i)) items
  | _ => None
  end.

(** z.record(z.unknown()) *)
Definition z_record_unknown : Schema (list (jsstring * JSValue)) := fun v =>
  match v with
  | Some (JObject props) => Some props
  | _ => None
  end.

(** z.object: the input must be an object; [shape] reads the declared
    keys, other keys are dropped. *)
Definition z_object {T} (shape : list (jsstring * JSValue) -> option T)
  : Schema T := fun v =>
  match v with
  | Some (JObject props) => shape props
  | _ => None
  end.

(** z.union: the first alternative that validates. *)
Fixpoint z_union {T} (alts : list (Schema T)) : Schema T := fun v =>
  match alts with
  | [] => None
  | s :: r => match s v with
              | Some t => Some t
              | None => z_union r v
              end
  end.

(** z.string().datetime().or(z.date())
      .transform((val) => (typeof val === "string" ? new Date(val) : val)) *)
Definition z_datetime_or_date : Schema Date := fun v =>
  match v with
  | Some (JString s) =>
      if zod_datetime rt s then Some (Date_new rt s) else None
  | Some (JDate (DateAt ms)) => Some (DateAt ms)
  | _ => None
  end.

Definition CodegenEventTypeSchema : Schema CodegenEventType :=
  z_enum
    (List.map (fun e => (event_name e, e))
       [agent_started; agent_completed; agent_failed; agent_cancelled;
        agent_progress; tool_used; file_created; file_updated;
        file_deleted]).

Definition CodegenErrorSchema : Schema CodegenError :=
  z_object (fun o =>
    c ← z_string (get o (str "code"));
    m ← z_string (get o (str "message"));
    d ← z_optional z_record_unknown (get o (str "details"));
    t ← z_datetime_or_date (get o (str "timestamp"));
    Some (mkCodegenError c m d t)).

Definition AgentMetadataSchema : Schema AgentMetadata :=
  z_object (fun o =>
    st ← z_datetime_or_date (get o (str "startTime"));
    et ← z_optional z_datetime_or_date (get o (str "endTime"));
    du ← z_optional z_number (get o (str "duration"));
    tk ← z_optional z_number (get o (str "tokensUsed"));
    fm ← z_optional (z_array z_string) (get o (str "filesModified"));
    tu ← z_optional (z_array z_string) (get o (str "toolsUsed"));
    Some (mkAgentMetadata st et du tk fm tu)).

Definition AgentStartedDataSchema : Schema WebhookEventData :=
  z_object (fun o =>
    _ ← z_literal (str "agent.started") (get o (str "type"));
    p ← z_string (get o (str "prompt"));
    s ← z_string (get o (str "sessionId"));
    Some (AgentStartedData p s)).

Definition AgentCompletedDataSchema : Schema WebhookEventData :=
  z_object (fun o =>
    _ ← z_literal (str "agent.completed") (get o (str "type"));
    s ← z_string (get o (str "sessionId"));
    r ← z_string (get o (str "result"));
    m ← AgentMetadataSchema (get o (str "metadata"));
    Some (AgentCompletedData s r m)).

Definition AgentFailedDataSchema : Schema WebhookEventData :=
  z_object (fun o =>
    _ ← z_literal (str "agent.failed") (get o (str "type"));
    s ← z_string (get o (str "sessionId"));
    e ← CodegenErrorSchema (get o (str "error"));
    Some (AgentFailedData s e)).

Definition AgentProgressDataSchema : Schema WebhookEventData :=
  z_object (fun o =>
    _ ← z_literal (str "agent.progress") (get o (str "type"));
    s ← z_string (get o (str "sessionId"));
    m ← z_string (get o (str "message"));
    p ← z_number_min_max 0 100 (get o (str "progress"));
    Some (AgentProgressData s m p)).

Definition ToolUsedDataSchema : Schema WebhookEventData :=
  z_object (fun o =>
    _ ← z_literal (str "tool.used") (get o (str "type"));
    s ← z_string (get o (str "sessionId"));
    t ← z_string (get o (str "toolName"));
    p ← z_record_unknown (get o (str "parameters"));
    r ← z_unknown (get o (str "result"));
    Some (ToolUsedData s t p r)).

Definition FileModifiedDataSchema : Schema WebhookEventData :=
  z_object (fun o =>
    ty ← z_enum [(str "file.created", FileCreated);
                 (str "file.updated", FileUpdated);
                 (str "file.deleted", FileDeleted)] (get o (str "type"));
    s ← z_string (get o (str "sessionId"));
    f ← z_string (get o (str "filePath"));
    c ← z_optional z_string (get o (str "content"));
    Some (FileModifiedData ty s f c)).

Definition WebhookEventDataSchema : Schema WebhookEventData :=
  z_union
    [AgentStartedDataSchema; AgentCompletedDataSchema;
     AgentFailedDataSchema; AgentProgressDataSchema;
     ToolUsedDataSchema; FileModifiedDataSchema].

Definition WebhookEventPayloadSchema : Schema WebhookEventPayload :=
  z_object (fun o =>
    e ← CodegenEventTypeSchema (get o (str "event"));
    s ← z_string (get o (str "sessionId"));
    t ← z_datetime_or_date (get o (str "timestamp"));
    d ← WebhookEventDataSchema (get o (str "data"));
    Some (mkWebhookEventPayload e s t d)).

(** schema.parse(value): the output, or a ZodError thrown. *)
Definition parse {T} (s : Schema T) (v : JSValue) : Completion T :=
  match s (Some v) with
  | Some t => Normal t
  | None => Throw ZodError
  end.

End Schemas.

(** ** Promises

    Time is counted in ticks of the event loop from the call that is being
    described; the microtask steps between a settlement and the code that
    awaits it are not counted.  A promise is pending for ever, or settles
    at some tick. *)
Inductive settlement := Fulfilled | Rejected (e : error).
Inductive Promise := Pending | Settled (tick : nat) (s : settlement).

(** Promise.resolve(v) for what a handler returns: undefined (None) is an
    already fulfilled promise. *)
Definition Promise_resolve (v : option Promise) : Promise :=
  match v with
  | None => Settled 0 Fulfilled
  | Some p => p
  end.

(** The earliest rejection among the promises; of two rejections at the
    same tick the one of the earlier element. *)
Fixpoint first_rejection (ps : list Promise) : option (nat * error) :=
  match ps with
  | [] => None
  | p :: r =>
      match p, first_rejection r with
      | Settled t (Rejected e), Some (t', e') =>
          if (t <=? t')%nat then Some (t, e) else Some (t', e')
      | Settled t (Rejected e), None => Some (t, e)
      | _, o => o
      end
  end.

(** The tick at which the last of the promises is fulfilled, when all
    are. *)
Fixpoint all_fulfilled (ps : list Promise) : option nat :=
  match ps with
  | [] => Some 0%nat
  | Settled t Fulfilled :: r => Nat.max t <$> all_fulfilled r
  | _ :: _ => None
  end.

(** Promise.all (ECMA-262, 27.2.4.1): rejected as soon as one element is
    rejected, fulfilled once every element is fulfilled. *)
Definition Promise_all (ps : list Promise) : Promise :=
  match first_rejection ps with
  | Some (t, e) => Settled t (Rejected e)
  | None =>
      match all_fulfilled ps with
      | Some t => Settled t Fulfilled
      | None => Pending
      end
  end.

(** ** services/webhook-handler.ts *)

Global Instance CodegenEventType_eq_dec : EqDecision CodegenEventType.
Proof. solve_decision. Defined.

Global Instance CodegenEventType_countable : Countable CodegenEventType.
Proof.
  refine (inj_countable'
    (fun e => match e with
              | agent_started => 0 | agent_completed => 1 | agent_failed => 2
              | agent_cancelled => 3 | agent_progress => 4 | tool_used => 5
              | file_created => 6 | file_updated => 7 | file_deleted => 8
              end%nat)
    (fun n => match n with
              | 0 => agent_started | 1 => agent_completed | 2 => agent_failed
              | 3 => agent_cancelled | 4 => agent_progress | 5 => tool_used
              | 6 => file_created | 7 => file_updated | _ => file_deleted
              end%nat) _).
  intros []; reflexivity.
Defined.

(** A handler is a function object; the registry compares handlers by
    reference, so a handler is modelled by its identity. *)
Definition WebhookEventHandler := nat.

Module Config.
(** WebhookHandlerConfig *)
Record t := mk
  { secret : jsstring;
    maxAge : option number;
    validateTimestamp : option bool }.
End Config.

Record WebhookHandler := mkWebhookHandler
  { secret : jsstring;
    maxAge : number;
    validateTimestamp : bool;
    handlers : gmap CodegenEventType (list WebhookEventHandler) }.

Definition with_handlers (this : WebhookHandler)
    (m : gmap CodegenEventType (list WebhookEventHandler)) : WebhookHandler :=
  mkWebhookHandler (secret this) (maxAge this) (validateTimestamp this) m.

(** !s for a string that may be undefined *)
Definition falsy (s : option jsstring) : bool :=
  match s with
  | None => true
  | Some [] => true
  | Some (_ :: _) => false
  end.

Definition constructor (config : Config.t) : Completion WebhookHandler :=
  if falsy (Some (Config.secret config))
     || (List.length (trim (Config.secret config)) =? 0)%nat
  then Throw (Error (str "Webhook secret is required"))
  else Normal (mkWebhookHandler (Config.secret config)
                 (default (Num 300) (Config.maxAge config))
                 (default true (Config.validateTimestamp config))
                 ∅).

Definition createWebhookHandler := constructor.

Definition on (this : WebhookHandler) (event : CodegenEventType)
    (handler : WebhookEventHandler) : WebhookHandler :=
  let existingHandlers := default [] (handlers this !! event) in
  with_handlers this (<[event := existingHandlers ++ [handler]]> (handlers this)).

Definition onAll (this : WebhookHandler) (handler : WebhookEventHandler)
  : WebhookHandler :=
  let events :=
    [agent_started; agent_completed; agent_failed; agent_cancelled;
     agent_progress; tool_used; file_created; file_updated; file_deleted] in
  fold_left (fun this event => on this event handler) events this.

(** timingSafeEqual of node:crypto throws on buffers of different
    lengths. *)
Definition timingSafeEqual (a b : Buffer) : Completion bool :=
  if (List.length a =? List.length b)%nat then Normal (Buffer_eqb a b)
  else Throw (RangeError (str "Input buffers must have the same byte length")).

Definition computeSignature (this : WebhookHandler) (payload : jsstring)
  : jsstring :=
  str "sha256="
  ++ hex (Sha256.hmac (Buffer_from_utf8 (secret this)) (Buffer_from_utf8 payload)).

(** The signature is None when the caller passes undefined. *)
Definition verifySignature (this : WebhookHandler) (payload : jsstring)
    (signature : option jsstring) : Completion bool :=
  match signature with
  | None => Normal false
  | Some sig =>
      if falsy (Some sig) || (List.length (trim sig) =? 0)%nat
      then Normal false
      else
        let expectedSignature := computeSignature this payload in
        try_catch
          (let signatureBuffer := Buffer_from_utf8 sig in
           let expectedBuffer := Buffer_from_utf8 expectedSignature in
           if negb (List.length signatureBuffer =? List.length expectedBuffer)%nat
           then Normal false
           else timingSafeEqual signatureBuffer expectedBuffer)
          (fun _ => Normal false)
  end.

(** [now] is the time value of the new Date() the method takes. *)
Definition validatePayloadTimestamp (this : WebhookHandler) (now : Z)
    (timestamp : Date) : bool :=
  if negb (validateTimestamp this) then true
  else
    let age :=
      Double.div
        (Double.sub (Double.of_number (getTime (DateAt now)))
           (Double.of_number (getTime timestamp)))
        (Double.fin 1000) in
    Double.le age (Double.of_number (maxAge this))
    && Double.ge age (Double.fin 0).

Definition off (this : WebhookHandler) (event : CodegenEventType)
    (handler : WebhookEventHandler) : WebhookHandler :=
  match handlers this !! event with
  | None => this
  | Some hs =>
      let filtered := List.filter (fun h => negb (h =? handler)%nat) hs in
      if (List.length filtered =? 0)%nat
      then with_handlers this (delete event (handlers this))
      else with_handlers this (<[event := filtered]> (handlers this))
  end.

(** removeAllListeners(event?) *)
Definition removeAllListeners (this : WebhookHandler)
    (event : option CodegenEventType) : WebhookHandler :=
  match event with
  | Some e => with_handlers this (delete e (handlers this))
  | None => with_handlers this ∅
  end.

(** What running a method did: the handler object afterwards, the handler
    invocations made, in order, and the value returned. *)
Record Effect (A : Type) := mkEffect
  { after : WebhookHandler;
    invoked : list (WebhookEventHandler * WebhookEventPayload);
    result : A }.
Arguments mkEffect {A} after invoked result.
Arguments after {A} e.
Arguments invoked {A} e.
Arguments result {A} e.

(** What calling a handler on a payload does before it returns: it may
    change the registrations (on, off, removeAllListeners of the handler
    object it closes over), and it throws, returns undefined (None) or
    returns a promise. *)
Definition Behaviour : Type :=
  WebhookEventHandler -> WebhookEventPayload ->
  gmap CodegenEventType (list WebhookEventHandler) ->
  gmap CodegenEventType (list WebhookEventHandler)
  * Completion (option Promise).

Section Dispatch.

Variable rt : Runtime.
Variable behaviour : Behaviour.

(** handlers.map((handler) => handler(payload)): the calls are made in
    order; a call that throws ends the map. *)
Fixpoint map_call (hs : list WebhookEventHandler)
    (payload : WebhookEventPayload) (this : WebhookHandler)
  : Effect (Completion (list (option Promise))) :=
  match hs with
  | [] => mkEffect this [] (Normal [])
  | handler :: r =>
      let '(m, returned) := behaviour handler payload (handlers this) in
      let this1 := with_handlers this m in
      match returned with
      | Throw e => mkEffect this1 [(handler, payload)] (Throw e)
      | Normal v =>
          let rest := map_call r payload this1 in
          mkEffect (after rest) ((handler, payload) :: invoked rest)
            match result rest with
            | Normal vs => Normal (v :: vs)
            | Throw e => Throw e
            end
      end
  end.

(** An async method: the result is the promise it returns. *)
Definition executeHandlers (this : WebhookHandler)
    (payload : WebhookEventPayload) : Effect Promise :=
  let hs := default [] (handlers this !! event payload) in
  if (List.length hs =? 0)%nat then mkEffect this [] (Settled 0 Fulfilled)
  else
    let called := map_call hs payload this in
    match result called with
    | Throw e =>
        mkEffect (after called) (invoked called) (Settled 0 (Rejected e))
    | Normal returned =>
        mkEffect (after called) (invoked called)
          (Promise_all (List.map Promise_resolve returned))
    end.

Definition toISOString (d : Date) : Completion jsstring :=
  match d with
  | InvalidDate => Throw (RangeError (str "Invalid time value"))
  | DateAt ms => Normal (Date_toISOString rt ms)
  end.

Definition reject (this : WebhookHandler) (e : error) : Effect Promise :=
  mkEffect this [] (Settled 0 (Rejected e)).

Definition processWebhook (this : WebhookHandler) (now : Z)
    (rawPayload : jsstring) (signature : option jsstring) : Effect Promise :=
  (* Verify signature *)
  match verifySignature this rawPayload signature with
  | Throw e => reject this e
  | Normal false =>
      reject this (WebhookVerificationError (str "Invalid webhook signature"))
  | Normal true =>
      (* Parse and validate payload *)
      match JSON_parse rt rawPayload with
      | inl message =>
          reject this
            (WebhookVerificationError
               (str "Failed to parse webhook payload: " ++ message))
      | inr parsedPayload =>
          match parse (WebhookEventPayloadSchema rt) parsedPayload with
          | Throw e => reject this e
          | Normal payload =>
              (* Validate timestamp *)
              if negb (validatePayloadTimestamp this now (timestamp payload))
              then
                match toISOString (timestamp payload) with
                | Throw e => reject this e
                | Normal iso =>
                    reject this
                      (WebhookVerificationError
                         (str "Webhook timestamp is too old or in the future: "
                          ++ iso))
                end
              else
                (* Execute handlers *)
                executeHandlers this payload
          end
      end
  end.

End Dispatch.

(** ** A reference runtime

    An executable JSON.parse (ECMA-404 grammar), the date-time check of
    zod (a calendar date, a time of day with seconds, an optional
    fraction, the Z suffix), the Date constructor on such strings and
    toISOString.  The model above is run on concrete requests with it. *)
Module Reference.

Definition is_digit (c : N) : bool := (0x30 <=? c) && (c <=? 0x39).

Definition is_json_space (c : N) : bool :=
  (c =? 0x20) || (c =? 0x09) || (c =? 0x0A) || (c =? 0x0D).

Fixpoint skip_space (s : jsstring) : jsstring :=
  match s with
  | c :: r => if is_json_space c then skip_space r else s
  | [] => []
  end.

Definition hex_value (c : N) : option N :=
  if is_digit c then Some (c - 0x30)
  else if (0x61 <=? c) && (c <=? 0x66) then Some (c - 0x61 + 10)
  else if (0x41 <=? c) && (c <=? 0x46) then Some (c - 0x41 + 10)
  else None.

(** The four hexadecimal digits after a backslash and u *)
Definition unit4 (s : jsstring) : option (N * jsstring) :=
  match s with
  | a :: b :: c :: d :: r =>
      a ← hex_value a; b ← hex_value b; c ← hex_value c; d ← hex_value d;
      Some (4096 * a + 256 * b + 16 * c + d, r)
  | _ => None
  end.

(** The characters of a string literal after its opening quote. *)
Fixpoint string_chars (fuel : nat) (s acc : jsstring)
  : option (jsstring * jsstring) :=
  match fuel with
  | O => None
  | S fuel =>
      match s with
      | 0x22 :: r => Some (rev acc, r)
      | 0x5C :: e :: r =>
          if e =? 0x75 then
            '(u, r1) ← unit4 r;
            match r1 with
            | 0x5C :: 0x75 :: r2 =>
                match unit4 r2 with
                | Some (v, r3) =>
                    if (0xD800 <=? u) && (u <=? 0xDBFF)
                       && (0xDC00 <=? v) && (v <=? 0xDFFF)
                    then string_chars fuel r3
                           (0x10000 + 1024 * (u - 0xD800) + (v - 0xDC00)
                            :: acc)
                    else string_chars fuel r1 (u :: acc)
                | None => string_chars fuel r1 (u :: acc)
                end
            | _ => string_chars fuel r1 (u :: acc)
            end
          else
            c ← (if e =? 0x22 then Some 0x22
                 else if e =? 0x5C then Some 0x5C
                 else if e =? 0x2F then Some 0x2F
                 else if e =? 0x62 then Some 0x08
                 else if e =? 0x66 then Some 0x0C
                 else if e =? 0x6E then Some 0x0A
                 else if e =? 0x72 then Some 0x0D
                 else if e =? 0x74 then Some 0x09
                 else None);
            string_chars fuel r (c :: acc)
      | c :: r => if c <? 0x20 then None else string_chars fuel r (c :: acc)
      | [] => None
      end
  end.

Fixpoint digits (s : jsstring) (acc : Z) (n : nat) : Z * nat * jsstring :=
  match s with
  | c :: r =>
      if is_digit c then digits r (10 * acc + Z.of_N (c - 0x30))%Z (S n)
      else (acc, n, s)
  | [] => (acc, n, s)
  end.

Definition pow10 (e : Z) : Q :=
  if (0 <=? e)%Z then inject_Z (10 ^ e) else 1 / inject_Z (10 ^ (- e)).

(** number := -? int frac? exp? *)
Definition number_literal (s : jsstring) : option (Q * jsstring) :=
  let '(neg, s0) := match s with
                    | 0x2D :: r => (true, r)
                    | _ => (false, s)
                    end in
  let '(i, n, s1) := digits s0 0%Z 0%nat in
  if (n =? 0)%nat then None
  else if (1 <? n)%nat && (match s0 with 0x30 :: _ => true | _ => false end)
  then None
  else
    '(f, fd, s2) ← match s1 with
                   | 0x2E :: r =>
                       let '(f, fd, r') := digits r 0%Z 0%nat in
                       if (fd =? 0)%nat then None else Some (f, fd, r')
                   | _ => Some (0%Z, 0%nat, s1)
                   end;
    '(e, s3) ← match s2 with
               | c :: r =>
                   if (c =? 0x65) || (c =? 0x45) then
                     let '(eneg, r0) := match r with
                                        | 0x2D :: r' => (true, r')
                                        | 0x2B :: r' => (false, r')
                                        | _ => (false, r)
                                        end in
                     let '(e, en, r1) := digits r0 0%Z 0%nat in
                     if (en =? 0)%nat then None
                     else Some (if eneg then (- e)%Z else e, r1)
                   else Some (0%Z, s2)
               | [] => Some (0%Z, s2)
               end;
    let m := (inject_Z i + inject_Z f * pow10 (- Z.of_nat fd))%Q in
    let q := Qred (m * pow10 e)%Q in
    Some (if neg then Qred (- q)%Q else q, s3).

Fixpoint prefix (p s : jsstring) : option jsstring :=
  match p, s with
  | [], _ => Some s
  | a :: p', b :: s' => if a =? b then prefix p' s' else None
  | _, [] => None
  end.

Fixpoint value (fuel : nat) (s : jsstring) : option (JSValue * jsstring) :=
  match fuel with
  | O => None
  | S fuel =>
      match skip_space s with
      | 0x7B :: r =>
          match skip_space r with
          | 0x7D :: r' => Some (JObject [], r')
          | _ => members fuel r []
          end
      | 0x5B :: r =>
          match skip_space r with
          | 0x5D :: r' => Some (JArray [], r')
          | _ => elements fuel r []
          end
      | 0x22 :: r =>
          '(t, r') ← string_chars (S (List.length r)) r [];
          Some (JString t, r')
      | c :: r =>
          match prefix (str "true") (c :: r) with
          | Some r' => Some (JBool true, r')
          | None =>
          match prefix (str "false") (c :: r) with
          | Some r' => Some (JBool false, r')
          | None =>
          match prefix (str "null") (c :: r) with
          | Some r' => Some (JNull, r')
          | None =>
              '(q, r') ← number_literal (c :: r);
              Some (JNumber (Num q), r')
          end end end
      | [] => None
      end
  end
with members (fuel : nat) (s : jsstring) (acc : list (jsstring * JSValue))
  : option (JSValue * jsstring) :=
  match fuel with
  | O => None
  | S fuel =>
      match skip_space s with
      | 0x22 :: r =>
          '(k, r1) ← string_chars (S (List.length r)) r [];
          match skip_space r1 with
          | 0x3A :: r2 =>
              '(v, r3) ← value fuel r2;
              match skip_space r3 with
              | 0x2C :: r4 => members fuel r4 (set_property acc k v)
              | 0x7D :: r4 => Some (JObject (set_property acc k v), r4)
              | _ => None
              end
          | _ => None
          end
      | _ => None
      end
  end
with elements (fuel : nat) (s : jsstring) (acc : list JSValue)
  : option (JSValue * jsstring) :=
  match fuel with
  | O => None
  | S fuel =>
      '(v, r) ← value fuel s;
      match skip_space r with
      | 0x2C :: r' => elements fuel r' (acc ++ [v])
      | 0x5D :: r' => Some (JArray (acc ++ [v]), r')
      | _ => None
      end
  end.

(** The message of the SyntaxError is the engine's; a fixed text stands
    for it. *)
Definition JSON_parse (s : jsstring) : jsstring + JSValue :=
  match value (S (List.length s)) s with
  | Some (v, r) =>
      match skip_space r with
      | [] => inr v
      | _ :: _ => inl (str "Unexpected non-whitespace character after JSON")
      end
  | None => inl (str "Unexpected token in JSON")
  end.

(** Days from 1970-01-01 to the civil date y-m-d (proleptic Gregorian). *)
Definition days_from_civil (y m d : Z) : Z :=
  let y' := if (m <=? 2)%Z then (y - 1)%Z else y in
  let era := (y' / 400)%Z in
  let yoe := (y' - era * 400)%Z in
  let mp := if (2 <? m)%Z then (m - 3)%Z else (m + 9)%Z in
  let doy := ((153 * mp + 2) / 5 + d - 1)%Z in
  let doe := (yoe * 365 + yoe / 4 - yoe / 100 + doy)%Z in
  (era * 146097 + doe - 719468)%Z.

Definition civil_from_days (z : Z) : Z * Z * Z :=
  let z := (z + 719468)%Z in
  let era := (z / 146097)%Z in
  let doe := (z - era * 146097)%Z in
  let yoe := ((doe - doe / 1460 + doe / 36524 - doe / 146096) / 365)%Z in
  let doy := (doe - (365 * yoe + yoe / 4 - yoe / 100))%Z in
  let mp := ((5 * doy + 2) / 153)%Z in
  let d := (doy - (153 * mp + 2) / 5 + 1)%Z in
  let m := if (mp <? 10)%Z then (mp + 3)%Z else (mp - 9)%Z in
  ((if (m <=? 2)%Z then yoe + era * 400 + 1 else yoe + era * 400)%Z, m, d).

Definition is_leap (y : Z) : bool :=
  ((y mod 4 =? 0) && negb (y mod 100 =? 0) || (y mod 400 =? 0))%Z.

Definition days_in_month (y m : Z) : Z :=
  if (m =? 2)%Z then (if is_leap y then 29 else 28)%Z
  else if ((m =? 4) || (m =? 6) || (m =? 9) || (m =? 11))%Z then 30%Z
  else 31%Z.

(** Exactly [n] digits, as a number. *)
Fixpoint fixed_digits (n : nat) (s : jsstring) (acc : Z)
  : option (Z * jsstring) :=
  match n with
  | O => Some (acc, s)
  | S n' =>
      match s with
      | c :: r =>
          if is_digit c
          then fixed_digits n' r (10 * acc + Z.of_N (c - 0x30))%Z
          else None
      | [] => None
      end
  end.

Definition expect (c : N) (s : jsstring) : option jsstring :=
  match s with
  | c' :: r => if c' =? c then Some r else None
  | [] => None
  end.

(** The milliseconds of a fraction: its first three digits. *)
Definition millis (f : jsstring) : Z :=
  let d (i : nat) := Z.of_N (nth i f 0x30 - 0x30) in
  (100 * d 0%nat + 10 * d 1%nat + d 2%nat)%Z.

(** YYYY-MM-DDTHH:MM:SS(.f+)?Z with a valid date and time of day: the
    time value. *)
Definition datetime (s : jsstring) : option Z :=
  '(y, s) ← fixed_digits 4 s 0%Z;
  s ← expect 0x2D s;
  '(m, s) ← fixed_digits 2 s 0%Z;
  s ← expect 0x2D s;
  '(d, s) ← fixed_digits 2 s 0%Z;
  s ← expect 0x54 s;
  '(hh, s) ← fixed_digits 2 s 0%Z;
  s ← expect 0x3A s;
  '(mm, s) ← fixed_digits 2 s 0%Z;
  s ← expect 0x3A s;
  '(ss, s) ← fixed_digits 2 s 0%Z;
  '(ms, s) ← match s with
             | 0x2E :: r =>
                 let '(_, n, r') := digits r 0%Z 0%nat in
                 if (n =? 0)%nat then None else Some (millis (firstn n r), r')
             | _ => Some (0%Z, s)
             end;
  match s with
  | [0x5A] =>
      if ((1 <=? m) && (m <=? 12) && (1 <=? d) && (d <=? days_in_month y m)
          && (hh <=? 23) && (mm <=? 59) && (ss <=? 59))%Z
      then Some (days_from_civil y m d * 86400000
                 + hh * 3600000 + mm * 60000 + ss * 1000 + ms)%Z
      else None
  | _ => None
  end.

Definition zod_datetime (s : jsstring) : bool :=
  match datetime s with Some _ => true | None => false end.

(** new Date(s) on the strings the check accepts; the constructor is
    not modelled on others. *)
Definition Date_new (s : jsstring) : Date :=
  match datetime s with Some ms => DateAt ms | None => InvalidDate end.

(** The decimal digits of [x] on [n] places. *)
Fixpoint decimal (n : nat) (x : Z) : jsstring :=
  match n with
  | O => []
  | S n' => decimal n' (x / 10)%Z ++ [0x30 + Z.to_N (x mod 10)%Z]
  end.

(** YYYY-MM-DDTHH:mm:ss.sssZ; years outside 0..9999 are written with a
    sign and six digits. *)
Definition Date_toISOString (ms : Z) : jsstring :=
  let day := (ms / 86400000)%Z in
  let t := (ms mod 86400000)%Z in
  let '(y, m, d) := civil_from_days day in
  (if ((0 <=? y) && (y <=? 9999))%Z then decimal 4 y
   else (if (y <? 0)%Z then 0x2D else 0x2B) :: decimal 6 (Z.abs y))
  ++ [0x2D] ++ decimal 2 m ++ [0x2D] ++ decimal 2 d ++ [0x54]
  ++ decimal 2 (t / 3600000)%Z ++ [0x3A]
  ++ decimal 2 ((t / 60000) mod 60)%Z ++ [0x3A]
  ++ decimal 2 ((t / 1000) mod 60)%Z ++ [0x2E]
  ++ decimal 3 (t mod 1000)%Z ++ [0x5A].

Definition runtime : Runtime :=
  mkRuntime JSON_parse zod_datetime Date_new Date_toISOString.

End Reference.

(** ** Concrete requests *)

(** The handler object of the test suite: createWebhookHandler({ secret }). *)
Definition test_handler : WebhookHandler :=
  mkWebhookHandler (str "test-secret-key") (Num 300) true ∅.

(** Two secrets that differ by a trailing NUL character. *)
Definition key_handler : WebhookHandler :=
  mkWebhookHandler (str "key") (Num 300) true ∅.
Definition key_nul_handler : WebhookHandler :=
  mkWebhookHandler (str "key" ++ [0]) (Num 300) true ∅.

(** The age of an event in seconds: now - T, both in milliseconds. *)
Definition age_seconds (now T : Z) : Q := (inject_Z (now - T) / 1000)%Q.

(** The age the method computes: the difference of the time values and
    its quotient by 1000, each rounded to a double. *)
Definition age_computed (now T : Z) : Q :=
  Double.round (Double.round (inject_Z (now - T)) / 1000).

(** The double that 0.3 denotes, and a handler with it as maximum age. *)
Definition double_0_3 : Q := 5404319552844595 # 18014398509481984.

Definition brief_handler : WebhookHandler :=
  mkWebhookHandler (str "test-secret-key") (Num double_0_3) true ∅.

(** Handlers 1, 2 and 1 again registered for agent.started, 3 for
    tool.used. *)
Definition registered_handler : WebhookHandler :=
  on (on (on (on test_handler agent_started 1%nat) agent_started 2%nat)
         agent_started 1%nat) tool_used 3%nat.

(** The payload of the scenario of the specification. *)
Definition started_payload : WebhookEventPayload :=
  mkWebhookEventPayload agent_started (str "s1") (DateAt 1704067200000)
    (AgentStartedData (str "p") (str "s1")).

(** Its body, one second old at [started_now]. *)
Definition started_body : jsstring :=
  quoted ("{'event':'agent.started','sessionId':'s1',"
          ++ "'timestamp':'2024-01-01T00:00:00.000Z',"
          ++ "'data':{'type':'agent.started','prompt':'p','sessionId':'s1'}}").

Definition started_now : Z := 1704067201000.

(** Handlers that return undefined and leave the registry alone. *)
Definition quiet : Behaviour :=
  fun _ _ m => (m, Normal None).

(** Handler 1 is a function that throws; the others return undefined. *)
Definition first_throws : Behaviour :=
  fun h _ m =>
    match h with
    | 1%nat => (m, Throw (Thrown 7))
    | _ => (m, Normal None)
    end.

(** Handler 1 is an async function whose promise is rejected at tick 1;
    the promise of the others is fulfilled at tick 5. *)
Definition first_rejects : Behaviour :=
  fun h _ m =>
    match h with
    | 1%nat => (m, Normal (Some (Settled 1 (Rejected (Thrown 7)))))
    | _ => (m, Normal (Some (Settled 5 Fulfilled)))
    end.

(** Handlers 1 and 2 registered for agent.started. *)
Definition two_handlers : WebhookHandler :=
  on (on test_handler agent_started 1%nat) agent_started 2%nat.

(** No call of a handler of [hs] on [payload] throws. *)
Definition all_return (behaviour : Behaviour)
    (hs : list WebhookEventHandler) (payload : WebhookEventPayload) : Prop :=
  forall h m, In h hs -> exists v, snd (behaviour h payload m) = Normal v.

(** A body whose event is agent.completed and whose data is tagged
    agent.started, and the payload it parses to. *)
Definition mismatched_body : jsstring :=
  quoted ("{'event':'agent.completed','sessionId':'s1',"
          ++ "'timestamp':'2024-01-01T00:00:00.000Z',"
          ++ "'data':{'type':'agent.started','prompt':'p','sessionId':'s1'}}").

Definition mismatched_payload : WebhookEventPayload :=
  mkWebhookEventPayload agent_completed (str "s1") (DateAt 1704067200000)
    (AgentStartedData (str "p") (str "s1")).

(** Handler 1 registered for agent.completed. *)
Definition completed_handler : WebhookHandler :=
  on test_handler agent_completed 1%nat.

(** Bodies of an agent.progress event with progress 150 and 50. *)
Definition progress_150_body : jsstring :=
  quoted ("{'event':'agent.progress','sessionId':'s1',"
          ++ "'timestamp':'2024-01-01T00:00:00.000Z',"
          ++ "'data':{'type':'agent.progress','sessionId':'s1',"
          ++ "'message':'m','progress':150}}").

Definition progress_50_body : jsstring :=
  quoted ("{'event':'agent.progress','sessionId':'s1',"
          ++ "'timestamp':'2024-01-01T00:00:00.000Z',"
          ++ "'data':{'type':'agent.progress','sessionId':'s1',"
          ++ "'message':'m','progress':50}}").

Definition progress_50_payload : WebhookEventPayload :=
  mkWebhookEventPayload agent_progress (str "s1") (DateAt 1704067200000)
    (AgentProgressData (str "s1") (str "m") (Num 50)).

(** A body whose event and data are both tagged agent.cancelled. *)
Definition cancelled_body : jsstring :=
  quoted ("{'event':'agent.cancelled','sessionId':'s1',"
          ++ "'timestamp':'2024-01-01T00:00:00.000Z',"
          ++ "'data':{'type':'agent.cancelled','sessionId':'s1'}}").

(** What JSON.parse returns on these bodies. *)
Definition body_json (event : string) (data : list (jsstring * JSValue))
  : JSValue :=
  JObject
    [(str "event", JString (str event));
     (str "sessionId", JString (str "s1"));
     (str "timestamp", JString (str "2024-01-01T00:00:00.000Z"));
     (str "data", JObject data)].

Definition started_json : JSValue :=
  body_json "agent.started"
    [(str "type", JString (str "agent.started"));
     (str "prompt", JString (str "p"));
     (str "sessionId", JString (str "s1"))].

Definition mismatched_json : JSValue :=
  body_json "agent.completed"
    [(str "type", JString (str "agent.started"));
     (str "prompt", JString (str "p"));
     (str "sessionId", JString (str "s1"))].

Definition progress_150_json : JSValue :=
  body_json "agent.progress"
    [(str "type", JString (str "agent.progress"));
     (str "sessionId", JString (str "s1"));
     (str "message", JString (str "m"));
     (str "progress", JNumber (Num 150))].

Definition cancelled_json : JSValue :=
  body_json "agent.cancelled"
    [(str "type", JString (str "agent.cancelled"));
     (str "sessionId", JString (str "s1"))].

(** Opens the binds of a shape that succeeded. *)
Ltac open_shape E :=
  repeat match type of E with
         | (?m ≫= _) = Some _ =>
             let F := fresh "F" in
             destruct m eqn:F; [cbn [mbind option_bind] in E|discriminate E]
         end.

(** ** More of services/webhook-handler.ts *)

(** Array.from(this.handlers.keys()), as the set of the keys: the order of
    the array (the order in which the keys were inserted) is not
    modelled. *)
Definition getRegisteredEvents (this : WebhookHandler)
  : gset CodegenEventType :=
  dom (handlers this).

(** No event is mapped to an empty list of handlers. *)
Definition no_empty_entry (this : WebhookHandler) : Prop :=
  forall e, handlers this !! e <> Some [].

(** ** More of types/codegen.ts: the type guards *)

Definition isAgentStartedData (d : WebhookEventData) : bool :=
  jsstring_eqb (event_name (data_type d)) (str "agent.started").

Definition isAgentCompletedData (d : WebhookEventData) : bool :=
  jsstring_eqb (event_name (data_type d)) (str "agent.completed").

Definition isAgentFailedData (d : WebhookEventData) : bool :=
  jsstring_eqb (event_name (data_type d)) (str "agent.failed").

Definition isAgentProgressData (d : WebhookEventData) : bool :=
  jsstring_eqb (event_name (data_type d)) (str "agent.progress").

Definition isToolUsedData (d : WebhookEventData) : bool :=
  jsstring_eqb (event_name (data_type d)) (str "tool.used").

Definition isFileModifiedData (d : WebhookEventData) : bool :=
  jsstring_eqb (event_name (data_type d)) (str "file.created")
  || jsstring_eqb (event_name (data_type d)) (str "file.updated")
  || jsstring_eqb (event_name (data_type d)) (str "file.deleted").

Inductive AgentStatus := idle | running | completed | failed | cancelled.

Definition status_name (s : AgentStatus) : jsstring :=
  match s with
  | idle => str "idle"
  | running => str "running"
  | completed => str "completed"
  | failed => str "failed"
  | cancelled => str "cancelled"
  end.

(** ** More of types/schemas.ts *)

Module CodegenConfig.
Record t := mk
  { apiKey : jsstring;
    apiUrl : jsstring;
    timeout : option number;
    retryAttempts : option number;
    retryDelay : option number }.
End CodegenConfig.

Module AgentInvocationRequest.
Record t := mk
  { prompt : jsstring;
    context : option (list (jsstring * JSValue));
    sessionId : option jsstring;
    continueSession : option bool;
    tools : option (list jsstring);
    maxTokens : option number;
    temperature : option number }.
End AgentInvocationRequest.

Module AgentInvocationResponse.
Record t := mk
  { sessionId : jsstring;
    status : AgentStatus;
    result : option jsstring;
    error : option CodegenError;
    metadata : AgentMetadata }.
End AgentInvocationResponse.

Module WebhookConfig.
Record t := mk
  { url : jsstring;
    secret : jsstring;
    events : list CodegenEventType;
    retryAttempts : option number }.
End WebhookConfig.

Module SessionInfo.
Record t := mk
  { sessionId : jsstring;
    status : AgentStatus;
    createdAt : Date;
    updatedAt : Date;
    metadata : AgentMetadata }.
End SessionInfo.

Module PaginatedResponse.
Record t (T : Type) := mk
  { data : list T;
    total : number;
    page : number;
    pageSize : number;
    hasMore : bool }.
Arguments mk {T} data total page pageSize hasMore.
Arguments data {T} t.
Arguments total {T} t.
Arguments page {T} t.
Arguments pageSize {T} t.
Arguments hasMore {T} t.
End PaginatedResponse.

Module ApiResponse.
Record t (T : Type) := mk
  { success : bool;
    data : option T;
    error : option CodegenError;
    timestamp : Date }.
Arguments mk {T} success data error timestamp.
Arguments success {T} t.
Arguments data {T} t.
Arguments error {T} t.
Arguments timestamp {T} t.
End ApiResponse.

(** Number.isInteger *)
Definition Number_isInteger (n : number) : bool :=
  match n with
  | NaN => false
  | Num q => (Qden (Qred q) =? 1)%positive
  end.

Section MoreSchemas.

Variable rt : Runtime.

(** The check of z.string().url(): the URL constructor accepts the
    string.  It is taken as given. *)
Variable zod_url : jsstring -> bool.

Definition z_boolean : Schema bool := fun v =>
  match v with
  | Some (JBool b) => Some b
  | _ => None
  end.

(** z.string().min(1) *)
Definition z_string_min_1 : Schema jsstring := fun v =>
  s ← z_string v;
  if (List.length s <? 1)%nat then None else Some s.

(** z.string().url() *)
Definition z_string_url : Schema jsstring := fun v =>
  s ← z_string v;
  if zod_url s then Some s else None.

(** z.number().positive() *)
Definition z_number_positive : Schema number := fun v =>
  n ← z_number v;
  if number_le n (Num 0) then None else Some n.

(** z.number().int().positive() *)
Definition z_number_int_positive : Schema number := fun v =>
  n ← z_number v;
  if negb (Number_isInteger n) then None
  else if number_le n (Num 0) then None
  else Some n.

(** z.number().int().nonnegative() *)
Definition z_number_int_nonnegative : Schema number := fun v =>
  n ← z_number v;
  if negb (Number_isInteger n) then None
  else if number_lt n (Num 0) then None
  else Some n.

(** z.date(): a Date object that is a valid date *)
Definition z_date : Schema Date := fun v =>
  match v with
  | Some (JDate (DateAt ms)) => Some (DateAt ms)
  | _ => None
  end.

(** z.void(): undefined only *)
Definition z_void : Schema unit := fun v =>
  match v with
  | None => Some tt
  | Some _ => None
  end.

Definition AgentStatusSchema : Schema AgentStatus :=
  z_enum
    (List.map (fun s => (status_name s, s))
       [idle; running; completed; failed; cancelled]).

Definition CodegenConfigSchema : Schema CodegenConfig.t :=
  z_object (fun o =>
    k ← z_string_min_1 (get o (str "apiKey"));
    u ← z_string_url (get o (str "apiUrl"));
    t ← z_optional z_number_positive (get o (str "timeout"));
    a ← z_optional z_number_int_nonnegative (get o (str "retryAttempts"));
    d ← z_optional z_number_positive (get o (str "retryDelay"));
    Some (CodegenConfig.mk k u t a d)).

Definition AgentInvocationRequestSchema : Schema AgentInvocationRequest.t :=
  z_object (fun o =>
    p ← z_string_min_1 (get o (str "prompt"));
    c ← z_optional z_record_unknown (get o (str "context"));
    s ← z_optional z_string (get o (str "sessionId"));
    cs ← z_optional z_boolean (get o (str "continueSession"));
    t ← z_optional (z_array z_string) (get o (str "tools"));
    m ← z_optional z_number_int_positive (get o (str "maxTokens"));
    te ← z_optional (z_number_min_max 0 2) (get o (str "temperature"));
    Some (AgentInvocationRequest.mk p c s cs t m te)).

Definition AgentInvocationResponseSchema : Schema AgentInvocationResponse.t :=
  z_object (fun o =>
    s ← z_string (get o (str "sessionId"));
    st ← AgentStatusSchema (get o (str "status"));
    r ← z_optional z_string (get o (str "result"));
    e ← z_optional (CodegenErrorSchema rt) (get o (str "error"));
    m ← AgentMetadataSchema rt (get o (str "metadata"));
    Some (AgentInvocationResponse.mk s st r e m)).

Definition WebhookConfigSchema : Schema WebhookConfig.t :=
  z_object (fun o =>
    u ← z_string_url (get o (str "url"));
    s ← z_string_min_1 (get o (str "secret"));
    e ← z_array CodegenEventTypeSchema (get o (str "events"));
    a ← z_optional z_number_int_nonnegative (get o (str "retryAttempts"));
    Some (WebhookConfig.mk u s e a)).

Definition SessionInfoSchema : Schema SessionInfo.t :=
  z_object (fun o =>
    s ← z_string (get o (str "sessionId"));
    st ← AgentStatusSchema (get o (str "status"));
    c ← z_datetime_or_date rt (get o (str "createdAt"));
    u ← z_datetime_or_date rt (get o (str "updatedAt"));
    m ← AgentMetadataSchema rt (get o (str "metadata"));
    Some (SessionInfo.mk s st c u m)).

Definition PaginatedResponseSchema {T} (itemSchema : Schema T)
  : Schema (PaginatedResponse.t T) :=
  z_object (fun o =>
    d ← z_array itemSchema (get o (str "data"));
    t ← z_number_int_nonnegative (get o (str "total"));
    p ← z_number_int_positive (get o (str "page"));
    ps ← z_number_int_positive (get o (str "pageSize"));
    h ← z_boolean (get o (str "hasMore"));
    Some (PaginatedResponse.mk d t p ps h)).

Definition ApiResponseSchema {T} (dataSchema : Schema T)
  : Schema (ApiResponse.t T) :=
  z_object (fun o =>
    s ← z_boolean (get o (str "success"));
    d ← z_optional dataSchema (get o (str "data"));
    e ← z_optional (CodegenErrorSchema rt) (get o (str "error"));
    t ← z_date (get o (str "timestamp"));
    Some (ApiResponse.mk s d e t)).

End MoreSchemas.

(** No Date object occurs in the value: it is what a JSON text denotes. *)
Fixpoint date_free (v : JSValue) : bool :=
  match v with
  | JDate _ => false
  | JArray items => forallb date_free items
  | JObject props => forallb (fun '(_, x) => date_free x) props
  | _ => true
  end.

(** ** api/codegen-client.ts *)

(** The decimal form of an integer, as a template literal prints it. *)
Definition Z_toString (z : Z) : jsstring :=
  str (NilZero.string_of_int (Z.to_int z)).

Module Client.

(** CodegenApiError: its message, code, details and statusCode. *)
Record CodegenApiError := mkCodegenApiError
  { message : jsstring;
    code : jsstring;
    details : option JSValue;
    statusCode : option Z }.

(** What a method of the client throws: a CodegenApiError, the ZodError
    of a schema, or the TypeError of a call of toString on a value whose
    toString is not a function. *)
Inductive ClientError :=
| ApiError (e : CodegenApiError)
| ValidationError
| TypeError.

Inductive Outcome (A : Type) :=
| Returned (a : A)
| Threw (e : ClientError).
Arguments Returned {A} a.
Arguments Threw {A} e.

Record RetryConfig := mkRetryConfig
  { attempts : number;
    delay : number }.

(** The configuration given to axios.create. *)
Record AxiosInstance := mkAxiosInstance
  { baseURL : jsstring;
    timeout : number;
    headers : list (jsstring * jsstring) }.

Record CodegenClient := mkCodegenClient
  { client : AxiosInstance;
    retryConfig : RetryConfig }.

(** An AxiosError: the response when the server answered (its status and
    data), whether a request was made, and the message. *)
Record AxiosResponse := mkAxiosResponse
  { status : Z;
    data : option JSValue }.

Record AxiosError := mkAxiosError
  { response : option AxiosResponse;
    request : bool;
    error_message : jsstring }.

Inductive Method := GET | POST | DELETE.

Inductive Payload :=
| NoPayload
| Body (validatedRequest : AgentInvocationRequest.t)
| Params (page pageSize : number).

Record Request := mkRequest
  { method : Method;
    url : jsstring;
    payload : Payload }.

(** What running a method did: how many times the request function was
    called, the delays given to setTimeout between the calls, and what the
    method returned or threw. *)
Record Attempted (A : Type) := mkAttempted
  { calls : nat;
    waits : list Double.t;
    outcome : Outcome A }.
Arguments mkAttempted {A} calls waits outcome.
Arguments calls {A} a.
Arguments waits {A} a.
Arguments outcome {A} a.

Section Client.

Variable rt : Runtime.
Variable zod_url : jsstring -> bool.

(** toString() of a number and of a Date object.  They are taken as
    given. *)
Variable Number_toString : number -> jsstring.
Variable Date_toString : Date -> jsstring.

(** The network: what the [k]-th request sent gets, an AxiosError or the
    data of the response. *)
Variable respond : Request -> nat -> AxiosError + JSValue.

Definition constructor (config : JSValue) : Outcome CodegenClient :=
  match CodegenConfigSchema zod_url (Some config) with
  | None => Threw ValidationError
  | Some validatedConfig =>
      Returned
        (mkCodegenClient
           (mkAxiosInstance (CodegenConfig.apiUrl validatedConfig)
              (default (Num 30000) (CodegenConfig.timeout validatedConfig))
              [(str "Content-Type", str "application/json");
               (str "Authorization",
                str "Bearer " ++ CodegenConfig.apiKey validatedConfig)])
           (mkRetryConfig
              (default (Num 3) (CodegenConfig.retryAttempts validatedConfig))
              (default (Num 1000) (CodegenConfig.retryDelay validatedConfig))))
  end.

(** data?.key *)
Definition property (data : option JSValue) (key : jsstring)
  : option JSValue :=
  match data with
  | Some (JObject o) => get o key
  | _ => None
  end.

(** value.toString() on a value of the data of a response, None when the
    call throws a TypeError.  An object that has a property toString of its
    own does not have a function there, so the call throws; another object
    prints as [object Object].  An array joins its elements with commas,
    null being printed as nothing, and throws where an element does. *)
Fixpoint toString (v : JSValue) : option jsstring :=
  match v with
  | JNull => None
  | JBool b => Some (if b then str "true" else str "false")
  | JNumber n => Some (Number_toString n)
  | JString s => Some s
  | JArray items =>
      (fix join (l : list JSValue) : option jsstring :=
         match l with
         | [] => Some []
         | e :: r =>
             s ← match e with
                 | JNull => Some []
                 | _ => toString e
                 end;
             match r with
             | [] => Some s
             | _ :: _ => t ← join r; Some (s ++ str "," ++ t)
             end
         end) items
  | JObject props =>
      match get props (str "toString") with
      | Some _ => None
      | None => Some (str "[object Object]")
      end
  | JDate d => Some (Date_toString d)
  end.

(** value?.toString(): undefined for undefined and null; None when it
    throws. *)
Definition optional_toString (v : option JSValue)
  : option (option jsstring) :=
  match v with
  | None => Some None
  | Some JNull => Some None
  | Some x => Some <$> toString x
  end.

(** handleAxiosError, None when it throws the TypeError of toString. *)
Definition handleAxiosError (error : AxiosError) : option CodegenApiError :=
  match response error with
  | Some r =>
      message ← optional_toString (property (data r) (str "message"));
      code ← optional_toString (property (data r) (str "code"));
      Some (mkCodegenApiError
              (default (error_message error) message)
              (default (str "HTTP_" ++ Z_toString (status r)) code)
              (property (data r) (str "details"))
              (Some (status r)))
  | None =>
      if request error then
        Some (mkCodegenApiError (str "No response received from server")
                (str "NO_RESPONSE")
                (Some (JObject [(str "originalError",
                                 JString (error_message error))]))
                None)
      else
        Some (mkCodegenApiError (error_message error)
                (str "REQUEST_SETUP_ERROR")
                (Some (JObject [(str "originalError",
                                 JString (error_message error))]))
                None)
  end.

(** error instanceof CodegenApiError && error.statusCode
    && error.statusCode < 500 *)
Definition client_error (error : ClientError) : bool :=
  match error with
  | ApiError e =>
      match statusCode e with
      | Some s => negb (s =? 0)%Z && (s <? 500)%Z
      | None => false
      end
  | ValidationError => false
  | TypeError => false
  end.

(** retryRequest(requestFn, attempt).  [requestFn k] is what the call
    number [k] of the request function does, [made] the number of calls
    made before; the recursion is cut by [fuel]. *)
Fixpoint retryRequest {A} (fuel : nat) (this : CodegenClient)
    (requestFn : nat -> Outcome A) (made : nat) (attempt : Z)
  : option (Attempted A) :=
  match fuel with
  | O => None
  | S fuel =>
      match requestFn made with
      | Returned a => Some (mkAttempted (S made) [] (Returned a))
      | Threw error =>
          if number_ge (Num (inject_Z attempt)) (attempts (retryConfig this))
          then Some (mkAttempted (S made) [] (Threw error))
          else if client_error error
          then Some (mkAttempted (S made) [] (Threw error))
          else
            let delay :=
              Double.mul (Double.of_number (delay (retryConfig this)))
                         (Double.pow2 (attempt - 1)) in
            r ← retryRequest fuel this requestFn (S made) (attempt + 1);
            Some (mkAttempted (calls r) (delay :: waits r) (outcome r))
      end
  end.

(** The request function of the methods: send the request, turn an
    AxiosError into a CodegenApiError (the response interceptor, which
    rejects with the TypeError when handleAxiosError throws it), validate
    the data of the response. *)
Definition send {A} (r : Request) (responseSchema : Schema A) (k : nat)
  : Outcome A :=
  match respond r k with
  | inl error =>
      match handleAxiosError error with
      | Some e => Threw (ApiError e)
      | None => Threw TypeError
      end
  | inr data =>
      match responseSchema (Some data) with
      | Some a => Returned a
      | None => Threw ValidationError
      end
  end.

Definition invokeAgent (fuel : nat) (this : CodegenClient) (request : JSValue)
  : option (Attempted (ApiResponse.t AgentInvocationResponse.t)) :=
  match AgentInvocationRequestSchema (Some request) with
  | None => Some (mkAttempted 0 [] (Threw ValidationError))
  | Some validatedRequest =>
      retryRequest fuel this
        (send (mkRequest POST (str "/agents/invoke") (Body validatedRequest))
           (ApiResponseSchema rt (AgentInvocationResponseSchema rt)))
        0 1
  end.

Definition session_id_required {A} : Attempted A :=
  mkAttempted 0 []
    (Threw (ApiError (mkCodegenApiError (str "Session ID is required")
                        (str "INVALID_SESSION_ID") None None))).

Definition getSession (fuel : nat) (this : CodegenClient)
    (sessionId : jsstring)
  : option (Attempted (ApiResponse.t SessionInfo.t)) :=
  if falsy (Some sessionId) || (List.length (trim sessionId) =? 0)%nat
  then Some session_id_required
  else
    retryRequest fuel this
      (send (mkRequest GET (str "/sessions/" ++ sessionId) NoPayload)
         (ApiResponseSchema rt (SessionInfoSchema rt)))
      0 1.

(** listSessions(page = 1, pageSize = 20); None is an argument left
    out. *)
Definition listSessions (fuel : nat) (this : CodegenClient)
    (page pageSize : option number)
  : option (Attempted
              (ApiResponse.t (PaginatedResponse.t SessionInfo.t))) :=
  let page := default (Num 1) page in
  let pageSize := default (Num 20) pageSize in
  if number_lt page (Num 1) then
    Some (mkAttempted 0 []
            (Threw (ApiError (mkCodegenApiError (str "Page must be >= 1")
                                (str "INVALID_PAGE") None None))))
  else if number_lt pageSize (Num 1) || number_gt pageSize (Num 100) then
    Some (mkAttempted 0 []
            (Threw (ApiError
                      (mkCodegenApiError
                         (str "Page size must be between 1 and 100")
                         (str "INVALID_PAGE_SIZE") None None))))
  else
    retryRequest fuel this
      (send (mkRequest GET (str "/sessions") (Params page pageSize))
         (ApiResponseSchema rt
            (PaginatedResponseSchema (SessionInfoSchema rt))))
      0 1.

Definition cancelSession (fuel : nat) (this : CodegenClient)
    (sessionId : jsstring)
  : option (Attempted (ApiResponse.t SessionInfo.t)) :=
  if falsy (Some sessionId) || (List.length (trim sessionId) =? 0)%nat
  then Some session_id_required
  else
    retryRequest fuel this
      (send (mkRequest POST (str "/sessions/" ++ sessionId ++ str "/cancel")
               NoPayload)
         (ApiResponseSchema rt (SessionInfoSchema rt)))
      0 1.

Definition deleteSession (fuel : nat) (this : CodegenClient)
    (sessionId : jsstring) : option (Attempted (ApiResponse.t unit)) :=
  if falsy (Some sessionId) || (List.length (trim sessionId) =? 0)%nat
  then Some session_id_required
  else
    retryRequest fuel this
      (send (mkRequest DELETE (str "/sessions/" ++ sessionId) NoPayload)
         (ApiResponseSchema rt z_void))
      0 1.

End Client.


End Client.

(** The delay in milliseconds that a timer of Node is set to by
    setTimeout(callback, delay): a delay that is NaN, below 1 or above
    2 ^ 31 - 1 is set to 1, another one is truncated to an integer. *)
Definition Node_timeout (delay : Double.t) : Z :=
  match delay with
  | Double.fin q =>
      if Qle_bool 1 q && Qle_bool q 2147483647 then Qfloor q else 1%Z
  | _ => 1%Z
  end.

(** ** utils/index.ts *)

Definition isTerminalStatus (status : AgentStatus) : bool :=
  jsstring_eqb (status_name status) (str "completed")
  || jsstring_eqb (status_name status) (str "failed")
  || jsstring_eqb (status_name status) (str "cancelled").

Definition isActiveStatus (status : AgentStatus) : bool :=
  jsstring_eqb (status_name status) (str "running")
  || jsstring_eqb (status_name status) (str "idle").

(** calculateRetryDelay(attempt, baseDelay = 1000, maxDelay = 30000), for
    an attempt that is an integer: for another exponent the language
    leaves the value of ** to the implementation. *)
Definition calculateRetryDelay (attempt : Z)
    (baseDelay maxDelay : option Double.t) : Double.t :=
  let baseDelay := default (Double.fin 1000) baseDelay in
  let maxDelay := default (Double.fin 30000) maxDelay in
  let delay := Double.mul baseDelay (Double.pow2 (attempt - 1)) in
  Double.min delay maxDelay.




(** ** Concrete clients and servers *)

(** The properties of the body [started_json]. *)
Definition started_properties : list (jsstring * JSValue) :=
  match started_json with
  | JObject o => o
  | _ => []
  end.

(** The data of an agent.progress event at [progress] percent. *)
Definition progress_data (progress : Q) : list (jsstring * JSValue) :=
  [(str "type", JString (str "agent.progress"));
   (str "sessionId", JString (str "s1"));
   (str "message", JString (str "m"));
   (str "progress", JNumber (Num progress))].

(** A URL check that accepts the strings that start with "http". *)
Definition http_url (s : jsstring) : bool :=
  jsstring_eqb (firstn 4 s) (str "http").

(** toString on the numbers that are integers, and a toString of dates
    that prints the time value. *)
Definition integer_toString (n : number) : jsstring :=
  match n with
  | NaN => str "NaN"
  | Num q => Z_toString (Qfloor q)
  end.

Definition time_toString (d : Date) : jsstring :=
  integer_toString (getTime d).

(** A configuration that leaves the timeout and the retries out. *)
Definition minimal_config : JSValue :=
  JObject [(str "apiKey", JString (str "k"));
           (str "apiUrl", JString (str "https://api.example.com"))].

(** The client the constructor builds from it. *)
Definition default_client : Client.CodegenClient :=
  Client.mkCodegenClient
    (Client.mkAxiosInstance (str "https://api.example.com") (Num 30000)
       [(str "Content-Type", str "application/json");
        (str "Authorization", str "Bearer k")])
    (Client.mkRetryConfig (Num 3) (Num 1000)).

(** A server that answers every request with the status [status] and no
    data. *)
Definition answers_status (status : Z)
  : Client.Request -> nat -> Client.AxiosError + JSValue :=
  fun _ _ =>
    inl (Client.mkAxiosError (Some (Client.mkAxiosResponse status None)) true
           (str "Request failed")).

(** The error of axios for an answer 404 with no data, and the
    CodegenApiError it is turned into. *)
Definition not_found : Client.AxiosError :=
  Client.mkAxiosError (Some (Client.mkAxiosResponse 404 None)) true
    (str "Request failed").

Definition not_found_error : Client.CodegenApiError :=
  Client.mkCodegenApiError (str "Request failed") (str "HTTP_404") None
    (Some 404%Z).

(** A server that answers every request with the status 404 and an
    object whose message has a toString that is not a function. *)
Definition answers_odd_message
  : Client.Request -> nat -> Client.AxiosError + JSValue :=
  fun _ _ =>
    inl (Client.mkAxiosError
           (Some (Client.mkAxiosResponse 404
                    (Some (JObject
                             [(str "message",
                               JObject [(str "toString", JNumber (Num 1))])]))))
           true (str "Request failed")).

(** A server that answers every request with a successful response in
    JSON. *)
Definition answered_json : JSValue :=
  JObject [(str "success", JBool true);
           (str "timestamp", JString (str "2024-01-01T00:00:00.000Z"))].

Definition answers_json : Client.Request -> nat -> Client.AxiosError + JSValue :=
  fun _ _ => inr answered_json.

(** A request function that fails twice with a network error and then
    returns. *)
Definition third_time_lucky (k : nat) : Client.Outcome nat :=
  if (k <? 2)%nat
  then Client.Threw
         (Client.ApiError
            (Client.mkCodegenApiError (str "No response received from server")
               (str "NO_RESPONSE") None None))
  else Client.Returned k.


(** An object schema fails on an object whose type is another string than
    its literal. *)
Ltac skip_literal H E :=
  unfold z_object; rewrite H; unfold z_literal; rewrite E; reflexivity.

(** * Properties *)

(** ** Strings, buffers and signatures *)

Lemma Normal_inj {A} (a b : A) : Normal a = Normal b -> a = b.
Proof. intros H. now injection H. Qed.

Lemma jsstring_eqb_eq (a b : jsstring) : jsstring_eqb a b = true <-> a = b.
Proof.
  revert b; induction a as [|x a IH]; intros [|y b]; simpl;
    try (split; [discriminate | congruence]); [tauto|].
  rewrite andb_true_iff, N.eqb_eq, IH. split; [intros []|intros [=]]; subst; auto.
Qed.

Lemma Buffer_eqb_eq (a b : Buffer) : Buffer_eqb a b = true <-> a = b.
Proof. apply jsstring_eqb_eq. Qed.

Lemma trimStart_snoc_length (s : jsstring) (c : N) :
  is_white_space c = false -> (0 < List.length (trimStart (s ++ [c])))%nat.
Proof.
  intros Hc. induction s as [|x s IH]; simpl.
  - rewrite Hc. simpl. lia.
  - destruct (is_white_space x); [exact IH | simpl; lia].
Qed.

(** A string that starts with a character trim does not strip is not
    blank. *)
Lemma trim_not_blank (c : N) (s : jsstring) :
  is_white_space c = false -> (List.length (trim (c :: s)) =? 0)%nat = false.
Proof.
  intros Hc. apply Nat.eqb_neq. unfold trim, trimEnd. simpl trimStart.
  rewrite Hc, length_rev. simpl rev.
  pose proof (trimStart_snoc_length (rev s) c Hc). lia.
Qed.

Lemma be_bytes (n : nat) (x : N) : Forall (fun b => b < 256) (Sha256.be n x).
Proof.
  unfold Sha256.be. apply Forall_map, Forall_forall. intros i _.
  change 0xFF with (N.ones 8). rewrite N.land_ones.
  apply N.mod_lt. discriminate.
Qed.

Lemma digest_bytes (m : Buffer) : Forall (fun b => b < 256) (Sha256.digest m).
Proof.
  unfold Sha256.digest. repeat (apply Forall_app; split); apply be_bytes.
Qed.

Lemma hex_digit_ascii (d : N) : d < 16 -> hex_digit d < 0x80.
Proof. unfold hex_digit. intros H. destruct (d <? 10) eqn:E; lia. Qed.

Lemma hex_ascii (b : Buffer) :
  Forall (fun x => x < 256) b -> Forall (fun c => c < 0x80) (hex b).
Proof.
  induction 1 as [|x b Hx _ IH]; simpl; [constructor|].
  constructor; [|constructor; [|exact IH]]; apply hex_digit_ascii.
  - rewrite N.shiftr_div_pow2. change (2 ^ 4) with 16.
    apply N.Div0.div_lt_upper_bound. lia.
  - change 0xF with (N.ones 4). rewrite N.land_ones.
    apply N.mod_lt. discriminate.
Qed.

Lemma computeSignature_ascii (this : WebhookHandler) (payload : jsstring) :
  Forall (fun c => c < 0x80) (computeSignature this payload).
Proof.
  unfold computeSignature. apply Forall_app. split.
  - repeat constructor.
  - apply hex_ascii, digest_bytes.
Qed.

(** The UTF-8 encoding of an ASCII string is the string. *)
Lemma utf8_ascii (s : jsstring) :
  Forall (fun c => c < 0x80) s -> Buffer_from_utf8 s = s.
Proof.
  induction 1 as [|c s Hc _ IH]; simpl; [reflexivity|].
  unfold utf8_encode_code_point. apply N.ltb_lt in Hc. rewrite Hc.
  simpl. now rewrite IH.
Qed.

Lemma bit7_ascii (b : N) : b < 0x80 -> N.testbit b 7 = false.
Proof.
  intros H. rewrite <- (N.mod_small b (2 ^ 7)) by exact H.
  apply N.mod_pow2_bits_high. lia.
Qed.

Lemma utf8_first_byte (c : N) :
  0x80 <= c ->
  exists b r, utf8_encode_code_point c = b :: r /\ N.testbit b 7 = true.
Proof.
  intros H. unfold utf8_encode_code_point.
  rewrite (proj2 (N.ltb_ge c 0x80) H).
  destruct (c <? 0x800); [|destruct (_ && _); [|destruct (c <? 0x10000)]];
    eexists _, _; (split; [reflexivity|]);
    try reflexivity; rewrite N.lor_spec; reflexivity.
Qed.

(** Only an ASCII string itself encodes to it. *)
Lemma utf8_ascii_inv (s a : jsstring) :
  Forall (fun c => c < 0x80) a -> Buffer_from_utf8 s = a -> s = a.
Proof.
  intros Ha. revert s. induction Ha as [|x a Hx _ IH]; intros s E.
  - destruct s as [|c s]; [reflexivity|]. simpl in E.
    apply app_eq_nil in E as [E _]. unfold utf8_encode_code_point in E.
    repeat (destruct (_ : bool) in E; try discriminate).
  - destruct s as [|c s]; [discriminate|]. simpl in E.
    destruct (N.lt_ge_cases c 0x80) as [Hc|Hc].
    + unfold utf8_encode_code_point in E. apply N.ltb_lt in Hc.
      rewrite Hc in E. simpl in E. injection E as -> E. f_equal. now apply IH.
    + destruct (utf8_first_byte c Hc) as (b & r & Eb & Hb).
      rewrite Eb in E. simpl in E. injection E as -> _.
      rewrite (bit7_ascii x Hx) in Hb. discriminate.
Qed.

(** The digest of "abc" (FIPS 180-4) and test case 2 of RFC 4231. *)
Lemma digest_abc :
  hex (Sha256.digest (Buffer_from_utf8 (str "abc")))
  = str "ba7816bf8f01cfea414140de5dae2223b00361a396177a9cb410ff61f20015ad".
Proof. vm_compute. reflexivity. Qed.

Lemma hmac_rfc4231_2 :
  hex (Sha256.hmac (Buffer_from_utf8 (str "Jefe"))
         (Buffer_from_utf8 (str "what do ya want for nothing?")))
  = str "5bdcc146bf60754e6a042426089575c75a003f089d2739839dec58b964ec3843".
Proof. vm_compute. reflexivity. Qed.

(** Test case 6 of RFC 4231: a key longer than a block is hashed first. *)
Lemma hmac_rfc4231_6 :
  hex (Sha256.hmac (repeat 0xaa 131)
         (Buffer_from_utf8
            (str "Test Using Larger Than Block-Size Key - Hash Key First")))
  = str "60e431591ee0b67f0d8a26aacbf5b77f8e0bc6213728c5140546040f0ee37f54".
Proof. vm_compute. reflexivity. Qed.

(** The signature of the test "should return true for valid signature". *)
Lemma computeSignature_test :
  computeSignature test_handler (quoted "{'test':'data'}")
  = str ("sha256="
         ++ "c66db02bf1c7157fa8624c7d07081aef5803ee15f9494661e6a1688565da8ad6").
Proof. vm_compute. reflexivity. Qed.

(** From here on the digest is computed by vm_compute only. *)
Opaque Sha256.digest.

Lemma Buffer_eqb_refl (a : Buffer) : Buffer_eqb a a = true.
Proof. now apply Buffer_eqb_eq. Qed.

(** What verifySignature computes on a signature that is present. *)
Lemma verifySignature_Some (this : WebhookHandler) (payload sig : jsstring) :
  verifySignature this payload (Some sig)
  = Normal
      (negb (falsy (Some sig) || (List.length (trim sig) =? 0)%nat)
       && ((List.length (Buffer_from_utf8 sig)
            =? List.length (Buffer_from_utf8 (computeSignature this payload)))%nat
           && Buffer_eqb (Buffer_from_utf8 sig)
                (Buffer_from_utf8 (computeSignature this payload)))).
Proof.
  unfold verifySignature.
  destruct (falsy (Some sig) || (List.length (trim sig) =? 0)%nat);
    [reflexivity|].
  cbv beta zeta delta [timingSafeEqual].
  generalize (Buffer_from_utf8 (computeSignature this payload)) as expected.
  generalize (Buffer_from_utf8 sig) as given. intros given expected.
  destruct (List.length given =? List.length expected)%nat; reflexivity.
Qed.

Lemma computeSignature_not_blank (this : WebhookHandler) (payload : jsstring) :
  falsy (Some (computeSignature this payload))
  || (List.length (trim (computeSignature this payload)) =? 0)%nat = false.
Proof.
  unfold computeSignature. change (str "sha256=") with (115 :: str "ha256=").
  rewrite <- app_comm_cons. simpl falsy.
  now rewrite trim_not_blank.
Qed.

(** The only signature verifySignature accepts is the expected one. *)
Lemma verifySignature_true_iff (this : WebhookHandler) (payload : jsstring)
    (signature : option jsstring) :
  verifySignature this payload signature = Normal true
  <-> signature = Some (computeSignature this payload).
Proof.
  destruct signature as [sig|]; [|split; discriminate].
  rewrite verifySignature_Some. split.
  - intros H%Normal_inj. apply andb_true_iff in H as [_ H].
    apply andb_true_iff in H as [_ H]. apply Buffer_eqb_eq in H.
    rewrite (utf8_ascii (computeSignature this payload)) in H
      by apply computeSignature_ascii.
    f_equal. apply utf8_ascii_inv; [apply computeSignature_ascii | exact H].
  - intros H%(f_equal (default [])). simpl in H. subst sig.
    rewrite computeSignature_not_blank, Nat.eqb_refl, Buffer_eqb_refl.
    reflexivity.
Qed.

Lemma verifySignature_total (this : WebhookHandler) (payload : jsstring)
    (signature : option jsstring) :
  exists b, verifySignature this payload signature = Normal b.
Proof.
  destruct signature as [sig|]; [|now exists false].
  rewrite verifySignature_Some. eauto.
Qed.

Lemma verifySignature_false_iff (this : WebhookHandler) (payload : jsstring)
    (signature : option jsstring) :
  verifySignature this payload signature = Normal false
  <-> signature <> Some (computeSignature this payload).
Proof.
  rewrite <- verifySignature_true_iff.
  destruct (verifySignature_total this payload signature) as [[] ->];
    split; congruence.
Qed.

(** verifySignature returns true on the expected signature and false on
    every other signature, present or not. *)
Lemma verifySignature_accepts_only_expected (this : WebhookHandler)
    (payload : jsstring) (signature : option jsstring) :
  verifySignature this payload signature
  = Normal (bool_decide (signature = Some (computeSignature this payload))).
Proof.
  case_bool_decide as H.
  - now apply verifySignature_true_iff.
  - now apply verifySignature_false_iff.
Qed.

(** C2 (as amended): verifying a payload against the signature made with
    the handler's own secret returns true; verifying it against a signature
    made with another secret returns false exactly when that signature
    differs from the one made with the handler's secret. *)
Theorem verify_sign (this that : WebhookHandler) (payload : jsstring) :
  verifySignature this payload (Some (computeSignature this payload))
  = Normal true
  /\ (verifySignature this payload (Some (computeSignature that payload))
      = Normal false
      <-> computeSignature that payload <> computeSignature this payload).
Proof.
  split.
  - now apply verifySignature_true_iff.
  - rewrite verifySignature_false_iff. split; congruence.
Qed.

(** C2 (as stated) fails: the secrets "key" and "key" followed by a NUL
    character are different, both are accepted by the constructor, and a
    signature made with the second verifies under the first. *)
Lemma verify_sign_other_secret_accepted :
  secret key_nul_handler <> secret key_handler
  /\ constructor (Config.mk (secret key_nul_handler) None None)
     = Normal key_nul_handler
  /\ constructor (Config.mk (secret key_handler) None None)
     = Normal key_handler
  /\ verifySignature key_handler (str "payload")
       (Some (computeSignature key_nul_handler (str "payload")))
     = Normal true.
Proof.
  split; [discriminate|]. split; [reflexivity|]. split; [reflexivity|].
  vm_compute. reflexivity.
Qed.

(** A signature made with the secret "key" does not verify under the
    secret of the test suite. *)
Lemma verify_sign_other_secret_rejected :
  verifySignature test_handler (str "payload")
    (Some (computeSignature key_handler (str "payload"))) = Normal false.
Proof.
  apply (proj2 (proj2 (verify_sign test_handler key_handler (str "payload")))).
  vm_compute. discriminate.
Defined.

(** C3: verifySignature never throws, and it returns false when the
    signature is missing, empty or blank, when its length (in characters or
    in bytes) differs from the length of the expected signature, and when
    the two buffers differ in some byte. *)
Theorem verifySignature_total_rejects (this : WebhookHandler)
    (payload : jsstring) (signature : option jsstring) :
  (exists b, verifySignature this payload signature = Normal b)
  /\ (falsy signature = true ->
      verifySignature this payload signature = Normal false)
  /\ (forall sig, signature = Some sig ->
      List.length (trim sig) = 0%nat ->
      verifySignature this payload signature = Normal false)
  /\ (forall sig, signature = Some sig ->
      List.length sig <> List.length (computeSignature this payload) ->
      verifySignature this payload signature = Normal false)
  /\ (forall sig, signature = Some sig ->
      List.length (Buffer_from_utf8 sig)
      <> List.length (Buffer_from_utf8 (computeSignature this payload)) ->
      verifySignature this payload signature = Normal false)
  /\ (forall sig, signature = Some sig ->
      Buffer_from_utf8 sig
      <> Buffer_from_utf8 (computeSignature this payload) ->
      verifySignature this payload signature = Normal false).
Proof.
  split; [apply verifySignature_total|].
  split.
  { destruct signature as [[|c sig]|]; intros H.
    - rewrite verifySignature_Some. reflexivity.
    - discriminate H.
    - reflexivity. }
  split.
  { intros sig -> H. rewrite verifySignature_Some, H.
    cbn [Nat.eqb]. rewrite orb_true_r. reflexivity. }
  split.
  { intros sig -> H. apply verifySignature_false_iff. congruence. }
  split.
  { intros sig -> H. apply verifySignature_false_iff. congruence. }
  intros sig -> H. apply verifySignature_false_iff. congruence.
Qed.

(** The test "should return false for invalid signature". *)
Lemma verifySignature_rejects_invalid :
  verifySignature test_handler (quoted "{'test':'data'}")
    (Some (str "sha256=invalid")) = Normal false.
Proof.
  apply (proj1 (proj2 (proj2 (proj2
           (verifySignature_total_rejects test_handler
              (quoted "{'test':'data'}") (Some (str "sha256=invalid"))))))
           (str "sha256=invalid")).
  - reflexivity.
  - vm_compute. lia.
Defined.

(** ** Rounding to a double *)

Lemma round_half_even_floor (x : Q) :
  (Qfloor x <= Double.round_half_even x <= Qfloor x + 1)%Z.
Proof.
  unfold Double.round_half_even. cbv zeta.
  destruct (x - inject_Z (Qfloor x) ?= 1 # 2)%Q; [|lia|lia].
  destruct (Z.even (Qfloor x)); lia.
Qed.

Lemma round_half_even_monotone (x y : Q) :
  (x <= y)%Q -> (Double.round_half_even x <= Double.round_half_even y)%Z.
Proof.
  intros H. pose proof (Qfloor_resp_le _ _ H) as Hf.
  destruct (Z.eq_dec (Qfloor x) (Qfloor y)) as [E|E].
  - unfold Double.round_half_even. cbv zeta. rewrite <- E.
    destruct (Qcompare_spec (x - inject_Z (Qfloor x)) (1 # 2)) as [X|X|X];
      destruct (Qcompare_spec (y - inject_Z (Qfloor x)) (1 # 2)) as [Y|Y|Y];
      destruct (Z.even (Qfloor x)); try lia; exfalso; lra.
  - pose proof (round_half_even_floor x). pose proof (round_half_even_floor y).
    lia.
Qed.

Lemma round_half_even_Z (k : Z) : Double.round_half_even (inject_Z k) = k.
Proof.
  unfold Double.round_half_even. cbv zeta. rewrite Qfloor_Z.
  destruct (Qcompare_spec (inject_Z k - inject_Z k) (1 # 2)) as [X|X|X];
    [exfalso; lra|reflexivity|exfalso; lra].
Qed.

Lemma round_half_even_comp (x y : Q) :
  (x == y)%Q -> Double.round_half_even x = Double.round_half_even y.
Proof.
  intros H. apply Z.le_antisymm; apply round_half_even_monotone; lra.
Qed.

Lemma pow2_pos (k : Z) : (0 < 2 ^ k)%Q.
Proof. now apply Qpower_0_lt. Qed.

Lemma pow2_plus (a b : Z) : (2 ^ (a + b) == 2 ^ a * 2 ^ b)%Q.
Proof. now apply Qpower_plus. Qed.

Lemma pow2_cancel (k : Z) : (2 ^ (- k) * 2 ^ k == 1)%Q.
Proof. rewrite <- pow2_plus. now replace (- k + k)%Z with 0%Z by lia. Qed.

Lemma pow2_le (a b : Z) : (a <= b)%Z -> (2 ^ a <= 2 ^ b)%Q.
Proof. intros H. apply Qpower_le_compat_l; [exact H|discriminate]. Qed.

Lemma pow2_lt_inv (a b : Z) : (2 ^ a < 2 ^ b)%Q -> (a < b)%Z.
Proof. intros H. now apply (Qpower_lt_compat_l_inv 2). Qed.

Lemma pow2_Z (k : Z) : (0 <= k)%Z -> (inject_Z (2 ^ k) == 2 ^ k)%Q.
Proof. intros H. now rewrite Zpower_Qpower. Qed.

Lemma inject_Z_pos (b : Z) : (0 < b)%Z -> (0 < inject_Z b)%Q.
Proof. intros H. unfold Qlt. simpl. lia. Qed.

Lemma inject_Z_nonneg (b : Z) : (0 <= b)%Z <-> (0 <= inject_Z b)%Q.
Proof. unfold Qle. simpl. lia. Qed.

Lemma Qdiv_lt_cross (a b c d : Z) :
  (0 < b)%Z -> (0 < d)%Z -> (a * d < c * b)%Z ->
  (inject_Z a / inject_Z b < inject_Z c / inject_Z d)%Q.
Proof.
  intros Hb Hd H.
  pose proof (inject_Z_pos b Hb) as Hb'.
  pose proof (inject_Z_pos d Hd) as Hd'.
  apply Qlt_shift_div_r; [exact Hb'|].
  unfold Qdiv. rewrite <- Qmult_assoc, (Qmult_comm (/ _)), Qmult_assoc.
  apply Qlt_shift_div_l; [exact Hd'|].
  rewrite <- !inject_Z_mult. now rewrite <- Zlt_Qlt.
Qed.

Lemma pow2_minus (a b : Z) :
  (0 <= a)%Z -> (0 <= b)%Z ->
  (2 ^ (a - b) == inject_Z (2 ^ a) / inject_Z (2 ^ b))%Q.
Proof.
  intros Ha Hb. rewrite !pow2_Z by assumption.
  unfold Z.sub. rewrite pow2_plus, Qpower_opp. reflexivity.
Qed.

(** [ilog2] is the integer part of the binary logarithm. *)
Lemma ilog2_spec (x : Q) :
  (0 < x)%Q ->
  (2 ^ Double.ilog2 x <= x)%Q /\ (x < 2 ^ (Double.ilog2 x + 1))%Q.
Proof.
  intros Hx. destruct x as [n d].
  assert (Hn : (0 < n)%Z).
  { unfold Qlt in Hx. simpl in Hx. lia. }
  pose proof (Z.log2_spec n Hn) as [N1 N2].
  pose proof (Z.log2_spec (Zpos d) (Pos2Z.is_pos d)) as [D1 D2].
  pose proof (Z.log2_nonneg n) as Ln.
  pose proof (Z.log2_nonneg (Zpos d)) as Ld.
  assert (P1 : (0 < 2 ^ Z.log2 n)%Z) by (apply Z.pow_pos_nonneg; lia).
  assert (P2 : (0 < 2 ^ Z.log2 (Zpos d))%Z) by (apply Z.pow_pos_nonneg; lia).
  rewrite !Z.pow_succ_r in * by assumption.
  assert (E : (n # d == inject_Z n / inject_Z (Zpos d))%Q)
    by apply Qmake_Qdiv.
  assert (Lo : (2 ^ (Z.log2 n - Z.log2 (Zpos d) - 1) < n # d)%Q).
  { replace (Z.log2 n - Z.log2 (Zpos d) - 1)%Z
      with (Z.log2 n - (Z.log2 (Zpos d) + 1))%Z by lia.
    rewrite pow2_minus, E by lia.
    apply Qdiv_lt_cross; [|lia|].
    - apply Z.pow_pos_nonneg; lia.
    - rewrite Z.pow_add_r by lia. change (2 ^ 1)%Z with 2%Z. nia. }
  assert (Hi : (n # d < 2 ^ (Z.log2 n - Z.log2 (Zpos d) + 1))%Q).
  { replace (Z.log2 n - Z.log2 (Zpos d) + 1)%Z
      with (Z.log2 n + 1 - Z.log2 (Zpos d))%Z by lia.
    rewrite pow2_minus, E by lia.
    apply Qdiv_lt_cross; [lia|lia|].
    rewrite Z.pow_add_r by lia. change (2 ^ 1)%Z with 2%Z. nia. }
  unfold Double.ilog2. cbn [Qnum Qden].
  destruct (Qle_bool (2 ^ (Z.log2 n - Z.log2 (Zpos d))) (n # d)) eqn:C.
  - apply Qle_bool_iff in C. split; assumption.
  - split; [now apply Qlt_le_weak|].
    replace (Z.log2 n - Z.log2 (Zpos d) - 1 + 1)%Z
      with (Z.log2 n - Z.log2 (Zpos d))%Z by lia.
    apply Qnot_le_lt. intros H. apply Qle_bool_iff in H. congruence.
Qed.

Lemma ilog2_unique (x : Q) (k : Z) :
  (2 ^ k <= x)%Q -> (x < 2 ^ (k + 1))%Q -> Double.ilog2 x = k.
Proof.
  intros H1 H2.
  assert (Hx : (0 < x)%Q) by (pose proof (pow2_pos k); lra).
  destruct (ilog2_spec x Hx) as [S1 S2].
  assert ((k < Double.ilog2 x + 1)%Z) by (apply pow2_lt_inv; lra).
  assert ((Double.ilog2 x < k + 1)%Z) by (apply pow2_lt_inv; lra).
  lia.
Qed.

Lemma ilog2_monotone (x y : Q) :
  (0 < x)%Q -> (x <= y)%Q -> (Double.ilog2 x <= Double.ilog2 y)%Z.
Proof.
  intros Hx H.
  destruct (ilog2_spec x Hx) as [S1 _].
  destruct (ilog2_spec y) as [_ S2]; [lra|].
  assert ((Double.ilog2 x < Double.ilog2 y + 1)%Z)
    by (apply pow2_lt_inv; lra).
  lia.
Qed.

Lemma scaled_le (x y : Q) (e : Z) :
  (x <= y)%Q -> (x * 2 ^ e <= y * 2 ^ e)%Q.
Proof.
  intros H. apply Qmult_le_compat_r; [exact H|].
  apply Qlt_le_weak, pow2_pos.
Qed.

Lemma nearest_nonneg (x : Q) : (0 <= x)%Q -> (0 <= Double.nearest x)%Q.
Proof.
  intros H. unfold Double.nearest. apply Qmult_le_0_compat.
  - apply (proj1 (inject_Z_nonneg _)).
    rewrite <- (round_half_even_Z 0) at 1.
    apply round_half_even_monotone.
    pose proof (pow2_pos (- Double.exponent x)).
    change (inject_Z 0) with 0%Q. nra.
  - apply Qlt_le_weak, pow2_pos.
Qed.

(** What is at least 2 ^ k times the unit is rounded to at least that,
    what is at most to at most that. *)
Lemma nearest_lower (x : Q) (k : Z) :
  (0 <= k)%Z ->
  (2 ^ (k + Double.exponent x) <= x)%Q ->
  (2 ^ (k + Double.exponent x) <= Double.nearest x)%Q.
Proof.
  intros Hk H. unfold Double.nearest. rewrite pow2_plus.
  apply Qmult_le_compat_r; [|apply Qlt_le_weak, pow2_pos].
  rewrite <- (pow2_Z k) by exact Hk. rewrite <- Zle_Qle.
  rewrite <- (round_half_even_Z (2 ^ k)).
  apply round_half_even_monotone. rewrite (pow2_Z k) by exact Hk.
  apply (scaled_le _ _ (- Double.exponent x)) in H.
  rewrite pow2_plus, <- Qmult_assoc, (Qmult_comm (2 ^ Double.exponent x)),
    pow2_cancel, Qmult_1_r in H.
  exact H.
Qed.

Lemma nearest_upper (x : Q) (k : Z) :
  (0 <= k)%Z ->
  (x <= 2 ^ (k + Double.exponent x))%Q ->
  (Double.nearest x <= 2 ^ (k + Double.exponent x))%Q.
Proof.
  intros Hk H. unfold Double.nearest. rewrite pow2_plus.
  apply Qmult_le_compat_r; [|apply Qlt_le_weak, pow2_pos].
  rewrite <- (pow2_Z k) by exact Hk. rewrite <- Zle_Qle.
  rewrite <- (round_half_even_Z (2 ^ k)).
  apply round_half_even_monotone. rewrite (pow2_Z k) by exact Hk.
  apply (scaled_le _ _ (- Double.exponent x)) in H.
  rewrite pow2_plus, <- Qmult_assoc, (Qmult_comm (2 ^ Double.exponent x)),
    pow2_cancel, Qmult_1_r in H.
  exact H.
Qed.

Lemma nearest_monotone (x y : Q) :
  (0 <= x)%Q -> (x <= y)%Q -> (Double.nearest x <= Double.nearest y)%Q.
Proof.
  intros H0 H.
  destruct (Qlt_le_dec 0 x) as [Hx|Hx].
  - assert (Hy : (0 < y)%Q) by lra.
    pose proof (ilog2_monotone x y Hx H) as Hl.
    destruct (ilog2_spec x Hx) as [_ X2].
    destruct (ilog2_spec y Hy) as [Y1 _].
    destruct (Z.eq_dec (Double.exponent x) (Double.exponent y)) as [E|E].
    + unfold Double.nearest. rewrite E.
      apply Qmult_le_compat_r; [|apply Qlt_le_weak, pow2_pos].
      rewrite <- Zle_Qle. apply round_half_even_monotone.
      now apply scaled_le.
    + unfold Double.exponent in E.
      apply Qle_trans with (2 ^ (53 + Double.exponent x))%Q.
      * apply nearest_upper; [lia|].
        apply Qle_trans with (2 ^ (Double.ilog2 x + 1))%Q; [lra|].
        apply pow2_le. unfold Double.exponent. lia.
      * apply Qle_trans with (2 ^ (52 + Double.exponent y))%Q.
        -- apply pow2_le. unfold Double.exponent. lia.
        -- apply nearest_lower; [lia|].
           apply Qle_trans with (2 ^ Double.ilog2 y)%Q; [|exact Y1].
           apply pow2_le. unfold Double.exponent. lia.
  - apply Qle_trans with 0%Q; [|apply nearest_nonneg; lra].
    unfold Double.nearest.
    assert (Z : (x * 2 ^ (- Double.exponent x) == inject_Z 0)%Q).
    { change (inject_Z 0) with 0%Q. assert (x == 0)%Q by lra. nra. }
    rewrite (round_half_even_comp _ _ Z), round_half_even_Z.
    change (inject_Z 0) with 0%Q. lra.
Qed.

(** Rounding keeps the order. *)
Lemma round_monotone (x y : Q) :
  (x <= y)%Q -> (Double.round x <= Double.round y)%Q.
Proof.
  intros H. unfold Double.round.
  destruct (Qle_bool 0 x) eqn:X; destruct (Qle_bool 0 y) eqn:Y.
  - apply Qle_bool_iff in X. now apply nearest_monotone.
  - apply Qle_bool_iff in X.
    assert (~ (0 <= y)%Q) by (intros C; apply Qle_bool_iff in C; congruence).
    lra.
  - assert (Hx : ~ (0 <= x)%Q)
      by (intros C; apply Qle_bool_iff in C; congruence).
    apply Qle_bool_iff in Y.
    pose proof (nearest_nonneg (- x)). pose proof (nearest_nonneg y). lra.
  - assert (Hx : ~ (0 <= x)%Q)
      by (intros C; apply Qle_bool_iff in C; congruence).
    assert (Hy : ~ (0 <= y)%Q)
      by (intros C; apply Qle_bool_iff in C; congruence).
    pose proof (nearest_monotone (- y) (- x)). lra.
Qed.

Lemma round_comp (x y : Q) : (x == y)%Q -> (Double.round x == Double.round y)%Q.
Proof.
  intros H. apply Qle_antisym; apply round_monotone; lra.
Qed.




(** The rounding at some values: one tenth; the ties above 2 ^ 53, which go
    to the even neighbour; half the smallest number and three halves of
    it; and the largest double, above which the half-way point already
    overflows. *)
Lemma round_examples :
  (Double.round (1 # 10) == 3602879701896397 # 36028797018963968)%Q
  /\ (Double.round (inject_Z (2 ^ 53 + 1)) == inject_Z (2 ^ 53))%Q
  /\ (Double.round (inject_Z (2 ^ 53 + 3)) == inject_Z (2 ^ 53 + 4))%Q
  /\ (Double.round (2 ^ (-1075)) == 0)%Q
  /\ (Double.round (3 * 2 ^ (-1075)) == 2 ^ (-1073))%Q
  /\ Double.of_Q (2 ^ 1024 - 2 ^ 970) = Double.inf false
  /\ Double.le (Double.of_Q (2 ^ 1024 - 2 ^ 970 - 1))
       (Double.fin (2 ^ 1024 - 2 ^ 971)) = true
  /\ Double.le (Double.fin (2 ^ 1024 - 2 ^ 971))
       (Double.of_Q (2 ^ 1024 - 2 ^ 970 - 1)) = true.
Proof. repeat split; vm_compute; reflexivity. Qed.

(** ** The timestamp window *)










(** One millisecond later it is rejected, and so is an event dated one
    millisecond after now. *)
Lemma validatePayloadTimestamp_outside :
  validatePayloadTimestamp test_handler 1704067500001 (DateAt 1704067200000)
  = false
  /\ validatePayloadTimestamp test_handler 1704067200000 (DateAt 1704067200001)
     = false.
Proof. split; vm_compute; reflexivity. Qed.

(** The age is the double the division gives: under a maximum age of 0.3,
    which is the double just below three tenths, an event 300 ms old is
    accepted, its age being rounded to that double; one 301 ms old is
    rejected. *)
Lemma validatePayloadTimestamp_rounds_the_age :
  validatePayloadTimestamp brief_handler 1704067200300 (DateAt 1704067200000)
  = true
  /\ (double_0_3 < age_seconds 1704067200300 1704067200000)%Q
  /\ (age_computed 1704067200300 1704067200000 == double_0_3)%Q
  /\ validatePayloadTimestamp brief_handler 1704067200301
       (DateAt 1704067200000)
     = false.
Proof. repeat split; vm_compute; reflexivity. Qed.

(** ** The registry *)

Lemma filter_remove (handler : WebhookEventHandler)
    (hs : list WebhookEventHandler) :
  List.filter (fun h => negb (h =? handler)%nat) hs
  = List.remove Nat.eq_dec handler hs.
Proof.
  induction hs as [|h hs IH]; simpl; [reflexivity|].
  destruct (Nat.eq_dec handler h) as [->|Hne].
  - rewrite Nat.eqb_refl. simpl. exact IH.
  - assert ((h =? handler)%nat = false) as E by (apply Nat.eqb_neq; congruence).
    rewrite E. simpl. now rewrite IH.
Qed.

(** on appends the handler to the list of its event, without looking for
    an entry that is the same handler, and leaves the other events alone. *)
Lemma on_appends (this : WebhookHandler) (event : CodegenEventType)
    (handler : WebhookEventHandler) :
  handlers (on this event handler) !! event
  = Some (default [] (handlers this !! event) ++ [handler])
  /\ (forall e, e <> event ->
      handlers (on this event handler) !! e = handlers this !! e).
Proof.
  unfold on. simpl. split.
  - apply lookup_insert_eq.
  - intros e Hne. now apply lookup_insert_ne.
Qed.

(** C9: off on an event without an entry changes nothing; otherwise the
    event's list becomes the old list without the entries that are the given
    handler, the other entries staying in their order, and an empty list
    removes the event's entry; the entries of other events and the
    configuration stay as they were. *)
Theorem off_removes_exactly (this : WebhookHandler) (event : CodegenEventType)
    (handler : WebhookEventHandler) :
  (handlers this !! event = None -> off this event handler = this)
  /\ (forall hs, handlers this !! event = Some hs ->
      handlers (off this event handler) !! event
      = match List.remove Nat.eq_dec handler hs with
        | [] => None
        | kept => Some kept
        end)
  /\ (forall e, e <> event ->
      handlers (off this event handler) !! e = handlers this !! e)
  /\ secret (off this event handler) = secret this
  /\ maxAge (off this event handler) = maxAge this
  /\ validateTimestamp (off this event handler) = validateTimestamp this.
Proof.
  unfold off. destruct (handlers this !! event) as [hs|] eqn:E.
  - rewrite filter_remove.
    split; [discriminate|]. split.
    { intros hs' [= <-].
      destruct (List.remove Nat.eq_dec handler hs) as [|k kept]; simpl.
      - apply lookup_delete_eq.
      - apply lookup_insert_eq. }
    split.
    { intros e Hne.
      destruct (List.remove Nat.eq_dec handler hs) as [|k kept]; simpl.
      - now apply lookup_delete_ne.
      - now apply lookup_insert_ne. }
    destruct (List.length _ =? 0)%nat; auto.
  - split; [reflexivity|]. split; [discriminate|]. auto.
Qed.

(** Removing handler 1 from [1; 2; 1] leaves [2]. *)
Lemma off_removes_both_entries :
  handlers (off registered_handler agent_started 1%nat) !! agent_started
  = Some [2%nat].
Proof.
  apply (proj1 (proj2 (off_removes_exactly registered_handler agent_started
                         1%nat)) [1; 2; 1]%nat).
  vm_compute. reflexivity.
Defined.

(** ** Dispatch *)

Section DispatchProperties.

Variable behaviour : Behaviour.

Lemma map_call_invoked_prefix (hs : list WebhookEventHandler)
    (payload : WebhookEventPayload) (this : WebhookHandler) :
  exists n,
    invoked (map_call behaviour hs payload this)
    = List.map (fun h => (h, payload)) (firstn n hs).
Proof.
  revert this. induction hs as [|h hs IH]; intros this; simpl.
  - now exists 0%nat.
  - destruct (behaviour h payload (handlers this)) as [m [v|e]]; simpl.
    + destruct (IH (with_handlers this m)) as [n E].
      exists (S n). simpl. now rewrite E.
    + now exists 1%nat.
Qed.

Lemma map_call_returns (hs : list WebhookEventHandler)
    (payload : WebhookEventPayload) (this : WebhookHandler)
    (returned : list (option Promise)) :
  result (map_call behaviour hs payload this) = Normal returned ->
  invoked (map_call behaviour hs payload this)
  = List.map (fun h => (h, payload)) hs
  /\ List.length returned = List.length hs.
Proof.
  revert this returned. induction hs as [|h hs IH]; intros this returned; simpl.
  - intros [= <-]. auto.
  - destruct (behaviour h payload (handlers this)) as [m [v|e]]; simpl;
      [|discriminate].
    destruct (result (map_call behaviour hs payload (with_handlers this m)))
      as [vs|e] eqn:E; [|discriminate].
    intros [= <-]. destruct (IH _ _ E) as [E1 E2].
    rewrite E1. simpl. now rewrite E2.
Qed.

Lemma map_call_all_return (hs : list WebhookEventHandler)
    (payload : WebhookEventPayload) (this : WebhookHandler) :
  all_return behaviour hs payload ->
  exists returned, result (map_call behaviour hs payload this) = Normal returned.
Proof.
  revert this. induction hs as [|h hs IH]; intros this Hall; simpl.
  - eauto.
  - destruct (Hall h (handlers this) (or_introl eq_refl)) as [v Hv].
    destruct (behaviour h payload (handlers this)) as [m r]. simpl in Hv.
    subst r. simpl.
    destruct (IH (with_handlers this m)) as [vs ->]; [|eauto].
    intros h' m' Hin. apply Hall. now right.
Qed.

(** When no handler throws, executeHandlers calls the handlers registered
    for the event of the payload, once per registration, in order, each on
    the payload. *)
Lemma executeHandlers_calls_all (this : WebhookHandler)
    (payload : WebhookEventPayload) :
  all_return behaviour (default [] (handlers this !! event payload))
    payload ->
  invoked (executeHandlers behaviour this payload)
  = List.map (fun h => (h, payload))
      (default [] (handlers this !! event payload)).
Proof.
  intros Hall. unfold executeHandlers.
  destruct (default [] (handlers this !! event payload)) as [|h hs] eqn:E;
    [reflexivity|].
  cbn [List.length Nat.eqb]. cbv zeta.
  destruct (map_call_all_return _ payload this Hall) as [returned Hr].
  rewrite Hr. cbn [invoked]. now apply map_call_returns in Hr as [Hr _].
Qed.

(** Without a handler for the event, executeHandlers returns at once. *)
Lemma executeHandlers_none (this : WebhookHandler)
    (payload : WebhookEventPayload) :
  default [] (handlers this !! event payload) = [] ->
  executeHandlers behaviour this payload
  = mkEffect this [] (Settled 0 Fulfilled).
Proof. intros E. unfold executeHandlers. now rewrite E. Qed.

Lemma first_rejection_least (ps : list Promise) (i t : nat) (e : error) :
  ps !! i = Some (Settled t (Rejected e)) ->
  exists t0 e0 j,
    first_rejection ps = Some (t0, e0)
    /\ ps !! j = Some (Settled t0 (Rejected e0))
    /\ (t0 <= t)%nat.
Proof.
  revert i. induction ps as [|p ps IH]; intros i H; [destruct i; discriminate|].
  destruct i as [|i]; simpl in H.
  - injection H as ->. simpl.
    destruct (first_rejection ps) as [[t' e']|] eqn:E.
    + destruct (t <=? t')%nat eqn:L.
      * exists t, e, 0%nat. auto.
      * apply Nat.leb_gt in L.
        assert (exists j, ps !! j = Some (Settled t' (Rejected e'))) as [j Hj].
        { clear -E. revert t' e' E.
          induction ps as [|q ps IHp]; intros t' e' E; [discriminate|].
          simpl in E.
          destruct q as [|tq [|eq]];
            try (destruct (IHp _ _ E) as [j Hj]; now exists (S j)).
          destruct (first_rejection ps) as [[t2 e2]|] eqn:E2.
          - destruct (tq <=? t2)%nat; injection E as <- <-.
            + now exists 0%nat.
            + destruct (IHp _ _ eq_refl) as [j Hj]. now exists (S j).
          - injection E as <- <-. now exists 0%nat. }
        exists t', e', (S j). repeat split; auto; lia.
    + exists t, e, 0%nat. auto.
  - destruct (IH i H) as (t0 & e0 & j & E & Hj & Hle). simpl. rewrite E.
    destruct p as [|tp [|ep]];
      try (exists t0, e0, (S j); now auto).
    destruct (tp <=? t0)%nat eqn:L.
    + apply Nat.leb_le in L. exists tp, ep, 0%nat.
      repeat split; auto; lia.
    + exists t0, e0, (S j). auto.
Qed.

(** C8 (as amended): when every registered handler has been called and
    returned, and the promise of one of them is rejected, executeHandlers
    fails with the earliest of the rejections, at the tick of that
    rejection, whenever the other promises settle. *)
Theorem executeHandlers_fails_at_first_rejection (this : WebhookHandler)
    (payload : WebhookEventPayload) (returned : list (option Promise))
    (i t : nat) (e : error) :
  result (map_call behaviour (default [] (handlers this !! event payload))
            payload this) = Normal returned ->
  List.map Promise_resolve returned !! i = Some (Settled t (Rejected e)) ->
  exists t0 e0 j,
    result (executeHandlers behaviour this payload)
    = Settled t0 (Rejected e0)
    /\ List.map Promise_resolve returned !! j
       = Some (Settled t0 (Rejected e0))
    /\ (t0 <= t)%nat
    /\ invoked (executeHandlers behaviour this payload)
       = List.map (fun h => (h, payload))
           (default [] (handlers this !! event payload)).
Proof.
  intros Hr Hi. unfold executeHandlers.
  destruct (default [] (handlers this !! event payload)) as [|h hs] eqn:E.
  - simpl in Hr. injection Hr as <-. destruct i; discriminate.
  - cbn [List.length Nat.eqb]. cbv zeta. rewrite Hr. cbn [result invoked].
    destruct (first_rejection_least _ _ _ _ Hi) as (t0 & e0 & j & F & Hj & L).
    exists t0, e0, j. unfold Promise_all. rewrite F.
    repeat split; auto. now apply map_call_returns in Hr as [Hr _].
Qed.

End DispatchProperties.

(** Handlers 1 and 2 return: each is called once with the payload. *)
Lemma executeHandlers_calls_both :
  invoked (executeHandlers quiet two_handlers started_payload)
  = List.map (fun h => (h, started_payload))
      (default [] (handlers two_handlers !! event started_payload)).
Proof.
  apply (executeHandlers_calls_all quiet two_handlers started_payload).
  intros h m _. exists None. reflexivity.
Defined.

(** Handler 1 rejects at tick 1 and handler 2 is fulfilled at tick 5: the
    dispatch is rejected at tick 1. *)
Lemma executeHandlers_first_rejection_example :
  exists t0 e0 j,
    result (executeHandlers first_rejects two_handlers started_payload)
    = Settled t0 (Rejected e0)
    /\ List.map Promise_resolve
         [Some (Settled 1 (Rejected (Thrown 7))); Some (Settled 5 Fulfilled)]
       !! j = Some (Settled t0 (Rejected e0))
    /\ (t0 <= 1)%nat
    /\ invoked (executeHandlers first_rejects two_handlers started_payload)
       = List.map (fun h => (h, started_payload))
           (default [] (handlers two_handlers !! event started_payload)).
Proof.
  apply (executeHandlers_fails_at_first_rejection first_rejects two_handlers
           started_payload
           [Some (Settled 1 (Rejected (Thrown 7))); Some (Settled 5 Fulfilled)]
           0%nat 1%nat (Thrown 7)).
  - vm_compute. reflexivity.
  - reflexivity.
Defined.

(** C8 (as stated) fails: both handlers are called, the promise of
    handler 2 settles at tick 5, and executeHandlers is rejected at tick 1
    already. *)
Lemma executeHandlers_fails_before_all_settle :
  invoked (executeHandlers first_rejects two_handlers started_payload)
  = [(1%nat, started_payload); (2%nat, started_payload)]
  /\ snd (first_rejects 2%nat started_payload (handlers two_handlers))
     = Normal (Some (Settled 5 Fulfilled))
  /\ result (executeHandlers first_rejects two_handlers started_payload)
     = Settled 1 (Rejected (Thrown 7))
  /\ (1 < 5)%nat.
Proof. vm_compute. repeat split; lia. Qed.

(** C7: handlers 1 and 2 are registered for agent.started and handler 1
    throws: executeHandlers calls handler 1 only, and the same happens
    through processWebhook on the signed body of the scenario; handler 2 is
    registered for the event of the payload and is not called. *)
Theorem executeHandlers_throw_skips_rest :
  handlers two_handlers !! event started_payload = Some [1%nat; 2%nat]
  /\ executeHandlers first_throws two_handlers started_payload
     = mkEffect two_handlers [(1%nat, started_payload)]
         (Settled 0 (Rejected (Thrown 7)))
  /\ processWebhook Reference.runtime first_throws two_handlers started_now
       started_body (Some (computeSignature two_handlers started_body))
     = mkEffect two_handlers [(1%nat, started_payload)]
         (Settled 0 (Rejected (Thrown 7))).
Proof. vm_compute. repeat split. Qed.

(** The scenario of the specification: with handlers that return, both
    are called once with the parsed payload and processWebhook resolves. *)
Lemma processWebhook_scenario :
  processWebhook Reference.runtime quiet two_handlers started_now
    started_body (Some (computeSignature two_handlers started_body))
  = mkEffect two_handlers
      [(1%nat, started_payload); (2%nat, started_payload)]
      (Settled 0 Fulfilled).
Proof. vm_compute. reflexivity. Qed.

(** ** processWebhook *)

Section ProcessWebhook.

Variable rt : Runtime.
Variable behaviour : Behaviour.

(** A body that JSON.parse rejects, under a valid signature. *)
Lemma processWebhook_invalid_json (this : WebhookHandler) (now : Z)
    (rawPayload message : jsstring) :
  JSON_parse rt rawPayload = inl message ->
  processWebhook rt behaviour this now rawPayload
    (Some (computeSignature this rawPayload))
  = reject this
      (WebhookVerificationError
         (str "Failed to parse webhook payload: " ++ message)).
Proof.
  intros E. unfold processWebhook.
  rewrite (proj2 (verifySignature_true_iff this rawPayload _) eq_refl).
  now rewrite E.
Qed.

(** A body that JSON.parse accepts and the schema rejects, under a valid
    signature: the ZodError of the schema is what processWebhook fails
    with. *)
Lemma processWebhook_schema_failure (this : WebhookHandler) (now : Z)
    (rawPayload : jsstring) (parsedPayload : JSValue) (e : error) :
  JSON_parse rt rawPayload = inr parsedPayload ->
  parse (WebhookEventPayloadSchema rt) parsedPayload = Throw e ->
  e = ZodError
  /\ processWebhook rt behaviour this now rawPayload
       (Some (computeSignature this rawPayload))
     = reject this ZodError.
Proof.
  intros E P. unfold processWebhook.
  rewrite (proj2 (verifySignature_true_iff this rawPayload _) eq_refl).
  rewrite E. unfold parse in *.
  destruct (WebhookEventPayloadSchema rt (Some parsedPayload));
    [discriminate|]. injection P as <-. auto.
Qed.

(** C5: the steps run in order.  A signature that does not verify makes
    processWebhook fail with "Invalid webhook signature" whatever the
    body is; when the signature check, JSON.parse, the schema or the
    timestamp check fails, processWebhook is rejected at once, no handler
    is called and the handler object is unchanged; and when the four
    succeed, processWebhook is the dispatch of the parsed payload. *)
Theorem processWebhook_steps_in_order (this : WebhookHandler) (now : Z)
    (rawPayload : jsstring) (signature : option jsstring) :
  let run := processWebhook rt behaviour this now rawPayload signature in
  (verifySignature this rawPayload signature = Normal false ->
   run = mkEffect this []
           (Settled 0
              (Rejected
                 (WebhookVerificationError
                    (str "Invalid webhook signature")))))
  /\ (verifySignature this rawPayload signature <> Normal true
      \/ (exists message, JSON_parse rt rawPayload = inl message)
      \/ (exists parsedPayload e,
            JSON_parse rt rawPayload = inr parsedPayload
            /\ parse (WebhookEventPayloadSchema rt) parsedPayload = Throw e)
      \/ (exists parsedPayload payload,
            JSON_parse rt rawPayload = inr parsedPayload
            /\ parse (WebhookEventPayloadSchema rt) parsedPayload
               = Normal payload
            /\ validatePayloadTimestamp this now (timestamp payload) = false)
      ->
      invoked run = [] /\ after run = this
      /\ exists e, result run = Settled 0 (Rejected e))
  /\ (forall parsedPayload payload,
        verifySignature this rawPayload signature = Normal true ->
        JSON_parse rt rawPayload = inr parsedPayload ->
        parse (WebhookEventPayloadSchema rt) parsedPayload = Normal payload ->
        validatePayloadTimestamp this now (timestamp payload) = true ->
        run = executeHandlers behaviour this payload).
Proof.
  cbv zeta. unfold processWebhook.
  destruct (verifySignature_total this rawPayload signature) as [[] ->].
  2:{ split; [reflexivity|]. split; [|discriminate].
      intros _. simpl. eauto. }
  split; [discriminate|].
  destruct (JSON_parse rt rawPayload) as [message|parsedPayload].
  { split; [|discriminate]. intros _. simpl. eauto. }
  destruct (parse (WebhookEventPayloadSchema rt) parsedPayload)
    as [payload|e] eqn:P.
  2:{ split; [|intros v p _ [= <-] P'; congruence].
      intros _. simpl. eauto. }
  destruct (validatePayloadTimestamp this now (timestamp payload)) eqn:V.
  - split.
    + intros [H|[[m H]|[(v & e & H & P')|(v & p & H & P' & V')]]].
      * congruence.
      * discriminate.
      * injection H as <-. rewrite P in P'. discriminate.
      * injection H as <-. rewrite P in P'. injection P' as <-. congruence.
    + intros v p _ [= <-] P' _. rewrite P in P'. now injection P' as <-.
  - split.
    + intros _. simpl. destruct (toISOString rt (timestamp payload));
        simpl; eauto.
    + intros v p _ [= <-] P'. rewrite P in P'. injection P' as <-.
      congruence.
Qed.

End ProcessWebhook.

(** The scenario "raw body = not valid json, correctly signed". *)
Lemma processWebhook_not_valid_json :
  processWebhook Reference.runtime quiet two_handlers started_now
    (str "not valid json")
    (Some (computeSignature two_handlers (str "not valid json")))
  = reject two_handlers
      (WebhookVerificationError
         (str "Failed to parse webhook payload: "
          ++ str "Unexpected token in JSON")).
Proof.
  apply (processWebhook_invalid_json Reference.runtime quiet two_handlers
           started_now (str "not valid json") (str "Unexpected token in JSON")).
  vm_compute. reflexivity.
Defined.

(** The scenario "timestamp 10 minutes in the past, maxAge = 300s": the
    error names the timestamp of the payload. *)
Lemma processWebhook_stale :
  processWebhook Reference.runtime quiet two_handlers
    (1704067200000 + 600000) started_body
    (Some (computeSignature two_handlers started_body))
  = mkEffect two_handlers []
      (Settled 0
         (Rejected
            (WebhookVerificationError
               (str "Webhook timestamp is too old or in the future: "
                ++ str "2024-01-01T00:00:00.000Z")))).
Proof. vm_compute. reflexivity. Qed.

(** The scenario "signature = sha256=invalid": processWebhook fails with
    "Invalid webhook signature" and the registered handlers are not
    called. *)
Lemma processWebhook_invalid_signature :
  processWebhook Reference.runtime quiet two_handlers started_now
    started_body (Some (str "sha256=invalid"))
  = mkEffect two_handlers []
      (Settled 0
         (Rejected (WebhookVerificationError (str "Invalid webhook signature")))).
Proof.
  apply (proj1 (processWebhook_steps_in_order Reference.runtime quiet
                  two_handlers started_now started_body
                  (Some (str "sha256=invalid")))).
  vm_compute. reflexivity.
Defined.

(** ** The payload schema *)

Section SchemaProperties.

Variable rt : Runtime.

Lemma z_literal_inv (lit s : jsstring) (v : option JSValue) :
  z_literal lit v = Some s -> v = Some (JString lit).
Proof.
  unfold z_literal. destruct v as [[]|]; try discriminate.
  destruct (jsstring_eqb s0 lit) eqn:E; [|discriminate].
  apply jsstring_eqb_eq in E. now subst.
Qed.

Lemma z_enum_inv {T} (alts : list (jsstring * T)) (v : option JSValue)
    (t : T) :
  z_enum alts v = Some t -> exists s, v = Some (JString s) /\ In (s, t) alts.
Proof.
  unfold z_enum. destruct v as [[]|]; try discriminate.
  destruct (List.find _ alts) as [[s' t']|] eqn:E; [|discriminate].
  intros [= <-]. apply List.find_some in E as [Hin E].
  apply jsstring_eqb_eq in E. simpl in E. subst. eauto.
Qed.

Lemma CodegenEventTypeSchema_inv (v : option JSValue) (e : CodegenEventType) :
  CodegenEventTypeSchema v = Some e -> v = Some (JString (event_name e)).
Proof.
  intros H. apply z_enum_inv in H as (s & -> & Hin).
  apply in_map_iff in Hin as (e' & [= <- <-] & _). reflexivity.
Qed.

Lemma z_object_inv {T} (shape : list (jsstring * JSValue) -> option T)
    (v : option JSValue) (t : T) :
  z_object shape v = Some t -> exists o, v = Some (JObject o) /\ shape o = Some t.
Proof. unfold z_object. destruct v as [[]|]; try discriminate. eauto. Qed.

Lemma z_union_inv {T} (alts : list (Schema T)) (v : option JSValue) (t : T) :
  z_union alts v = Some t -> exists s, In s alts /\ s v = Some t.
Proof.
  induction alts as [|s alts IH]; simpl; [discriminate|].
  destruct (s v) as [t'|] eqn:E.
  - intros [= <-]. eauto.
  - intros H. destruct (IH H) as (s' & Hin & Hs). eauto.
Qed.

(** The tag of a parsed event data is the type property of its source. *)
Lemma WebhookEventDataSchema_type (v : option JSValue) (d : WebhookEventData) :
  WebhookEventDataSchema rt v = Some d ->
  exists o,
    v = Some (JObject o)
    /\ get o (str "type") = Some (JString (event_name (data_type d))).
Proof.
  intros H. apply z_union_inv in H as (s & Hin & H).
  simpl in Hin.
  destruct Hin as [<-|[<-|[<-|[<-|[<-|[<-|[]]]]]]];
    apply z_object_inv in H as (o & -> & E); exists o;
    (split; [reflexivity|]); open_shape E; injection E as <-;
    try (apply z_literal_inv in F; exact F).
  apply z_enum_inv in F as (s & -> & Hin). simpl in Hin.
  destruct Hin as [[= <- <-]|[[= <- <-]|[[= <- <-]|[]]]]; reflexivity.
Qed.

Lemma data_type_not_cancelled (d : WebhookEventData) :
  data_type d <> agent_cancelled.
Proof. destruct d as [| | | | |[]]; discriminate. Qed.

Lemma get_set_eq (o : list (jsstring * JSValue)) (k : jsstring) (v : JSValue) :
  get (set_property o k v) k = Some v.
Proof.
  induction o as [|[k' v'] o IH]; simpl.
  - now rewrite (proj2 (jsstring_eqb_eq k k) eq_refl).
  - destruct (jsstring_eqb k' k) eqn:E; simpl; rewrite E; auto.
Qed.

Lemma get_set_ne (o : list (jsstring * JSValue)) (k k' : jsstring)
    (v : JSValue) :
  jsstring_eqb k k' = false -> get (set_property o k v) k' = get o k'.
Proof.
  intros Hne. induction o as [|[k0 v0] o IH]; simpl.
  - now rewrite Hne.
  - destruct (jsstring_eqb k0 k) eqn:E; simpl.
    + apply jsstring_eqb_eq in E. subst k0. now rewrite Hne.
    + now rewrite IH.
Qed.

Lemma CodegenEventTypeSchema_name (e : CodegenEventType) :
  CodegenEventTypeSchema (Some (JString (event_name e))) = Some e.
Proof. destruct e; reflexivity. Qed.

Lemma WebhookEventPayloadSchema_inv (v : JSValue)
    (payload : WebhookEventPayload) :
  parse (WebhookEventPayloadSchema rt) v = Normal payload ->
  exists o,
    v = JObject o
    /\ CodegenEventTypeSchema (get o (str "event")) = Some (event payload)
    /\ z_string (get o (str "sessionId")) = Some (sessionId payload)
    /\ z_datetime_or_date rt (get o (str "timestamp"))
       = Some (timestamp payload)
    /\ WebhookEventDataSchema rt (get o (str "data")) = Some (data payload).
Proof.
  unfold parse.
  destruct (WebhookEventPayloadSchema rt (Some v)) as [p|] eqn:E;
    [|discriminate].
  intros [= <-]. unfold WebhookEventPayloadSchema in E.
  apply z_object_inv in E as (o & [= ->] & E).
  exists o. open_shape E. injection E as <-. auto.
Qed.

(** C1 (as amended): in a payload the parser accepts, the event is the
    event property of the body and the tag data.type is the type property
    of the data of the body, which is never agent.cancelled; the two are
    validated on their own and not compared: the same body with any other
    event type as its event is accepted too, with the same data. *)
Theorem parsed_tags_are_the_body_fields (rawPayload : jsstring)
    (parsedPayload : JSValue) (payload : WebhookEventPayload) :
  JSON_parse rt rawPayload = inr parsedPayload ->
  parse (WebhookEventPayloadSchema rt) parsedPayload = Normal payload ->
  exists o d,
    parsedPayload = JObject o
    /\ get o (str "event") = Some (JString (event_name (event payload)))
    /\ get o (str "data") = Some (JObject d)
    /\ get d (str "type")
       = Some (JString (event_name (data_type (data payload))))
    /\ data_type (data payload) <> agent_cancelled
    /\ (forall e,
          parse (WebhookEventPayloadSchema rt)
            (JObject (set_property o (str "event") (JString (event_name e))))
          = Normal (mkWebhookEventPayload e (sessionId payload)
                      (timestamp payload) (data payload))).
Proof.
  intros _ P.
  apply WebhookEventPayloadSchema_inv in P as (o & -> & He & Hs & Ht & Hd).
  pose proof (CodegenEventTypeSchema_inv _ _ He) as He'.
  destruct (WebhookEventDataSchema_type _ _ Hd) as (d & Hd' & Hty).
  exists o, d. repeat split; auto; [apply data_type_not_cancelled|].
  intros e. unfold parse, WebhookEventPayloadSchema, z_object.
  rewrite get_set_eq, !get_set_ne by reflexivity.
  rewrite CodegenEventTypeSchema_name, Hs, Ht, Hd. reflexivity.
Qed.

Lemma WebhookEventDataSchema_cancelled (d : list (jsstring * JSValue)) :
  get d (str "type") = Some (JString (str "agent.cancelled")) ->
  WebhookEventDataSchema rt (Some (JObject d)) = None.
Proof.
  intros H.
  destruct (WebhookEventDataSchema rt (Some (JObject d))) as [x|] eqn:E;
    [|reflexivity].
  apply WebhookEventDataSchema_type in E as (o & [= <-] & E).
  rewrite H in E. injection E as E.
  destruct x as [| | | | |[]]; discriminate E.
Qed.

(** C10: a value whose data is tagged agent.cancelled fails the payload
    schema, whatever its event is, because no alternative of the data
    union has that tag; so no accepted payload of event agent.cancelled
    has data.type equal to its event. *)
Theorem agent_cancelled_never_parses (parsedPayload : JSValue) :
  (forall o d,
      parsedPayload = JObject o ->
      get o (str "event") = Some (JString (str "agent.cancelled")) ->
      get o (str "data") = Some (JObject d) ->
      get d (str "type") = Some (JString (str "agent.cancelled")) ->
      parse (WebhookEventPayloadSchema rt) parsedPayload = Throw ZodError)
  /\ (forall payload,
        parse (WebhookEventPayloadSchema rt) parsedPayload = Normal payload ->
        event payload = agent_cancelled ->
        data_type (data payload) <> event payload).
Proof.
  split.
  - intros o d -> _ Hd Ht. unfold parse.
    destruct (WebhookEventPayloadSchema rt (Some (JObject o))) as [p|] eqn:E;
      [|reflexivity].
    assert (parse (WebhookEventPayloadSchema rt) (JObject o) = Normal p) as P
      by (unfold parse; now rewrite E).
    apply WebhookEventPayloadSchema_inv in P as (o' & [= <-] & _ & _ & _ & H).
    rewrite Hd, (WebhookEventDataSchema_cancelled d Ht) in H. discriminate.
  - intros payload _ ->. apply data_type_not_cancelled.
Qed.

End SchemaProperties.

(** The scenario of the specification parses to a payload whose tags are
    those of its body. *)
Lemma started_body_tags :
  exists o d,
    started_json = JObject o
    /\ get o (str "event")
       = Some (JString (event_name (event started_payload)))
    /\ get o (str "data") = Some (JObject d)
    /\ get d (str "type")
       = Some (JString (event_name (data_type (data started_payload))))
    /\ data_type (data started_payload) <> agent_cancelled
    /\ (forall e,
          parse (WebhookEventPayloadSchema Reference.runtime)
            (JObject (set_property o (str "event") (JString (event_name e))))
          = Normal (mkWebhookEventPayload e (sessionId started_payload)
                      (timestamp started_payload) (data started_payload))).
Proof.
  apply (parsed_tags_are_the_body_fields Reference.runtime started_body).
  - vm_compute. reflexivity.
  - vm_compute. reflexivity.
Defined.

(** C1 (as stated) fails: the body with event agent.completed and data
    tagged agent.started is accepted, the tag of the parsed payload differs
    from its event, and the handler registered for agent.completed is called
    with it. *)
Lemma mismatched_body_accepted :
  JSON_parse Reference.runtime mismatched_body = inr mismatched_json
  /\ parse (WebhookEventPayloadSchema Reference.runtime) mismatched_json
     = Normal mismatched_payload
  /\ data_type (data mismatched_payload) <> event mismatched_payload
  /\ processWebhook Reference.runtime quiet completed_handler started_now
       mismatched_body (Some (computeSignature completed_handler mismatched_body))
     = mkEffect completed_handler [(1%nat, mismatched_payload)]
         (Settled 0 Fulfilled).
Proof.
  split; [vm_compute; reflexivity|].
  split; [vm_compute; reflexivity|].
  split; [discriminate|].
  vm_compute. reflexivity.
Qed.

(** The body tagged agent.cancelled twice is valid JSON and is rejected by
    the schema. *)
Lemma cancelled_body_rejected :
  parse (WebhookEventPayloadSchema Reference.runtime) cancelled_json
  = Throw ZodError.
Proof.
  refine (proj1 (agent_cancelled_never_parses Reference.runtime cancelled_json)
            _ _ eq_refl _ _ _); reflexivity.
Defined.

Lemma cancelled_body_json :
  JSON_parse Reference.runtime cancelled_body = inr cancelled_json.
Proof. vm_compute. reflexivity. Qed.

(** C6: the body with progress 150 is valid JSON, the schema rejects it
    (with progress 50 it is accepted), and under a valid signature
    processWebhook fails with the ZodError of the schema, which is not a
    WebhookVerificationError and carries no "Failed to parse webhook
    payload" message; the body that is not JSON gets that error. *)
Theorem processWebhook_schema_error_not_wrapped :
  JSON_parse Reference.runtime progress_150_body = inr progress_150_json
  /\ parse (WebhookEventPayloadSchema Reference.runtime) progress_150_json
     = Throw ZodError
  /\ processWebhook Reference.runtime quiet test_handler started_now
       progress_150_body (Some (computeSignature test_handler progress_150_body))
     = mkEffect test_handler [] (Settled 0 (Rejected ZodError))
  /\ processWebhook Reference.runtime quiet test_handler started_now
       progress_50_body (Some (computeSignature test_handler progress_50_body))
     = mkEffect test_handler [] (Settled 0 Fulfilled)
  /\ processWebhook Reference.runtime quiet test_handler started_now
       (str "not valid json")
       (Some (computeSignature test_handler (str "not valid json")))
     = mkEffect test_handler []
         (Settled 0
            (Rejected
               (WebhookVerificationError
                  (str "Failed to parse webhook payload: "
                   ++ str "Unexpected token in JSON")))).
Proof.
  split; [vm_compute; reflexivity|].
  split; [vm_compute; reflexivity|].
  split; [vm_compute; reflexivity|].
  split; vm_compute; reflexivity.
Qed.

(** ** The constructor and the registry operations *)

Lemma trimStart_nil_iff (s : jsstring) :
  trimStart s = [] <-> forallb is_white_space s = true.
Proof.
  induction s as [|c s IH]; simpl; [tauto|].
  destruct (is_white_space c); simpl; [exact IH|].
  split; discriminate.
Qed.

Lemma trimStart_head (s : jsstring) (c : N) (r : jsstring) :
  trimStart s = c :: r -> is_white_space c = false.
Proof.
  induction s as [|x s IH]; simpl; [discriminate|].
  destruct (is_white_space x) eqn:E; [exact IH|].
  now intros [= <- _].
Qed.

Lemma forallb_rev {A} (f : A -> bool) (l : list A) :
  forallb f (rev l) = forallb f l.
Proof.
  induction l as [|x l IH]; simpl; [reflexivity|].
  rewrite forallb_app, IH. simpl. rewrite andb_true_r. apply andb_comm.
Qed.

(** trim leaves nothing exactly of the strings made of white space. *)
Lemma trim_blank_iff (s : jsstring) :
  (List.length (trim s) =? 0)%nat = forallb is_white_space s.
Proof.
  apply eq_true_iff_eq. rewrite Nat.eqb_eq, <- trimStart_nil_iff.
  unfold trim, trimEnd. rewrite length_rev. split.
  - intros H. apply length_zero_iff_nil, trimStart_nil_iff in H.
    rewrite forallb_rev in H.
    destruct (trimStart s) as [|c r] eqn:E; [reflexivity|].
    apply trimStart_head in E. simpl in H. now rewrite E in H.
  - intros ->. reflexivity.
Qed.

Lemma constructor_eq (config : Config.t) :
  constructor config
  = if forallb is_white_space (Config.secret config)
    then Throw (Error (str "Webhook secret is required"))
    else Normal (mkWebhookHandler (Config.secret config)
                   (default (Num 300) (Config.maxAge config))
                   (default true (Config.validateTimestamp config)) ∅).
Proof.
  unfold constructor. rewrite trim_blank_iff.
  destruct (Config.secret config) as [|c s]; [reflexivity|].
  cbn [falsy orb]. reflexivity.
Qed.

(** The constructor throws "Webhook secret is required" exactly when the
    secret is empty or made of white space only; otherwise it builds the
    handler object with the given secret, the defaults 300 and true for the
    options left out, and no handler registered. *)
Theorem constructor_requires_secret (config : Config.t) :
  (constructor config = Throw (Error (str "Webhook secret is required"))
   <-> forallb is_white_space (Config.secret config) = true)
  /\ (forall this,
        constructor config = Normal this ->
        secret this = Config.secret config
        /\ maxAge this = default (Num 300) (Config.maxAge config)
        /\ validateTimestamp this
           = default true (Config.validateTimestamp config)
        /\ handlers this = ∅)
  /\ (forallb is_white_space (Config.secret config) = false ->
      exists this, constructor config = Normal this).
Proof.
  rewrite constructor_eq.
  destruct (forallb is_white_space (Config.secret config)).
  - split; [tauto|]. split; [discriminate|discriminate].
  - split; [split; discriminate|]. split; [|eauto].
    intros this [= <-]. auto.
Qed.

(** A secret of spaces and tabs is refused; the secret of the tests is
    accepted. *)
Lemma constructor_examples :
  constructor (Config.mk [0x20; 0x09; 0x20] None None)
  = Throw (Error (str "Webhook secret is required"))
  /\ exists this,
       constructor (Config.mk (str "test-secret-key") None None) = Normal this.
Proof.
  split.
  - apply (proj1 (constructor_requires_secret
                    (Config.mk [0x20; 0x09; 0x20] None None))).
    reflexivity.
  - apply (proj2 (proj2 (constructor_requires_secret
                    (Config.mk (str "test-secret-key") None None)))).
    reflexivity.
Defined.

Lemma handlers_with_handlers (this : WebhookHandler)
    (m : gmap CodegenEventType (list WebhookEventHandler)) :
  handlers (with_handlers this m) = m.
Proof. reflexivity. Qed.

Lemma handlers_on (this : WebhookHandler) (event e : CodegenEventType)
    (handler : WebhookEventHandler) :
  handlers (on this event handler) !! e
  = if decide (event = e)
    then Some (default [] (handlers this !! event) ++ [handler])
    else handlers this !! e.
Proof. unfold on. rewrite handlers_with_handlers. apply lookup_insert. Qed.

(** onAll appends the handler to the list of every event type, once, and
    leaves the configuration alone. *)
Theorem onAll_registers_everywhere (this : WebhookHandler)
    (handler : WebhookEventHandler) (e : CodegenEventType) :
  handlers (onAll this handler) !! e
  = Some (default [] (handlers this !! e) ++ [handler])
  /\ secret (onAll this handler) = secret this
  /\ maxAge (onAll this handler) = maxAge this
  /\ validateTimestamp (onAll this handler) = validateTimestamp this.
Proof.
  split; [|repeat split].
  unfold onAll. cbn [fold_left].
  destruct e; repeat (rewrite handlers_on; case_decide; try congruence).
Qed.

Lemma no_empty_entry_on (this : WebhookHandler) (event : CodegenEventType)
    (handler : WebhookEventHandler) :
  no_empty_entry this -> no_empty_entry (on this event handler).
Proof.
  intros H e. rewrite handlers_on. case_decide; [|apply H].
  intros [= E]. now apply app_eq_nil in E as [_ E].
Qed.

(** The registry never maps an event to an empty list: the constructor
    starts from no entry, and on, onAll, off and removeAllListeners keep it
    so. *)
Theorem registry_has_no_empty_entry :
  (forall config this, constructor config = Normal this -> no_empty_entry this)
  /\ (forall this event handler,
        no_empty_entry this -> no_empty_entry (on this event handler))
  /\ (forall this handler,
        no_empty_entry this -> no_empty_entry (onAll this handler))
  /\ (forall this event handler,
        no_empty_entry this -> no_empty_entry (off this event handler))
  /\ (forall this event,
        no_empty_entry this -> no_empty_entry (removeAllListeners this event)).
Proof.
  split; [|split; [|split; [|split]]].
  - intros config this. rewrite constructor_eq.
    destruct (forallb _ _); [discriminate|]. intros [= <-] e. simpl.
    now rewrite lookup_empty.
  - apply no_empty_entry_on.
  - intros this handler H. unfold onAll. cbn [fold_left].
    now repeat apply no_empty_entry_on.
  - intros this event handler H e. unfold off.
    destruct (handlers this !! event) as [hs|] eqn:E; [|apply H].
    destruct (List.filter _ hs) as [|k kept] eqn:F; cbn [List.length Nat.eqb];
      rewrite handlers_with_handlers.
    + rewrite lookup_delete. case_decide; [discriminate|apply H].
    + rewrite lookup_insert. case_decide; [discriminate|apply H].
  - intros this [event|] H e; unfold removeAllListeners;
      rewrite handlers_with_handlers.
    + rewrite lookup_delete. case_decide; [discriminate|apply H].
    + now rewrite lookup_empty.
Qed.

(** When no event is mapped to an empty list, the registered events are
    the events with at least one handler. *)
Theorem getRegisteredEvents_have_handlers (this : WebhookHandler)
    (e : CodegenEventType) :
  no_empty_entry this ->
  (e ∈ getRegisteredEvents this
   <-> exists handler, In handler (default [] (handlers this !! e))).
Proof.
  intros H. unfold getRegisteredEvents. rewrite elem_of_dom.
  specialize (H e). destruct (handlers this !! e) as [[|h hs]|]; simpl.
  - congruence.
  - split; [intros _; exists h; now left | intros _; eauto].
  - split; [intros [x [=]] | intros [x []]].
Qed.

Lemma registered_handler_no_empty_entry : no_empty_entry registered_handler.
Proof. intros e. destruct e; vm_compute; discriminate. Qed.

(** agent.started and tool.used are registered, agent.failed is not. *)
Lemma getRegisteredEvents_example :
  (tool_used ∈ getRegisteredEvents registered_handler
   <-> exists handler,
       In handler (default [] (handlers registered_handler !! tool_used))).
Proof.
  apply (getRegisteredEvents_have_handlers registered_handler tool_used).
  apply registered_handler_no_empty_entry.
Defined.

Lemma remove_app_fresh (handler : WebhookEventHandler)
    (hs : list WebhookEventHandler) :
  ~ In handler hs -> List.remove Nat.eq_dec handler (hs ++ [handler]) = hs.
Proof.
  intros H. rewrite remove_app, (notin_remove _ _ _ H). simpl.
  destruct (Nat.eq_dec handler handler); [apply app_nil_r|congruence].
Qed.

(** off undoes on: when the handler was not registered for the event
    before, registering it and removing it again gives back the handler
    object, entry for entry. *)
Theorem off_on_restores (this : WebhookHandler) (event : CodegenEventType)
    (handler : WebhookEventHandler) :
  no_empty_entry this ->
  ~ In handler (default [] (handlers this !! event)) ->
  off (on this event handler) event handler = this.
Proof.
  intros Hne Hin. unfold off. rewrite handlers_on.
  case_decide; [|congruence]. rewrite filter_remove, remove_app_fresh by exact Hin.
  unfold on. rewrite handlers_with_handlers.
  specialize (Hne event). destruct this as [s m v reg]. simpl in *.
  unfold with_handlers. simpl.
  destruct (reg !! event) as [[|h hs]|] eqn:E; simpl.
  - congruence.
  - f_equal. rewrite insert_insert_eq. now apply insert_id.
  - f_equal. rewrite delete_insert_eq. now apply delete_id.
Qed.

(** The test "should remove specific handler": on a fresh handler object,
    on then off leaves the object as it was. *)
Lemma off_on_fresh :
  off (on test_handler agent_started 1%nat) agent_started 1%nat = test_handler.
Proof.
  apply (off_on_restores test_handler agent_started 1%nat).
  - intros e. vm_compute. discriminate.
  - vm_compute. tauto.
Defined.

(** ** More on dispatch *)

(** Whatever the handlers do, executeHandlers calls handlers of the list
    registered for the event of the payload only, in the order of the list,
    each registration at most once, and always with the payload: the calls
    are those of an initial part of the list. *)
Theorem executeHandlers_calls_a_prefix (behaviour : Behaviour)
    (this : WebhookHandler) (payload : WebhookEventPayload) :
  exists n,
    invoked (executeHandlers behaviour this payload)
    = List.map (fun h => (h, payload))
        (firstn n (default [] (handlers this !! event payload))).
Proof.
  unfold executeHandlers.
  destruct (default [] (handlers this !! event payload)) as [|h hs] eqn:E.
  - now exists 0%nat.
  - cbn [List.length Nat.eqb]. cbv zeta.
    destruct (map_call_invoked_prefix behaviour (h :: hs) payload this)
      as [n Hn].
    exists n. now destruct (result (map_call behaviour (h :: hs) payload this)).
Qed.

Lemma In_firstn {A} (x : A) (n : nat) (l : list A) :
  In x (firstn n l) -> In x l.
Proof.
  intros H. rewrite <- (firstn_skipn n l). apply in_or_app. now left.
Qed.

Lemma executeHandlers_invoked_registered (behaviour : Behaviour)
    (this : WebhookHandler) (payload : WebhookEventPayload)
    (h : WebhookEventHandler) (p : WebhookEventPayload) :
  In (h, p) (invoked (executeHandlers behaviour this payload)) ->
  p = payload /\ In h (default [] (handlers this !! event payload)).
Proof.
  unfold executeHandlers.
  destruct (default [] (handlers this !! event payload)) as [|h0 hs] eqn:E.
  - intros [].
  - cbn [List.length Nat.eqb]. cbv zeta.
    destruct (map_call_invoked_prefix behaviour (h0 :: hs) payload this)
      as [n Hn].
    intros H.
    assert (In (h, p) (List.map (fun h => (h, payload)) (firstn n (h0 :: hs))))
      as Hin.
    { rewrite <- Hn.
      now destruct (result (map_call behaviour (h0 :: hs) payload this)). }
    apply in_map_iff in Hin as (h' & [= -> ->] & Hin).
    split; [reflexivity|]. now apply In_firstn in Hin.
Qed.

Lemma handlers_off (this : WebhookHandler) (event : CodegenEventType)
    (handler : WebhookEventHandler) :
  default [] (handlers (off this event handler) !! event)
  = List.remove Nat.eq_dec handler (default [] (handlers this !! event)).
Proof.
  unfold off. destruct (handlers this !! event) as [hs|] eqn:E.
  - rewrite filter_remove.
    destruct (List.remove Nat.eq_dec handler hs) as [|k kept] eqn:F;
      cbn [List.length Nat.eqb]; rewrite handlers_with_handlers.
    + now rewrite lookup_delete_eq.
    + now rewrite lookup_insert_eq.
  - now rewrite E.
Qed.

(** After off(event, handler), no dispatch of a payload of that event
    calls the handler, whatever the handlers that are called do; the other
    handlers of the event are still in the list that is dispatched to. *)
Theorem off_handler_is_not_called (behaviour : Behaviour)
    (this : WebhookHandler) (handler : WebhookEventHandler)
    (payload : WebhookEventPayload) :
  (forall p,
      ~ In (handler, p)
          (invoked (executeHandlers behaviour
                      (off this (event payload) handler) payload)))
  /\ (forall h,
        h <> handler ->
        In h (default [] (handlers this !! event payload)) ->
        In h (default []
                (handlers (off this (event payload) handler)
                 !! event payload))).
Proof.
  split.
  - intros p H. apply executeHandlers_invoked_registered in H as [_ H].
    rewrite handlers_off in H. now apply remove_In in H.
  - intros h Hne Hin. rewrite handlers_off. now apply in_in_remove.
Qed.

(** After removeAllListeners a dispatch calls no handler and resolves at
    once: for every payload when no event is given, for the payloads of the
    event when one is given, the entries of the other events staying as
    they are. *)
Theorem removeAllListeners_silences (behaviour : Behaviour)
    (this : WebhookHandler) (payload : WebhookEventPayload) :
  executeHandlers behaviour (removeAllListeners this None) payload
  = mkEffect (removeAllListeners this None) [] (Settled 0 Fulfilled)
  /\ executeHandlers behaviour
       (removeAllListeners this (Some (event payload))) payload
     = mkEffect (removeAllListeners this (Some (event payload))) []
         (Settled 0 Fulfilled)
  /\ (forall e,
        e <> event payload ->
        handlers (removeAllListeners this (Some (event payload))) !! e
        = handlers this !! e).
Proof.
  split; [|split].
  - apply executeHandlers_none. simpl. now rewrite lookup_empty.
  - apply executeHandlers_none. simpl. now rewrite lookup_delete_eq.
  - intros e Hne. simpl. now apply lookup_delete_ne.
Qed.

(** End to end: under the expected signature, when JSON.parse and the
    schema accept the body, the timestamp is within the window and no
    handler registered for the event throws, processWebhook calls each
    handler registered for the event of the payload once, in order, with
    the parsed payload. *)
Theorem processWebhook_delivers (rt : Runtime) (behaviour : Behaviour)
    (this : WebhookHandler) (now : Z) (rawPayload : jsstring)
    (parsedPayload : JSValue) (payload : WebhookEventPayload) :
  JSON_parse rt rawPayload = inr parsedPayload ->
  parse (WebhookEventPayloadSchema rt) parsedPayload = Normal payload ->
  validatePayloadTimestamp this now (timestamp payload) = true ->
  all_return behaviour (default [] (handlers this !! event payload)) payload ->
  invoked (processWebhook rt behaviour this now rawPayload
             (Some (computeSignature this rawPayload)))
  = List.map (fun h => (h, payload))
      (default [] (handlers this !! event payload)).
Proof.
  intros J P V A. unfold processWebhook.
  rewrite (proj2 (verifySignature_true_iff this rawPayload _) eq_refl).
  rewrite J, P, V. cbn [negb].
  destruct (default [] (handlers this !! event payload)) as [|h hs] eqn:E.
  - rewrite executeHandlers_none by exact E. reflexivity.
  - unfold executeHandlers. rewrite E. cbn [List.length Nat.eqb]. cbv zeta.
    destruct (map_call_all_return behaviour _ payload this A) as [returned Hr].
    rewrite Hr. cbn [invoked].
    now apply map_call_returns in Hr as [Hr _].
Qed.

(** The scenario of the specification: both handlers registered for
    agent.started are called with the parsed payload. *)
Lemma processWebhook_delivers_scenario :
  invoked (processWebhook Reference.runtime quiet two_handlers started_now
             started_body (Some (computeSignature two_handlers started_body)))
  = List.map (fun h => (h, started_payload))
      (default [] (handlers two_handlers !! event started_payload)).
Proof.
  apply (processWebhook_delivers Reference.runtime quiet two_handlers
           started_now started_body started_json started_payload).
  - vm_compute. reflexivity.
  - vm_compute. reflexivity.
  - vm_compute. reflexivity.
  - intros h m _. exists None. reflexivity.
Defined.

(** A payload whose timestamp is a valid date outside the window, under
    the expected signature: processWebhook fails with the error that names
    the timestamp in ISO form, calls no handler and changes nothing. *)
Theorem processWebhook_rejects_outside_window (rt : Runtime)
    (behaviour : Behaviour) (this : WebhookHandler) (now : Z)
    (rawPayload : jsstring) (parsedPayload : JSValue)
    (payload : WebhookEventPayload) (ms : Z) :
  JSON_parse rt rawPayload = inr parsedPayload ->
  parse (WebhookEventPayloadSchema rt) parsedPayload = Normal payload ->
  timestamp payload = DateAt ms ->
  validatePayloadTimestamp this now (DateAt ms) = false ->
  processWebhook rt behaviour this now rawPayload
    (Some (computeSignature this rawPayload))
  = mkEffect this []
      (Settled 0
         (Rejected
            (WebhookVerificationError
               (str "Webhook timestamp is too old or in the future: "
                ++ Date_toISOString rt ms)))).
Proof.
  intros J P T V. unfold processWebhook.
  rewrite (proj2 (verifySignature_true_iff this rawPayload _) eq_refl).
  rewrite J, P, T, V. reflexivity.
Qed.

(** The scenario "timestamp 10 minutes in the past, maxAge = 300s". *)
Lemma processWebhook_ten_minutes_old :
  processWebhook Reference.runtime quiet two_handlers
    (1704067200000 + 600000) started_body
    (Some (computeSignature two_handlers started_body))
  = mkEffect two_handlers []
      (Settled 0
         (Rejected
            (WebhookVerificationError
               (str "Webhook timestamp is too old or in the future: "
                ++ Date_toISOString Reference.runtime 1704067200000)))).
Proof.
  apply (processWebhook_rejects_outside_window Reference.runtime quiet
           two_handlers (1704067200000 + 600000) started_body started_json
           started_payload 1704067200000).
  - vm_compute. reflexivity.
  - vm_compute. reflexivity.
  - reflexivity.
  - reflexivity.
Defined.

(** ** More on the schemas *)

Lemma jsstring_eqb_sym (a b : jsstring) : jsstring_eqb a b = jsstring_eqb b a.
Proof.
  apply eq_true_iff_eq. rewrite !jsstring_eqb_eq. split; congruence.
Qed.

Section MoreSchemaProperties.

Variable rt : Runtime.

Lemma AgentStartedDataSchema_skip (o : list (jsstring * JSValue))
    (t : jsstring) :
  get o (str "type") = Some (JString t) ->
  jsstring_eqb t (str "agent.started") = false ->
  AgentStartedDataSchema (Some (JObject o)) = None.
Proof. intros H E. unfold AgentStartedDataSchema. skip_literal H E. Qed.

Lemma AgentCompletedDataSchema_skip (o : list (jsstring * JSValue))
    (t : jsstring) :
  get o (str "type") = Some (JString t) ->
  jsstring_eqb t (str "agent.completed") = false ->
  AgentCompletedDataSchema rt (Some (JObject o)) = None.
Proof. intros H E. unfold AgentCompletedDataSchema. skip_literal H E. Qed.

Lemma AgentFailedDataSchema_skip (o : list (jsstring * JSValue))
    (t : jsstring) :
  get o (str "type") = Some (JString t) ->
  jsstring_eqb t (str "agent.failed") = false ->
  AgentFailedDataSchema rt (Some (JObject o)) = None.
Proof. intros H E. unfold AgentFailedDataSchema. skip_literal H E. Qed.

Lemma AgentProgressDataSchema_skip (o : list (jsstring * JSValue))
    (t : jsstring) :
  get o (str "type") = Some (JString t) ->
  jsstring_eqb t (str "agent.progress") = false ->
  AgentProgressDataSchema (Some (JObject o)) = None.
Proof. intros H E. unfold AgentProgressDataSchema. skip_literal H E. Qed.

Lemma ToolUsedDataSchema_skip (o : list (jsstring * JSValue))
    (t : jsstring) :
  get o (str "type") = Some (JString t) ->
  jsstring_eqb t (str "tool.used") = false ->
  ToolUsedDataSchema (Some (JObject o)) = None.
Proof. intros H E. unfold ToolUsedDataSchema. skip_literal H E. Qed.

Lemma FileModifiedDataSchema_skip (o : list (jsstring * JSValue))
    (t : jsstring) :
  get o (str "type") = Some (JString t) ->
  jsstring_eqb t (str "file.created") = false ->
  jsstring_eqb t (str "file.updated") = false ->
  jsstring_eqb t (str "file.deleted") = false ->
  FileModifiedDataSchema (Some (JObject o)) = None.
Proof.
  intros H E1 E2 E3. unfold FileModifiedDataSchema, z_object. rewrite H.
  unfold z_enum. cbn [List.find fst].
  rewrite (jsstring_eqb_sym _ t), E1, (jsstring_eqb_sym _ t), E2,
    (jsstring_eqb_sym _ t), E3.
  reflexivity.
Qed.

(** The schema of the union on an object whose type is the string [t]:
    the alternative of that tag, the others fail. *)
Lemma WebhookEventDataSchema_by_type (o : list (jsstring * JSValue))
    (t : jsstring) :
  get o (str "type") = Some (JString t) ->
  WebhookEventDataSchema rt (Some (JObject o))
  = if jsstring_eqb t (str "agent.started")
    then AgentStartedDataSchema (Some (JObject o))
    else if jsstring_eqb t (str "agent.completed")
    then AgentCompletedDataSchema rt (Some (JObject o))
    else if jsstring_eqb t (str "agent.failed")
    then AgentFailedDataSchema rt (Some (JObject o))
    else if jsstring_eqb t (str "agent.progress")
    then AgentProgressDataSchema (Some (JObject o))
    else if jsstring_eqb t (str "tool.used")
    then ToolUsedDataSchema (Some (JObject o))
    else if jsstring_eqb t (str "file.created")
            || jsstring_eqb t (str "file.updated")
            || jsstring_eqb t (str "file.deleted")
    then FileModifiedDataSchema (Some (JObject o))
    else None.
Proof.
  intros H. unfold WebhookEventDataSchema. cbn [z_union].
  destruct (jsstring_eqb t (str "agent.started")) eqn:E1.
  { apply jsstring_eqb_eq in E1. subst t.
    rewrite (AgentCompletedDataSchema_skip o _ H eq_refl),
      (AgentFailedDataSchema_skip o _ H eq_refl),
      (AgentProgressDataSchema_skip o _ H eq_refl),
      (ToolUsedDataSchema_skip o _ H eq_refl),
      (FileModifiedDataSchema_skip o _ H eq_refl eq_refl eq_refl).
    now destruct (AgentStartedDataSchema (Some (JObject o))). }
  rewrite (AgentStartedDataSchema_skip o t H E1).
  destruct (jsstring_eqb t (str "agent.completed")) eqn:E2.
  { apply jsstring_eqb_eq in E2. subst t.
    rewrite (AgentFailedDataSchema_skip o _ H eq_refl),
      (AgentProgressDataSchema_skip o _ H eq_refl),
      (ToolUsedDataSchema_skip o _ H eq_refl),
      (FileModifiedDataSchema_skip o _ H eq_refl eq_refl eq_refl).
    now destruct (AgentCompletedDataSchema rt (Some (JObject o))). }
  rewrite (AgentCompletedDataSchema_skip o t H E2).
  destruct (jsstring_eqb t (str "agent.failed")) eqn:E3.
  { apply jsstring_eqb_eq in E3. subst t.
    rewrite (AgentProgressDataSchema_skip o _ H eq_refl),
      (ToolUsedDataSchema_skip o _ H eq_refl),
      (FileModifiedDataSchema_skip o _ H eq_refl eq_refl eq_refl).
    now destruct (AgentFailedDataSchema rt (Some (JObject o))). }
  rewrite (AgentFailedDataSchema_skip o t H E3).
  destruct (jsstring_eqb t (str "agent.progress")) eqn:E4.
  { apply jsstring_eqb_eq in E4. subst t.
    rewrite (ToolUsedDataSchema_skip o _ H eq_refl),
      (FileModifiedDataSchema_skip o _ H eq_refl eq_refl eq_refl).
    now destruct (AgentProgressDataSchema (Some (JObject o))). }
  rewrite (AgentProgressDataSchema_skip o t H E4).
  destruct (jsstring_eqb t (str "tool.used")) eqn:E5.
  { apply jsstring_eqb_eq in E5. subst t.
    rewrite (FileModifiedDataSchema_skip o _ H eq_refl eq_refl eq_refl).
    now destruct (ToolUsedDataSchema (Some (JObject o))). }
  rewrite (ToolUsedDataSchema_skip o t H E5).
  destruct (jsstring_eqb t (str "file.created")) eqn:E6;
    [now destruct (FileModifiedDataSchema (Some (JObject o)))|].
  destruct (jsstring_eqb t (str "file.updated")) eqn:E7;
    [now destruct (FileModifiedDataSchema (Some (JObject o)))|].
  destruct (jsstring_eqb t (str "file.deleted")) eqn:E8;
    [now destruct (FileModifiedDataSchema (Some (JObject o)))|].
  now rewrite (FileModifiedDataSchema_skip o t H E6 E7 E8).
Qed.

(** The data.type of the value selects the shape the data is checked
    against: the union schema gives what the one alternative with that tag
    gives, which checks the remaining fields, and fails on an object whose
    type is not a string or is another string. *)
Theorem data_type_selects_the_shape (o : list (jsstring * JSValue)) :
  (get o (str "type") = Some (JString (str "agent.started")) ->
   WebhookEventDataSchema rt (Some (JObject o))
   = AgentStartedDataSchema (Some (JObject o)))
  /\ (get o (str "type") = Some (JString (str "agent.completed")) ->
      WebhookEventDataSchema rt (Some (JObject o))
      = AgentCompletedDataSchema rt (Some (JObject o)))
  /\ (get o (str "type") = Some (JString (str "agent.failed")) ->
      WebhookEventDataSchema rt (Some (JObject o))
      = AgentFailedDataSchema rt (Some (JObject o)))
  /\ (get o (str "type") = Some (JString (str "agent.progress")) ->
      WebhookEventDataSchema rt (Some (JObject o))
      = AgentProgressDataSchema (Some (JObject o)))
  /\ (get o (str "type") = Some (JString (str "tool.used")) ->
      WebhookEventDataSchema rt (Some (JObject o))
      = ToolUsedDataSchema (Some (JObject o)))
  /\ (forall t,
        get o (str "type") = Some (JString t) ->
        In t [str "file.created"; str "file.updated"; str "file.deleted"] ->
        WebhookEventDataSchema rt (Some (JObject o))
        = FileModifiedDataSchema (Some (JObject o)))
  /\ ((forall e,
          get o (str "type")
          <> Some (JString (event_name e)) \/ e = agent_cancelled) ->
      WebhookEventDataSchema rt (Some (JObject o)) = None).
Proof.
  repeat split.
  1-5: intros H; now rewrite (WebhookEventDataSchema_by_type o _ H).
  - intros t H [<-|[<-|[<-|[]]]];
      now rewrite (WebhookEventDataSchema_by_type o _ H).
  - intros H.
    destruct (WebhookEventDataSchema rt (Some (JObject o))) as [d|] eqn:E;
      [|reflexivity].
    apply WebhookEventDataSchema_type in E as (o' & [= <-] & E).
    destruct (H (data_type d)) as [Hne|Hc]; [congruence|].
    now apply data_type_not_cancelled in Hc.
Qed.

(** An agent.progress data with its strings in place is accepted exactly
    when its progress is a number between 0 and 100, both included. *)
Theorem progress_is_between_0_and_100 (o : list (jsstring * JSValue))
    (s m : jsstring) (q : Q) :
  get o (str "type") = Some (JString (str "agent.progress")) ->
  get o (str "sessionId") = Some (JString s) ->
  get o (str "message") = Some (JString m) ->
  get o (str "progress") = Some (JNumber (Num q)) ->
  WebhookEventDataSchema rt (Some (JObject o))
  = if Qle_bool 0 q && Qle_bool q 100
    then Some (AgentProgressData s m (Num q))
    else None.
Proof.
  intros Ht Hs Hm Hp. rewrite (WebhookEventDataSchema_by_type o _ Ht).
  cbn [jsstring_eqb]. change (jsstring_eqb (str "agent.progress") _)
    with false at 1.
  change (jsstring_eqb (str "agent.progress") (str "agent.completed"))
    with false.
  change (jsstring_eqb (str "agent.progress") (str "agent.failed")) with false.
  change (jsstring_eqb (str "agent.progress") (str "agent.progress"))
    with true.
  cbv iota. unfold AgentProgressDataSchema, z_object.
  rewrite Ht, Hs, Hm, Hp. cbn [z_literal z_string mbind option_bind].
  change (jsstring_eqb (str "agent.progress") (str "agent.progress"))
    with true.
  cbv iota. unfold z_number_min_max, z_number, number_gt, number_lt.
  cbn [mbind option_bind].
  destruct (Qle_bool 0 q), (Qle_bool q 100); reflexivity.
Qed.

(** On data the schema has validated, each type guard tells whether the
    type of the value is its tag (one of its three tags for
    isFileModifiedData), and exactly one of the six guards holds. *)
Theorem type_guards_follow_the_tag (v : option JSValue)
    (d : WebhookEventData) :
  WebhookEventDataSchema rt v = Some d ->
  exists o t,
    v = Some (JObject o)
    /\ get o (str "type") = Some (JString t)
    /\ isAgentStartedData d = jsstring_eqb t (str "agent.started")
    /\ isAgentCompletedData d = jsstring_eqb t (str "agent.completed")
    /\ isAgentFailedData d = jsstring_eqb t (str "agent.failed")
    /\ isAgentProgressData d = jsstring_eqb t (str "agent.progress")
    /\ isToolUsedData d = jsstring_eqb t (str "tool.used")
    /\ isFileModifiedData d
       = jsstring_eqb t (str "file.created")
         || jsstring_eqb t (str "file.updated")
         || jsstring_eqb t (str "file.deleted")
    /\ List.length
         (List.filter (fun guard => guard d)
            [isAgentStartedData; isAgentCompletedData; isAgentFailedData;
             isAgentProgressData; isToolUsedData; isFileModifiedData])
       = 1%nat.
Proof.
  intros H. apply WebhookEventDataSchema_type in H as (o & -> & H).
  exists o, (event_name (data_type d)).
  repeat (split; [reflexivity || exact H|]).
  destruct d as [| | | | |[]]; reflexivity.
Qed.

Lemma jsstring_eqb_neq (a b : jsstring) : a <> b -> jsstring_eqb a b = false.
Proof.
  intros H. destruct (jsstring_eqb a b) eqn:E; [|reflexivity].
  now apply jsstring_eqb_eq in E.
Qed.

(** A property of the body that the payload schema does not declare is
    ignored: setting it to any value leaves the result of the validation
    as it was. *)
Theorem undeclared_property_is_ignored (o : list (jsstring * JSValue))
    (k : jsstring) (x : JSValue) :
  ~ In k [str "event"; str "sessionId"; str "timestamp"; str "data"] ->
  WebhookEventPayloadSchema rt (Some (JObject (set_property o k x)))
  = WebhookEventPayloadSchema rt (Some (JObject o)).
Proof.
  intros H. unfold WebhookEventPayloadSchema, z_object.
  rewrite !get_set_ne; [reflexivity|..];
    apply jsstring_eqb_neq; intros ->; apply H; simpl; auto.
Qed.

Lemma get_date_free (o : list (jsstring * JSValue)) (k : jsstring)
    (x : JSValue) :
  get o k = Some x -> date_free (JObject o) = true -> date_free x = true.
Proof.
  simpl. induction o as [|[k' v'] o IH]; [discriminate|]. simpl.
  intros H [H1 H2]%andb_prop.
  destruct (jsstring_eqb k' k); [congruence|auto].
Qed.

Lemma ApiResponseSchema_date_free {T} (dataSchema : Schema T)
    (v : JSValue) :
  date_free v = true -> ApiResponseSchema rt dataSchema (Some v) = None.
Proof.
  intros H.
  destruct (ApiResponseSchema rt dataSchema (Some v)) as [r|] eqn:E;
    [|reflexivity].
  unfold ApiResponseSchema in E.
  apply z_object_inv in E as (o & [= ->] & E).
  destruct (get o (str "timestamp")) as [x|] eqn:G.
  - apply get_date_free in G; [|exact H].
    destruct (z_boolean _); [|discriminate E]. cbn [mbind option_bind] in E.
    destruct (z_optional dataSchema _); [|discriminate E].
    cbn [mbind option_bind] in E.
    destruct (z_optional (CodegenErrorSchema rt) _); [|discriminate E].
    cbn [mbind option_bind] in E.
    destruct x as [| | | | | |[|ms]]; try discriminate E; discriminate G.
  - destruct (z_boolean _); [|discriminate E]. cbn [mbind option_bind] in E.
    destruct (z_optional dataSchema _); [|discriminate E].
    cbn [mbind option_bind] in E.
    destruct (z_optional (CodegenErrorSchema rt) _); discriminate E.
Qed.

(** The schema of an API response accepts a value only if it is an object
    whose timestamp is a Date object holding a valid date; a value with no
    Date object in it, as a JSON text denotes, is rejected whatever the
    schema of the data is. *)
Theorem ApiResponseSchema_needs_a_Date_object {T} (dataSchema : Schema T)
    (v : option JSValue) :
  (forall r,
      ApiResponseSchema rt dataSchema v = Some r ->
      exists o,
        v = Some (JObject o)
        /\ get o (str "timestamp") = Some (JDate (ApiResponse.timestamp r))
        /\ ApiResponse.timestamp r <> InvalidDate)
  /\ (forall x,
        v = Some x -> date_free x = true ->
        ApiResponseSchema rt dataSchema v = None).
Proof.
  split.
  - intros r E. unfold ApiResponseSchema in E.
    apply z_object_inv in E as (o & -> & E). exists o.
    split; [reflexivity|].
    destruct (z_boolean _); [|discriminate E]. cbn [mbind option_bind] in E.
    destruct (z_optional dataSchema _); [|discriminate E].
    cbn [mbind option_bind] in E.
    destruct (z_optional (CodegenErrorSchema rt) _); [|discriminate E].
    cbn [mbind option_bind] in E.
    destruct (get o (str "timestamp")) as [[| | | | | |[|ms]]|];
      try discriminate E.
    injection E as <-. split; [reflexivity|discriminate].
  - intros x -> H. now apply ApiResponseSchema_date_free.
Qed.

End MoreSchemaProperties.

Lemma progress_100_accepted :
  WebhookEventDataSchema Reference.runtime (Some (JObject (progress_data 100)))
  = Some (AgentProgressData (str "s1") (str "m") (Num 100)).
Proof.
  exact (progress_is_between_0_and_100 Reference.runtime (progress_data 100)
           (str "s1") (str "m") 100 eq_refl eq_refl eq_refl eq_refl).
Defined.

Lemma type_guards_of_progress :
  exists o t,
    Some (JObject (progress_data 100)) = Some (JObject o)
    /\ get o (str "type") = Some (JString t)
    /\ isAgentStartedData (AgentProgressData (str "s1") (str "m") (Num 100))
       = jsstring_eqb t (str "agent.started")
    /\ isAgentCompletedData (AgentProgressData (str "s1") (str "m") (Num 100))
       = jsstring_eqb t (str "agent.completed")
    /\ isAgentFailedData (AgentProgressData (str "s1") (str "m") (Num 100))
       = jsstring_eqb t (str "agent.failed")
    /\ isAgentProgressData (AgentProgressData (str "s1") (str "m") (Num 100))
       = jsstring_eqb t (str "agent.progress")
    /\ isToolUsedData (AgentProgressData (str "s1") (str "m") (Num 100))
       = jsstring_eqb t (str "tool.used")
    /\ isFileModifiedData (AgentProgressData (str "s1") (str "m") (Num 100))
       = jsstring_eqb t (str "file.created")
         || jsstring_eqb t (str "file.updated")
         || jsstring_eqb t (str "file.deleted")
    /\ List.length
         (List.filter
            (fun guard =>
               guard (AgentProgressData (str "s1") (str "m") (Num 100)))
            [isAgentStartedData; isAgentCompletedData; isAgentFailedData;
             isAgentProgressData; isToolUsedData; isFileModifiedData])
       = 1%nat.
Proof.
  apply (type_guards_follow_the_tag Reference.runtime). reflexivity.
Defined.

Lemma undeclared_signature_is_ignored :
  WebhookEventPayloadSchema Reference.runtime
    (Some (JObject (set_property started_properties (str "signature") JNull)))
  = WebhookEventPayloadSchema Reference.runtime
      (Some (JObject started_properties)).
Proof.
  apply undeclared_property_is_ignored.
  intros [H|[H|[H|[H|[]]]]]; discriminate H.
Defined.

(** ** More on doubles: exact products and the order *)

Lemma Qle_bool_wd (a a' b b' : Q) :
  (a == a')%Q -> (b == b')%Q -> Qle_bool a b = Qle_bool a' b'.
Proof.
  intros Ha Hb. apply eq_true_iff_eq. rewrite !Qle_bool_iff. lra.
Qed.

(** A multiple of a power of 2 that is not below the unit of [x] is a
    double. *)
Lemma nearest_exact (x : Q) (m k : Z) :
  (Double.exponent x <= k)%Z ->
  (x == inject_Z m * 2 ^ k)%Q ->
  (Double.nearest x == x)%Q.
Proof.
  intros Hk E. unfold Double.nearest.
  set (e := Double.exponent x) in *.
  assert (S : (x * 2 ^ (- e) == inject_Z (m * 2 ^ (k - e)))%Q).
  { rewrite inject_Z_mult, pow2_Z by lia.
    unfold Z.sub. rewrite pow2_plus, E. ring. }
  rewrite (round_half_even_comp _ _ S), round_half_even_Z.
  rewrite inject_Z_mult, pow2_Z by lia.
  unfold Z.sub. rewrite pow2_plus, E.
  rewrite <- !Qmult_assoc, pow2_cancel. ring.
Qed.

Lemma ilog2_scaled (x : Q) (i : Z) :
  (0 < x)%Q -> Double.ilog2 (x * 2 ^ i) = (Double.ilog2 x + i)%Z.
Proof.
  intros Hx. destruct (ilog2_spec x Hx) as [S1 S2].
  pose proof (pow2_pos i) as P.
  apply ilog2_unique.
  - rewrite pow2_plus. apply Qmult_le_compat_r; [exact S1|lra].
  - replace (Double.ilog2 x + i + 1)%Z with (Double.ilog2 x + 1 + i)%Z by lia.
    rewrite pow2_plus. apply Qmult_lt_compat_r; [exact P|exact S2].
Qed.

(** A positive double times a power of 2 with an exponent that is not
    negative is the same when rounded: the product is exact. *)
Lemma round_scaled (d : Q) (i : Z) :
  (0 < d)%Q -> (0 <= i)%Z -> Double.representable d ->
  Double.representable (d * 2 ^ i).
Proof.
  intros Hd Hi R. pose proof (pow2_pos i) as P.
  unfold Double.representable, Double.round in *.
  assert (C : Qle_bool 0 d = true) by (apply Qle_bool_iff; lra).
  assert (C' : Qle_bool 0 (d * 2 ^ i) = true) by (apply Qle_bool_iff; nra).
  rewrite C in R. rewrite C'.
  apply (nearest_exact _
           (Double.round_half_even (d * 2 ^ (- Double.exponent d)))
           (Double.exponent d + i)).
  - unfold Double.exponent. rewrite ilog2_scaled by exact Hd. lia.
  - rewrite pow2_plus, Qmult_assoc. unfold Double.nearest in R.
    now rewrite R.
Qed.

Lemma round_pow2 (i : Z) : (0 <= i)%Z -> Double.representable (2 ^ i).
Proof.
  intros Hi.
  assert (E : (2 ^ i == 1 * 2 ^ i)%Q) by ring.
  assert (R : Double.representable (1 * 2 ^ i)).
  { apply round_scaled; [reflexivity|exact Hi|vm_compute; reflexivity]. }
  unfold Double.representable in *.
  rewrite (round_comp _ _ E), R. ring.
Qed.

Lemma of_Q_exact (x : Q) :
  (0 <= x)%Q -> Double.representable x ->
  if Qle_bool (2 ^ 1024) x then Double.of_Q x = Double.inf false
  else exists q, Double.of_Q x = Double.fin q /\ (q == x)%Q.
Proof.
  intros H0 R. unfold Double.representable in R. unfold Double.of_Q.
  cbv zeta.
  assert (A : (Qabs (Double.round x) == x)%Q).
  { rewrite R. apply Qabs_pos. exact H0. }
  destruct (Qle_bool (2 ^ 1024) x) eqn:C.
  - assert (C' : Qle_bool (2 ^ 1024) (Qabs (Double.round x)) = true).
    { apply Qle_bool_iff. apply Qle_bool_iff in C. lra. }
    rewrite C'. apply Qle_bool_iff in H0. now rewrite H0.
  - assert (C' : Qle_bool (2 ^ 1024) (Qabs (Double.round x)) = false).
    { apply not_true_is_false. intros T. apply Qle_bool_iff in T.
      assert (2 ^ 1024 <= x)%Q by lra.
      apply Qle_bool_iff in H. congruence. }
    rewrite C'. eexists. split; [reflexivity|].
    now rewrite Qred_correct.
Qed.

(** The double product of a positive double and 2 ** i, for an integer
    [i] that is not negative: exact below 2 ^ 1024 and below the 1024th
    power, Infinity from there on. *)
Lemma mul_pow2 (d : Q) (i : Z) :
  (0 < d)%Q -> (0 <= i)%Z -> Double.representable d ->
  if (i <? 1024)%Z && negb (Qle_bool (2 ^ 1024) (d * 2 ^ i))
  then exists q,
      Double.mul (Double.fin d) (Double.pow2 i) = Double.fin q
      /\ (q == d * 2 ^ i)%Q
  else Double.mul (Double.fin d) (Double.pow2 i) = Double.inf false.
Proof.
  intros Hd Hi R. pose proof (pow2_pos i) as P.
  assert (D0 : Qeq_bool d 0 = false).
  { apply not_true_is_false. intros T. apply Qeq_bool_iff in T. lra. }
  assert (D1 : Qle_bool 0 d = true) by (apply Qle_bool_iff; lra).
  unfold Double.pow2.
  pose proof (of_Q_exact (2 ^ i) (Qlt_le_weak _ _ P) (round_pow2 i Hi)) as E.
  destruct (i <? 1024)%Z eqn:I; cbn [andb].
  - apply Z.ltb_lt in I.
    assert (C : Qle_bool (2 ^ 1024) (2 ^ i) = false).
    { apply not_true_is_false. intros T. apply Qle_bool_iff in T.
      apply Qle_not_lt in T. apply T.
      apply Qpower_lt_compat_l; [exact I|reflexivity]. }
    rewrite C in E. destruct E as (p & -> & Ep). cbn [Double.mul].
    assert (Ex : (d * p == d * 2 ^ i)%Q) by (now rewrite Ep).
    assert (Rx : Double.representable (d * p)).
    { unfold Double.representable.
      rewrite (round_comp _ _ Ex), Ex. now apply round_scaled. }
    assert (Px : (0 <= d * p)%Q) by (rewrite Ex; nra).
    pose proof (of_Q_exact _ Px Rx) as E.
    destruct (Qle_bool (2 ^ 1024) (d * 2 ^ i)) eqn:C2; cbn [negb].
    + assert (C3 : Qle_bool (2 ^ 1024) (d * p) = true).
      { apply Qle_bool_iff. apply Qle_bool_iff in C2. lra. }
      now rewrite C3 in E.
    + assert (C3 : Qle_bool (2 ^ 1024) (d * p) = false).
      { apply not_true_is_false. intros T. apply Qle_bool_iff in T.
        assert (2 ^ 1024 <= d * 2 ^ i)%Q by lra.
        apply Qle_bool_iff in H. congruence. }
      rewrite C3 in E. destruct E as (q & -> & Eq).
      exists q. split; [reflexivity|lra].
  - apply Z.ltb_ge in I.
    assert (C : Qle_bool (2 ^ 1024) (2 ^ i) = true).
    { apply Qle_bool_iff. now apply pow2_le. }
    rewrite C in E. rewrite E. cbn [Double.mul]. now rewrite D0, D1.
Qed.

(** ** The client *)

Lemma z_optional_inv {T} (s : Schema T) (v : option JSValue) (r : option T) :
  z_optional s v = Some r ->
  (v = None /\ r = None) \/ (exists t, r = Some t /\ s v = Some t).
Proof.
  destruct v as [x|]; simpl.
  - destruct (s (Some x)) as [t|]; [|discriminate].
    intros [= <-]. right. now exists t.
  - intros [= <-]. now left.
Qed.

(** The client the constructor builds retries a whole number of times, at
    least 0 and 3 when the configuration leaves retryAttempts out, and
    waits a positive delay, 1000 when it leaves retryDelay out. *)
Theorem constructor_retry_config (zod_url : jsstring -> bool)
    (config : JSValue) (this : Client.CodegenClient) :
  Client.constructor zod_url config = Client.Returned this ->
  exists (o : list (jsstring * JSValue)) (a d : Q),
    config = JObject o
    /\ Client.attempts (Client.retryConfig this) = Num a
    /\ Number_isInteger (Num a) = true
    /\ (0 <= a)%Q
    /\ (get o (str "retryAttempts") = None -> a = 3%Q)
    /\ Client.delay (Client.retryConfig this) = Num d
    /\ (0 < d)%Q
    /\ (get o (str "retryDelay") = None -> d = 1000%Q).
Proof.
  unfold Client.constructor.
  destruct (CodegenConfigSchema zod_url (Some config)) as [c|] eqn:E;
    [|discriminate].
  intros [= <-]. cbn [Client.retryConfig Client.attempts Client.delay].
  unfold CodegenConfigSchema in E.
  apply z_object_inv in E as (o & [= ->] & E).
  destruct (z_string_min_1 _); [|discriminate E].
  cbn [mbind option_bind] in E.
  destruct (z_string_url _ _); [|discriminate E].
  cbn [mbind option_bind] in E.
  destruct (z_optional z_number_positive (get o (str "timeout")));
    [|discriminate E].
  cbn [mbind option_bind] in E.
  destruct (z_optional z_number_int_nonnegative _) as [ra|] eqn:Ea;
    [|discriminate E].
  cbn [mbind option_bind] in E.
  destruct (z_optional z_number_positive (get o (str "retryDelay")))
    as [rd|] eqn:Ed; [|discriminate E].
  injection E as <-.
  cbn [CodegenConfig.retryAttempts CodegenConfig.retryDelay].
  assert (Ha : exists a, default (Num 3) ra = Num a
                         /\ Number_isInteger (Num a) = true /\ (0 <= a)%Q
                         /\ (get o (str "retryAttempts") = None -> a = 3%Q)).
  { apply z_optional_inv in Ea as [[_ ->]|(n & -> & Ea)].
    - exists 3%Q. repeat split; discriminate.
    - unfold z_number_int_nonnegative, z_number in Ea.
      destruct (get o (str "retryAttempts")) as [[| |[|q]| | | |]|];
        try discriminate Ea.
      cbn [mbind option_bind] in Ea.
      destruct (Number_isInteger (Num q)) eqn:Hi; [|discriminate Ea].
      cbn [negb number_lt] in Ea.
      destruct (Qle_bool 0 q) eqn:Hq; [|discriminate Ea].
      injection Ea as <-. exists q. cbn [default].
      repeat split; auto; [now apply Qle_bool_iff|discriminate]. }
  assert (Hd : exists d, default (Num 1000) rd = Num d /\ (0 < d)%Q
                         /\ (get o (str "retryDelay") = None -> d = 1000%Q)).
  { apply z_optional_inv in Ed as [[_ ->]|(n & -> & Ed)].
    - exists 1000%Q. repeat split.
    - unfold z_number_positive, z_number in Ed.
      destruct (get o (str "retryDelay")) as [[| |[|q]| | | |]|];
        try discriminate Ed.
      cbn [mbind option_bind number_le] in Ed.
      destruct (Qle_bool q 0) eqn:Hq; [discriminate Ed|].
      injection Ed as <-. exists q. cbn [default].
      repeat split; [|discriminate].
      apply Qnot_le_lt. intros H. apply Qle_bool_iff in H. congruence. }
  destruct Ha as (a & Ha1 & Ha2 & Ha3 & Ha4).
  destruct Hd as (d & Hd1 & Hd2 & Hd3).
  exists o, a, d. repeat split; assumption.
Qed.

Section RetryProperties.

Context {A : Type}.
Variable this : Client.CodegenClient.
Variable requestFn : nat -> Client.Outcome A.

(** What a run of retryRequest that ends has done. *)
Lemma retryRequest_spec (fuel : nat) :
  forall (made : nat) (attempt : Z) (r : Client.Attempted A),
    Client.retryRequest fuel this requestFn made attempt = Some r ->
    (made < Client.calls r)%nat
    /\ Client.outcome r = requestFn (Client.calls r - 1)%nat
    /\ (forall k,
          (made <= k < Client.calls r - 1)%nat ->
          exists e,
            requestFn k = Client.Threw e
            /\ Client.client_error e = false
            /\ number_ge (Num (inject_Z (attempt + Z.of_nat (k - made))))
                 (Client.attempts (Client.retryConfig this)) = false)
    /\ Client.waits r
       = List.map
           (fun i =>
              Double.mul
                (Double.of_number (Client.delay (Client.retryConfig this)))
                (Double.pow2 (attempt - 1 + Z.of_nat i)))
           (seq 0 (Client.calls r - S made))
    /\ (forall e,
          Client.outcome r = Client.Threw e ->
          Client.client_error e = true
          \/ number_ge
               (Num (inject_Z (attempt + Z.of_nat (Client.calls r - S made))))
               (Client.attempts (Client.retryConfig this)) = true).
Proof.
  induction fuel as [|fuel IH]; intros made attempt r; [discriminate|].
  cbn [Client.retryRequest].
  destruct (requestFn made) as [a|error] eqn:F.
  { intros [= <-]. cbn [Client.calls Client.outcome Client.waits].
    replace (S made - 1)%nat with made by lia.
    replace (S made - S made)%nat with 0%nat by lia.
    repeat split; [lia|now rewrite F|intros k Hk; lia|discriminate]. }
  destruct (number_ge (Num (inject_Z attempt)) _) eqn:G.
  { intros [= <-]. cbn [Client.calls Client.outcome Client.waits].
    replace (S made - 1)%nat with made by lia.
    replace (S made - S made)%nat with 0%nat by lia.
    repeat split; [lia|now rewrite F|intros k Hk; lia|].
    intros e _. right. now rewrite Z.add_0_r. }
  destruct (Client.client_error error) eqn:C.
  { intros [= <-]. cbn [Client.calls Client.outcome Client.waits].
    replace (S made - 1)%nat with made by lia.
    replace (S made - S made)%nat with 0%nat by lia.
    repeat split; [lia|now rewrite F|intros k Hk; lia|].
    intros e [= <-]. now left. }
  destruct (Client.retryRequest fuel this requestFn (S made) (attempt + 1))
    as [r'|] eqn:R; [|discriminate].
  cbn [mbind option_bind]. intros [= <-].
  cbn [Client.calls Client.outcome Client.waits].
  destruct (IH _ _ _ R) as (H1 & H2 & H3 & H4 & H5).
  repeat split.
  - lia.
  - exact H2.
  - intros k Hk. destruct (Nat.eq_dec k made) as [->|Hne].
    + exists error. rewrite Nat.sub_diag, Z.add_0_r. auto.
    + destruct (H3 k) as (e & E1 & E2 & E3); [lia|].
      exists e. repeat split; auto.
      replace (attempt + Z.of_nat (k - made))%Z
        with (attempt + 1 + Z.of_nat (k - S made))%Z by lia.
      exact E3.
  - rewrite H4.
    replace (Client.calls r' - S made)%nat
      with (S (Client.calls r' - S (S made)))%nat by lia.
    cbn [seq List.map]. rewrite Z.add_0_r. f_equal.
    rewrite <- seq_shift, List.map_map. apply List.map_ext.
    intros i. do 2 f_equal. lia.
  - intros e He. destruct (H5 e He) as [Hc|Hn]; [now left|right].
    replace (attempt + Z.of_nat (Client.calls r' - S made))%Z
      with (attempt + 1 + Z.of_nat (Client.calls r' - S (S made)))%Z by lia.
    exact Hn.
Qed.




(** What retryRequest returns or throws is what the last call of the
    request function did.  Every call before it threw an error that is not
    a client error, at an attempt below the number of attempts; and an
    error is thrown to the caller only if it is a client error or the
    attempts are used up. *)
Theorem retryRequest_returns_the_last_call (fuel : nat)
    (r : Client.Attempted A) :
  Client.retryRequest fuel this requestFn 0 1 = Some r ->
  Client.outcome r = requestFn (Client.calls r - 1)%nat
  /\ (forall k,
        (k < Client.calls r - 1)%nat ->
        exists e,
          requestFn k = Client.Threw e
          /\ Client.client_error e = false
          /\ number_ge (Num (inject_Z (Z.of_nat k + 1)))
               (Client.attempts (Client.retryConfig this)) = false)
  /\ (forall e,
        Client.outcome r = Client.Threw e ->
        Client.client_error e = true
        \/ number_ge (Num (inject_Z (Z.of_nat (Client.calls r))))
             (Client.attempts (Client.retryConfig this)) = true).
Proof.
  intros H. apply retryRequest_spec in H as (H1 & H2 & H3 & _ & H5).
  split; [exact H2|]. split.
  - intros k Hk. destruct (H3 k) as (e & E1 & E2 & E3); [lia|].
    exists e. repeat split; auto.
    replace (Z.of_nat k + 1)%Z with (1 + Z.of_nat (k - 0))%Z by lia.
    exact E3.
  - intros e He. destruct (H5 e He) as [Hc|Hn]; [now left|right].
    replace (Z.of_nat (Client.calls r))
      with (1 + Z.of_nat (Client.calls r - 1))%Z by lia.
    exact Hn.
Qed.

(** Between two calls retryRequest calls setTimeout, before the call
    number i + 2 with the double product of the configured delay and
    2 ** i.  For a delay that is a positive double the product is exact
    while i is below 1024 and the product below 2 ^ 1024, and is Infinity
    from there on.  A timer of Node is then set to the product truncated to
    an integer when the product is between 1 and 2 ^ 31 - 1, and to 1 ms
    otherwise: the waits double only up to 2 ^ 31 - 1 ms. *)
Theorem retryRequest_backs_off (fuel : nat) (r : Client.Attempted A) :
  Client.retryRequest fuel this requestFn 0 1 = Some r ->
  Client.waits r
  = List.map
      (fun i =>
         Double.mul (Double.of_number (Client.delay (Client.retryConfig this)))
           (Double.pow2 (Z.of_nat i)))
      (seq 0 (Client.calls r - 1))
  /\ (forall (i : nat) (d : Q),
        (i < Client.calls r - 1)%nat ->
        Client.delay (Client.retryConfig this) = Num d ->
        Double.representable d ->
        (0 < d)%Q ->
        (if (i <? 1024)%nat && negb (Qle_bool (2 ^ 1024) (d * 2 ^ Z.of_nat i))
         then exists q,
             nth i (Client.waits r) Double.nan = Double.fin q
             /\ (q == d * 2 ^ Z.of_nat i)%Q
         else nth i (Client.waits r) Double.nan = Double.inf false)
        /\ Node_timeout (nth i (Client.waits r) Double.nan)
           = if (i <? 1024)%nat
                && Qle_bool 1 (d * 2 ^ Z.of_nat i)
                && Qle_bool (d * 2 ^ Z.of_nat i) 2147483647
             then Qfloor (d * 2 ^ Z.of_nat i)
             else 1%Z).
Proof.
  intros H. apply retryRequest_spec in H as (_ & _ & _ & H4 & _).
  assert (W : Client.waits r
              = List.map
                  (fun i =>
                     Double.mul
                       (Double.of_number
                          (Client.delay (Client.retryConfig this)))
                       (Double.pow2 (Z.of_nat i)))
                  (seq 0 (Client.calls r - 1))).
  { rewrite H4. apply List.map_ext. intros i. reflexivity. }
  split; [exact W|].
  intros i d Hi Hd R D. rewrite W.
  rewrite (nth_indep _ Double.nan
             (Double.mul
                (Double.of_number (Client.delay (Client.retryConfig this)))
                (Double.pow2 (Z.of_nat 0))))
    by (now rewrite List.length_map, List.length_seq).
  rewrite (List.map_nth
             (fun i =>
                Double.mul
                  (Double.of_number (Client.delay (Client.retryConfig this)))
                  (Double.pow2 (Z.of_nat i)))).
  rewrite List.seq_nth by exact Hi. cbn [Nat.add].
  rewrite Hd. cbn [Double.of_number].
  pose proof (mul_pow2 d (Z.of_nat i) D (Nat2Z.is_nonneg i) R) as M.
  replace (Z.of_nat i <? 1024)%Z with (i <? 1024)%nat in M.
  2:{ destruct (Nat.ltb_spec i 1024); destruct (Z.ltb_spec (Z.of_nat i) 1024);
        try reflexivity; lia. }
  split; [exact M|].
  destruct (i <? 1024)%nat; cbn [andb] in *; [|now rewrite M].
  destruct (Qle_bool (2 ^ 1024) (d * 2 ^ Z.of_nat i)) eqn:C; cbn [negb] in M.
  - rewrite M. cbn [Node_timeout]. apply Qle_bool_iff in C.
    destruct (Qle_bool (d * 2 ^ Z.of_nat i) 2147483647) eqn:C2;
      [|now rewrite andb_false_r].
    apply Qle_bool_iff in C2. exfalso.
    assert (2147483647 < 2 ^ 1024)%Q by reflexivity. lra.
  - destruct M as (q & -> & E). cbn [Node_timeout].
    rewrite (Qle_bool_wd _ _ _ _ (Qeq_refl 1) E).
    rewrite (Qle_bool_wd _ _ _ _ E (Qeq_refl 2147483647)).
    now rewrite (Qfloor_comp _ _ E).
Qed.

End RetryProperties.

Section MethodProperties.

Variable rt : Runtime.
Variable Number_toString : number -> jsstring.
Variable Date_toString : Date -> jsstring.
Variable respond : Client.Request -> nat -> Client.AxiosError + JSValue.
Variable this : Client.CodegenClient.

(** The errors of axios that retryRequest does not retry: a response
    whose status is not 0 and is below 500, when handleAxiosError returns. *)
Lemma client_error_handleAxiosError (error : Client.AxiosError)
    (e : Client.CodegenApiError) :
  Client.handleAxiosError Number_toString Date_toString error = Some e ->
  Client.client_error (Client.ApiError e)
  = match Client.response error with
    | Some r => negb (Client.status r =? 0)%Z && (Client.status r <? 500)%Z
    | None => false
    end.
Proof.
  unfold Client.handleAxiosError.
  destruct (Client.response error) as [r|].
  - destruct (Client.optional_toString _ _
                (Client.property (Client.data r) (str "message")));
      cbn [mbind option_bind]; [|discriminate].
    destruct (Client.optional_toString _ _
                (Client.property (Client.data r) (str "code")));
      cbn [mbind option_bind]; [|discriminate].
    intros [= <-]. reflexivity.
  - destruct (Client.request error); intros [= <-]; reflexivity.
Qed.

(** handleAxiosError throws exactly when the server answered and the
    message or the code of the data of the response has a toString that
    throws. *)
Lemma handleAxiosError_throws (error : Client.AxiosError) :
  Client.handleAxiosError Number_toString Date_toString error = None
  <-> exists response,
        Client.response error = Some response
        /\ (Client.optional_toString Number_toString Date_toString
              (Client.property (Client.data response) (str "message"))
            = None
            \/ Client.optional_toString Number_toString Date_toString
                 (Client.property (Client.data response) (str "code"))
               = None).
Proof.
  unfold Client.handleAxiosError.
  destruct (Client.response error) as [r|].
  - destruct (Client.optional_toString _ _
                (Client.property (Client.data r) (str "message")))
      as [m|] eqn:M; cbn [mbind option_bind].
    + destruct (Client.optional_toString _ _
                  (Client.property (Client.data r) (str "code")))
        as [c|] eqn:C; cbn [mbind option_bind].
      * split; [discriminate|].
        intros (r' & [= <-] & [H|H]); congruence.
      * split; [|reflexivity]. intros _. exists r. auto.
    + split; [|reflexivity]. intros _. exists r. auto.
  - split.
    + destruct (Client.request error); discriminate.
    + intros (r' & [=] & _).
Qed.

Lemma retryRequest_calls {A} (requestFn : nat -> Client.Outcome A)
    (fuel made : nat) (attempt : Z) (r : Client.Attempted A) :
  Client.retryRequest fuel this requestFn made attempt = Some r ->
  (made < Client.calls r)%nat.
Proof. intros H. now apply retryRequest_spec in H. Qed.

(** When more than one attempt is configured and the first request fails
    in axios, the request is sent exactly once if and only if the server
    answered with a status below 500 that is not 0 and handleAxiosError
    returns: the CodegenApiError it returns is then thrown at once.  A
    missing answer, a status 0 or from 500 on, and an answer for which
    handleAxiosError throws (the message or the code of its data has a
    toString that is not a function) are retried. *)
Theorem only_client_errors_are_not_retried {T} (req : Client.Request)
    (responseSchema : Schema T) (error : Client.AxiosError) (a : Q)
    (fuel : nat) (r : Client.Attempted T) :
  respond req 0%nat = inl error ->
  Client.attempts (Client.retryConfig this) = Num a ->
  (1 < a)%Q ->
  Client.retryRequest fuel this
    (Client.send Number_toString Date_toString respond req responseSchema)
    0 1 = Some r ->
  (Client.calls r = 1%nat
   <-> exists response e,
         Client.response error = Some response
         /\ Client.status response <> 0%Z
         /\ (Client.status response < 500)%Z
         /\ Client.handleAxiosError Number_toString Date_toString error
            = Some e)
  /\ (Client.calls r = 1%nat ->
      exists e,
        Client.handleAxiosError Number_toString Date_toString error = Some e
        /\ r = Client.mkAttempted 1 [] (Client.Threw (Client.ApiError e)))
  /\ (Client.handleAxiosError Number_toString Date_toString error = None
      <-> exists response,
            Client.response error = Some response
            /\ (Client.optional_toString Number_toString Date_toString
                  (Client.property (Client.data response) (str "message"))
                = None
                \/ Client.optional_toString Number_toString Date_toString
                     (Client.property (Client.data response) (str "code"))
                   = None)).
Proof.
  intros Hr Ha H1 H. split; [|split; [|apply handleAxiosError_throws]];
    (destruct fuel as [|fuel]; [discriminate H|]);
    cbn [Client.retryRequest] in H; unfold Client.send at 1 in H;
    rewrite Hr, Ha in H; cbn [number_ge number_le] in H;
    (assert (G : Qle_bool a (inject_Z 1) = false);
     [destruct (Qle_bool a (inject_Z 1)) eqn:G; [|reflexivity];
      apply Qle_bool_iff in G; apply Qle_not_lt in G; now destruct G|]);
    rewrite G in H;
    (destruct (Client.handleAxiosError Number_toString Date_toString error)
       as [e|] eqn:E;
     [rewrite (client_error_handleAxiosError error e E) in H|
      cbn [Client.client_error] in H]).
  - destruct (Client.response error) as [response|].
    + destruct (negb (Client.status response =? 0)%Z
                && (Client.status response <? 500)%Z) eqn:C.
      * injection H as <-. cbn [Client.calls].
        apply andb_prop in C as [C1 C2].
        apply negb_true_iff, Z.eqb_neq in C1. apply Z.ltb_lt in C2.
        split; [|reflexivity]. intros _. now exists response, e.
      * destruct (Client.retryRequest fuel this _ 1 (1 + 1)) as [r'|] eqn:R;
          [|discriminate H].
        injection H as <-. cbn [Client.calls].
        apply retryRequest_calls in R. split; [intros F; lia|].
        intros (response' & e' & [= <-] & C1 & C2 & _).
        apply Z.eqb_neq in C1. apply Z.ltb_lt in C2.
        rewrite C1, C2 in C. discriminate C.
    + destruct (Client.retryRequest fuel this _ 1 (1 + 1)) as [r'|] eqn:R;
        [|discriminate H].
      injection H as <-. cbn [Client.calls].
      apply retryRequest_calls in R. split; [intros F; lia|].
      intros (response' & e' & [=] & _).
  - destruct (Client.retryRequest fuel this _ 1 (1 + 1)) as [r'|] eqn:R;
      [|discriminate H].
    injection H as <-. cbn [Client.calls].
    apply retryRequest_calls in R. split; [intros F; lia|].
    intros (response' & e' & _ & _ & _ & [=]).
  - destruct (match Client.response error with
              | Some r0 =>
                  negb (Client.status r0 =? 0)%Z && (Client.status r0 <? 500)%Z
              | None => false
              end).
    + injection H as <-. intros _. now exists e.
    + destruct (Client.retryRequest fuel this _ 1 (1 + 1)) as [r'|] eqn:R;
        [|discriminate H].
      injection H as <-. cbn [Client.calls].
      apply retryRequest_calls in R. intros F; lia.
  - destruct (Client.retryRequest fuel this _ 1 (1 + 1)) as [r'|] eqn:R;
      [|discriminate H].
    injection H as <-. cbn [Client.calls].
    apply retryRequest_calls in R. intros F; lia.
Qed.

Lemma blank_session_id (sessionId : jsstring) :
  falsy (Some sessionId) || (List.length (trim sessionId) =? 0)%nat
  = forallb is_white_space sessionId.
Proof.
  rewrite trim_blank_iff. now destruct sessionId.
Qed.

(** getSession, cancelSession and deleteSession send nothing and throw
    INVALID_SESSION_ID when the session id is empty or made of white space
    only; with any other id they send at least one request. *)
Theorem session_id_is_required (fuel : nat) (sessionId : jsstring) :
  (forallb is_white_space sessionId = true ->
   Client.getSession rt Number_toString Date_toString respond fuel this sessionId
   = Some Client.session_id_required
   /\ Client.cancelSession rt Number_toString Date_toString respond fuel this sessionId
      = Some Client.session_id_required
   /\ Client.deleteSession rt Number_toString Date_toString respond fuel this sessionId
      = Some Client.session_id_required)
  /\ (forallb is_white_space sessionId = false ->
      (forall r,
          Client.getSession rt Number_toString Date_toString respond fuel this sessionId = Some r ->
          (1 <= Client.calls r)%nat)
      /\ (forall r,
             Client.cancelSession rt Number_toString Date_toString respond fuel this sessionId
             = Some r ->
             (1 <= Client.calls r)%nat)
      /\ (forall r,
             Client.deleteSession rt Number_toString Date_toString respond fuel this sessionId
             = Some r ->
             (1 <= Client.calls r)%nat)).
Proof.
  unfold Client.getSession, Client.cancelSession, Client.deleteSession.
  rewrite blank_session_id. split; intros ->.
  - auto.
  - repeat split; intros r H; apply retryRequest_calls in H; lia.
Qed.

(** listSessions sends nothing exactly when the page is below 1 or the
    page size is below 1 or above 100, and then throws INVALID_PAGE if the
    page is below 1 and INVALID_PAGE_SIZE otherwise.  A page or a page size
    that is NaN or not an integer passes the checks, and so do the
    defaults 1 and 20 of arguments left out. *)
Theorem listSessions_checks_the_page_first (fuel : nat)
    (page pageSize : option number)
    (r : Client.Attempted (ApiResponse.t (PaginatedResponse.t SessionInfo.t))) :
  Client.listSessions rt Number_toString Date_toString respond fuel this page pageSize = Some r ->
  (Client.calls r = 0%nat
   <-> number_lt (default (Num 1) page) (Num 1)
       || number_lt (default (Num 20) pageSize) (Num 1)
       || number_gt (default (Num 20) pageSize) (Num 100) = true)
  /\ (Client.calls r = 0%nat ->
      exists e,
        Client.outcome r = Client.Threw (Client.ApiError e)
        /\ Client.statusCode e = None
        /\ Client.code e
           = if number_lt (default (Num 1) page) (Num 1)
             then str "INVALID_PAGE"
             else str "INVALID_PAGE_SIZE").
Proof.
  unfold Client.listSessions.
  destruct (number_lt (default (Num 1) page) (Num 1)).
  { intros [= <-]. cbn [Client.calls orb]. repeat split.
    intros _. eexists. repeat split. }
  destruct (number_lt (default (Num 20) pageSize) (Num 1)
            || number_gt (default (Num 20) pageSize) (Num 100)) eqn:E.
  { intros [= <-]. cbn [Client.calls orb]. rewrite E. repeat split.
    intros _. eexists. repeat split. }
  intros H. apply retryRequest_calls in H. cbn [orb]. rewrite E.
  split; [split|]; intros; [lia|discriminate|lia].
Qed.

Lemma send_date_free {T} (req : Client.Request) (dataSchema : Schema T)
    (k : nat) :
  (forall x, respond req k = inr x -> date_free x = true) ->
  exists e,
    Client.send Number_toString Date_toString respond req
      (ApiResponseSchema rt dataSchema) k
    = Client.Threw e
    /\ (forall x, respond req k = inr x -> e = Client.ValidationError).
Proof.
  intros H. unfold Client.send.
  destruct (respond req k) as [error|x].
  - destruct (Client.handleAxiosError _ _ error);
      eexists; (split; [reflexivity|discriminate]).
  - rewrite (ApiResponseSchema_date_free rt dataSchema x (H x eq_refl)).
    eexists. split; reflexivity.
Qed.

Lemma retryRequest_date_free {T} (req : Client.Request)
    (dataSchema : Schema T) (fuel : nat)
    (r : Client.Attempted (ApiResponse.t T)) :
  (forall k x, respond req k = inr x -> date_free x = true) ->
  Client.retryRequest fuel this
    (Client.send Number_toString Date_toString respond req
       (ApiResponseSchema rt dataSchema)) 0 1
  = Some r ->
  exists e, Client.outcome r = Client.Threw e.
Proof.
  intros H R. apply retryRequest_spec in R as (_ & -> & _).
  destruct (send_date_free req dataSchema (Client.calls r - 1) (H _))
    as (e & -> & _).
  now exists e.
Qed.

(** No method of the client returns when the data of the responses hold
    no Date object, as the data of a JSON response do: whatever the server
    answers, the method throws, since the schema of the response requires
    its timestamp to be a Date object. *)
Theorem json_responses_never_validate (fuel : nat) :
  (forall req k x, respond req k = inr x -> date_free x = true) ->
  (forall request r,
      Client.invokeAgent rt Number_toString Date_toString respond fuel this request = Some r ->
      exists e, Client.outcome r = Client.Threw e)
  /\ (forall sessionId r,
         Client.getSession rt Number_toString Date_toString respond fuel this sessionId = Some r ->
         exists e, Client.outcome r = Client.Threw e)
  /\ (forall page pageSize r,
         Client.listSessions rt Number_toString Date_toString respond fuel this page pageSize
         = Some r ->
         exists e, Client.outcome r = Client.Threw e)
  /\ (forall sessionId r,
         Client.cancelSession rt Number_toString Date_toString respond fuel this sessionId
         = Some r ->
         exists e, Client.outcome r = Client.Threw e)
  /\ (forall sessionId r,
         Client.deleteSession rt Number_toString Date_toString respond fuel this sessionId
         = Some r ->
         exists e, Client.outcome r = Client.Threw e).
Proof.
  intros H. repeat split.
  - intros request r. unfold Client.invokeAgent.
    destruct (AgentInvocationRequestSchema (Some request)).
    + apply retryRequest_date_free. intros k. apply H.
    + intros [= <-]. now eexists.
  - intros sessionId r. unfold Client.getSession.
    destruct (falsy _ || _).
    + intros [= <-]. now eexists.
    + apply retryRequest_date_free. intros k. apply H.
  - intros page pageSize r. unfold Client.listSessions.
    destruct (number_lt _ _); [intros [= <-]; now eexists|].
    destruct (number_lt _ _ || _); [intros [= <-]; now eexists|].
    apply retryRequest_date_free. intros k. apply H.
  - intros sessionId r. unfold Client.cancelSession.
    destruct (falsy _ || _).
    + intros [= <-]. now eexists.
    + apply retryRequest_date_free. intros k. apply H.
  - intros sessionId r. unfold Client.deleteSession.
    destruct (falsy _ || _).
    + intros [= <-]. now eexists.
    + apply retryRequest_date_free. intros k. apply H.
Qed.


End MethodProperties.

(** The constructor on a configuration that gives only the key and the
    URL. *)
Lemma constructor_defaults :
  exists (o : list (jsstring * JSValue)) (a d : Q),
    minimal_config = JObject o
    /\ Client.attempts (Client.retryConfig default_client) = Num a
    /\ Number_isInteger (Num a) = true
    /\ (0 <= a)%Q
    /\ (get o (str "retryAttempts") = None -> a = 3%Q)
    /\ Client.delay (Client.retryConfig default_client) = Num d
    /\ (0 < d)%Q
    /\ (get o (str "retryDelay") = None -> d = 1000%Q).
Proof.
  apply (constructor_retry_config http_url minimal_config default_client).
  reflexivity.
Defined.


Lemma third_call_is_returned :
  Client.outcome (Client.mkAttempted 3 [Double.fin 1000; Double.fin 2000]
                    (Client.Returned 2%nat))
  = third_time_lucky (3 - 1)%nat
  /\ (forall k,
        (k < 3 - 1)%nat ->
        exists e,
          third_time_lucky k = Client.Threw e
          /\ Client.client_error e = false
          /\ number_ge (Num (inject_Z (Z.of_nat k + 1)))
               (Client.attempts (Client.retryConfig default_client)) = false)
  /\ (forall e,
        Client.outcome (Client.mkAttempted 3 [Double.fin 1000; Double.fin 2000]
                          (Client.Returned 2%nat))
        = Client.Threw e ->
        Client.client_error e = true
        \/ number_ge (Num (inject_Z (Z.of_nat 3)))
             (Client.attempts (Client.retryConfig default_client)) = true).
Proof.
  apply (retryRequest_returns_the_last_call default_client third_time_lucky
           4%nat
           (Client.mkAttempted 3 [Double.fin 1000; Double.fin 2000] (Client.Returned 2%nat))).
  reflexivity.
Defined.

Lemma waits_1000_then_2000 :
  [Double.fin 1000; Double.fin 2000]
  = List.map
      (fun i =>
         Double.mul
           (Double.of_number (Client.delay (Client.retryConfig default_client)))
           (Double.pow2 (Z.of_nat i)))
      (seq 0 (3 - 1))
  /\ (forall (i : nat) (d : Q),
        (i < 3 - 1)%nat ->
        Client.delay (Client.retryConfig default_client) = Num d ->
        Double.representable d ->
        (0 < d)%Q ->
        (if (i <? 1024)%nat && negb (Qle_bool (2 ^ 1024) (d * 2 ^ Z.of_nat i))
         then exists q,
             nth i [Double.fin 1000; Double.fin 2000] Double.nan
             = Double.fin q
             /\ (q == d * 2 ^ Z.of_nat i)%Q
         else nth i [Double.fin 1000; Double.fin 2000] Double.nan
              = Double.inf false)
        /\ Node_timeout (nth i [Double.fin 1000; Double.fin 2000] Double.nan)
           = if (i <? 1024)%nat
                && Qle_bool 1 (d * 2 ^ Z.of_nat i)
                && Qle_bool (d * 2 ^ Z.of_nat i) 2147483647
             then Qfloor (d * 2 ^ Z.of_nat i)
             else 1%Z).
Proof.
  apply (retryRequest_backs_off default_client third_time_lucky 4%nat
           (Client.mkAttempted 3 [Double.fin 1000; Double.fin 2000]
              (Client.Returned 2%nat))).
  vm_compute. reflexivity.
Defined.

Lemma only_client_errors_404 :
  (Client.calls
     (Client.mkAttempted 1 [] (Client.Threw (Client.ApiError not_found_error))
      : Client.Attempted (ApiResponse.t SessionInfo.t))
   = 1%nat
   <-> exists response e,
         Client.response not_found = Some response
         /\ Client.status response <> 0%Z
         /\ (Client.status response < 500)%Z
         /\ Client.handleAxiosError integer_toString time_toString not_found
            = Some e)
  /\ (Client.calls
        (Client.mkAttempted 1 []
           (Client.Threw (Client.ApiError not_found_error))
         : Client.Attempted (ApiResponse.t SessionInfo.t))
      = 1%nat ->
      exists e,
        Client.handleAxiosError integer_toString time_toString not_found
        = Some e
        /\ (Client.mkAttempted 1 []
              (Client.Threw (Client.ApiError not_found_error))
            : Client.Attempted (ApiResponse.t SessionInfo.t))
           = Client.mkAttempted 1 [] (Client.Threw (Client.ApiError e)))
  /\ (Client.handleAxiosError integer_toString time_toString not_found = None
      <-> exists response,
            Client.response not_found = Some response
            /\ (Client.optional_toString integer_toString time_toString
                  (Client.property (Client.data response) (str "message"))
                = None
                \/ Client.optional_toString integer_toString time_toString
                     (Client.property (Client.data response) (str "code"))
                   = None)).
Proof.
  apply (only_client_errors_are_not_retried integer_toString time_toString
           (answers_status 404) default_client
           (Client.mkRequest Client.GET (str "/sessions/s1") Client.NoPayload)
           (ApiResponseSchema Reference.runtime
              (SessionInfoSchema Reference.runtime))
           not_found 3 4%nat).
  - reflexivity.
  - reflexivity.
  - reflexivity.
  - reflexivity.
Defined.

(** A 404 whose message has a toString that is not a function: the
    TypeError of handleAxiosError is retried, and getSession sends the
    request three times. *)
Lemma odd_message_is_retried :
  Client.getSession Reference.runtime integer_toString time_toString
    answers_odd_message 4 default_client (str "s1")
  = Some (Client.mkAttempted 3 [Double.fin 1000; Double.fin 2000]
            (Client.Threw Client.TypeError)).
Proof. vm_compute. reflexivity. Qed.

Lemma listSessions_page_0 :
  (Client.calls
     (Client.mkAttempted 0 []
        (Client.Threw
           (Client.ApiError
              (Client.mkCodegenApiError (str "Page must be >= 1")
                 (str "INVALID_PAGE") None None)))
      : Client.Attempted (ApiResponse.t (PaginatedResponse.t SessionInfo.t)))
   = 0%nat
   <-> number_lt (default (Num 1) (Some (Num 0))) (Num 1)
       || number_lt (default (Num 20) (Some (Num 0))) (Num 1)
       || number_gt (default (Num 20) (Some (Num 0))) (Num 100) = true)
  /\ (Client.calls
        (Client.mkAttempted 0 []
           (Client.Threw
              (Client.ApiError
                 (Client.mkCodegenApiError (str "Page must be >= 1")
                    (str "INVALID_PAGE") None None)))
         : Client.Attempted
             (ApiResponse.t (PaginatedResponse.t SessionInfo.t)))
      = 0%nat ->
      exists e,
        Client.outcome
          (Client.mkAttempted 0 []
             (Client.Threw
                (Client.ApiError
                   (Client.mkCodegenApiError (str "Page must be >= 1")
                      (str "INVALID_PAGE") None None)))
           : Client.Attempted
               (ApiResponse.t (PaginatedResponse.t SessionInfo.t)))
        = Client.Threw (Client.ApiError e)
        /\ Client.statusCode e = None
        /\ Client.code e
           = if number_lt (default (Num 1) (Some (Num 0))) (Num 1)
             then str "INVALID_PAGE"
             else str "INVALID_PAGE_SIZE").
Proof.
  apply (listSessions_checks_the_page_first Reference.runtime integer_toString time_toString
           answers_json default_client 4%nat (Some (Num 0)) (Some (Num 0))).
  reflexivity.
Defined.

Lemma json_answers_never_validate :
  (forall request r,
      Client.invokeAgent Reference.runtime integer_toString time_toString answers_json 4
        default_client request = Some r ->
      exists e, Client.outcome r = Client.Threw e)
  /\ (forall sessionId r,
         Client.getSession Reference.runtime integer_toString time_toString answers_json 4
           default_client sessionId = Some r ->
         exists e, Client.outcome r = Client.Threw e)
  /\ (forall page pageSize r,
         Client.listSessions Reference.runtime integer_toString time_toString answers_json 4
           default_client page pageSize = Some r ->
         exists e, Client.outcome r = Client.Threw e)
  /\ (forall sessionId r,
         Client.cancelSession Reference.runtime integer_toString time_toString answers_json 4
           default_client sessionId = Some r ->
         exists e, Client.outcome r = Client.Threw e)
  /\ (forall sessionId r,
         Client.deleteSession Reference.runtime integer_toString time_toString answers_json 4
           default_client sessionId = Some r ->
         exists e, Client.outcome r = Client.Threw e).
Proof.
  apply (json_responses_never_validate Reference.runtime integer_toString time_toString
           answers_json default_client 4%nat).
  intros req k x [= <-]. reflexivity.
Defined.


(** A delay of 3e9 ms is above the maximum of a timer, which Node then
    sets to 1 ms; a delay of 2000 ms is kept. *)
Lemma Node_timeout_above_maximum :
  Node_timeout (Double.mul (Double.fin 3000000000) (Double.pow2 0)) = 1%Z
  /\ Node_timeout (Double.mul (Double.fin 1000) (Double.pow2 1)) = 2000%Z.
Proof. split; vm_compute; reflexivity. Qed.

(** ** The utilities *)

(** Every status is either terminal or active, and none is both. *)
Theorem status_is_terminal_or_active (status : AgentStatus) :
  isActiveStatus status = negb (isTerminalStatus status).
Proof. destruct status; reflexivity. Qed.

Lemma round_nonneg (x : Q) : (0 <= x)%Q -> (0 <= Double.round x)%Q.
Proof.
  intros H. apply round_monotone in H.
  assert (Double.round 0 == 0)%Q by reflexivity. lra.
Qed.

(** What an exact result that is not negative is rounded to. *)
Lemma of_Q_nonneg (x : Q) :
  (0 <= x)%Q ->
  (Double.of_Q x = Double.inf false
   /\ (2 ^ 1024 <= Double.round x)%Q)
  \/ exists q,
       Double.of_Q x = Double.fin q
       /\ (q == Double.round x)%Q /\ (q < 2 ^ 1024)%Q.
Proof.
  intros H. pose proof (round_nonneg x H) as R.
  assert (A : (Qabs (Double.round x) == Double.round x)%Q)
    by (now apply Qabs_pos).
  unfold Double.of_Q. cbv zeta.
  destruct (Qle_bool (2 ^ 1024) (Qabs (Double.round x))) eqn:C.
  - left. apply Qle_bool_iff in C. apply Qle_bool_iff in H. rewrite H.
    split; [reflexivity|lra].
  - right. eexists. split; [reflexivity|]. rewrite Qred_correct.
    split; [reflexivity|]. apply Qnot_le_lt. intros L.
    assert (T : (2 ^ 1024 <= Qabs (Double.round x))%Q) by lra.
    apply Qle_bool_iff in T. congruence.
Qed.

Lemma of_Q_monotone (x y : Q) :
  (0 <= x)%Q -> (x <= y)%Q ->
  Double.le (Double.of_Q x) (Double.of_Q y) = true.
Proof.
  intros H0 H. pose proof (round_monotone _ _ H) as R.
  destruct (of_Q_nonneg x H0) as [[-> X]|(p & -> & Ep & Xp)];
    (destruct (of_Q_nonneg y) as [[-> Y]|(q & -> & Eq & Yq)]; [lra|..]);
    try reflexivity.
  - exfalso. lra.
  - cbn [Double.le]. apply Qle_bool_iff. lra.
Qed.

(** The delay before the cap, for a positive base delay: Infinity or a
    number that is not negative, and not smaller for a later attempt. *)
Lemma backoff_monotone (b : Q) (k k' : Z) :
  (0 < b)%Q -> (k <= k')%Z ->
  (Double.mul (Double.fin b) (Double.pow2 k) = Double.inf false
   \/ exists q, Double.mul (Double.fin b) (Double.pow2 k) = Double.fin q)
  /\ Double.le (Double.mul (Double.fin b) (Double.pow2 k))
       (Double.mul (Double.fin b) (Double.pow2 k')) = true.
Proof.
  intros Hb Hk.
  assert (B0 : Qeq_bool b 0 = false).
  { apply not_true_is_false. intros T. apply Qeq_bool_iff in T. lra. }
  assert (B1 : Qle_bool 0 b = true) by (apply Qle_bool_iff; lra).
  pose proof (pow2_pos k) as P. pose proof (pow2_pos k') as P'.
  pose proof (pow2_le k k' Hk) as L.
  pose proof (round_monotone _ _ L) as RL.
  pose proof (round_nonneg (2 ^ k) (Qlt_le_weak _ _ P)) as R0.
  unfold Double.pow2.
  destruct (of_Q_nonneg (2 ^ k)) as [[-> X]|(p & -> & Ep & Xp)]; [lra|..];
    (destruct (of_Q_nonneg (2 ^ k')) as [[-> Y]|(q & -> & Eq & Yq)];
     [lra|..]); cbn [Double.mul]; rewrite ?B0, ?B1; cbn [xorb negb].
  - split; [now left|reflexivity].
  - exfalso. lra.
  - assert (0 <= b * p)%Q by nra.
    split.
    + destruct (of_Q_nonneg (b * p)) as [[-> _]|(r & -> & _)];
        [assumption|now left|right; now exists r].
    + destruct (of_Q_nonneg (b * p)) as [[-> _]|(r & -> & _)];
        [assumption|reflexivity|reflexivity].
  - assert (0 <= b * p)%Q by nra.
    split.
    + destruct (of_Q_nonneg (b * p)) as [[-> _]|(r & -> & _)];
        [assumption|now left|right; now exists r].
    + apply of_Q_monotone; [assumption|nra].
Qed.

(** calculateRetryDelay with a positive base delay and a maximum that are
    numbers gives a number that is at most the maximum, and not a smaller
    one for a later attempt; it is the smaller of baseDelay * 2 ^
    (attempt - 1) and the maximum when the base delay is a double, the
    attempt is between 1 and 1024 and the maximum below 2 ^ 1024.  With a
    base delay 0 it gives NaN from the attempt 1025 on, where 2 ** (attempt
    - 1) is Infinity.  With the defaults 1000 and 30000 it gives 1000,
    2000, 4000, 8000 and 16000 for the attempts 1 to 5 and 30000 from the
    attempt 6 on. *)
Theorem calculateRetryDelay_is_capped (attempt : Z) (b m : Q) :
  ((0 < b)%Q ->
   exists d,
     calculateRetryDelay attempt (Some (Double.fin b)) (Some (Double.fin m))
     = Double.fin d
     /\ (d <= m)%Q
     /\ (forall attempt' d',
           (attempt <= attempt')%Z ->
           calculateRetryDelay attempt' (Some (Double.fin b))
             (Some (Double.fin m))
           = Double.fin d' ->
           (d <= d')%Q)
     /\ (Double.representable b ->
         (1 <= attempt <= 1024)%Z ->
         (m < 2 ^ 1024)%Q ->
         (d == Qmin (b * 2 ^ (attempt - 1)) m)%Q))
  /\ ((b == 0)%Q ->
      (1025 <= attempt)%Z ->
      calculateRetryDelay attempt (Some (Double.fin b)) (Some (Double.fin m))
      = Double.nan)
  /\ ((1 <= attempt)%Z ->
      exists d,
        calculateRetryDelay attempt None None = Double.fin d
        /\ (d == if (attempt <=? 5)%Z
                 then 1000 * 2 ^ (attempt - 1)
                 else 30000)%Q).
Proof.
  unfold calculateRetryDelay. cbn [from_option id]. cbv zeta.
  split; [|split].
  - intros Hb.
    assert (S : forall k,
               exists d,
                 Double.min (Double.mul (Double.fin b) (Double.pow2 k))
                   (Double.fin m) = Double.fin d
                 /\ (d <= m)%Q
                 /\ (Double.mul (Double.fin b) (Double.pow2 k)
                     = Double.inf false /\ (d == m)%Q
                     \/ exists q,
                         Double.mul (Double.fin b) (Double.pow2 k)
                         = Double.fin q
                         /\ (d == Qmin q m)%Q)).
    { intros k.
      destruct (proj1 (backoff_monotone b k k Hb (Z.le_refl k)))
        as [->|(q & ->)]; cbn [Double.min Double.le].
      - exists m. split; [reflexivity|]. split; [lra|]. left. now split.
      - destruct (Qle_bool q m) eqn:C.
        + apply Qle_bool_iff in C. exists q. split; [reflexivity|].
          split; [exact C|]. right. exists q. split; [reflexivity|].
          now rewrite Q.min_l.
        + assert (m <= q)%Q.
          { apply Qlt_le_weak, Qnot_le_lt. intros T.
            apply Qle_bool_iff in T. congruence. }
          exists m. split; [reflexivity|]. split; [lra|]. right.
          exists q. split; [reflexivity|]. now rewrite Q.min_r. }
    destruct (S (attempt - 1)%Z) as (d & E & Hd & Sd).
    exists d. split; [exact E|]. split; [exact Hd|]. split.
    + intros attempt' d' Ha E'.
      destruct (S (attempt' - 1)%Z) as (d2 & E2 & Hd2 & Sd2).
      rewrite E2 in E'. injection E' as <-.
      pose proof (proj2 (backoff_monotone b (attempt - 1) (attempt' - 1) Hb
                           ltac:(lia))) as L.
      destruct Sd as [[M1 D1]|(q1 & M1 & D1)];
        destruct Sd2 as [[M2 D2]|(q2 & M2 & D2)];
        rewrite M1, M2 in L; cbn [Double.le] in L.
      * lra.
      * discriminate L.
      * lra.
      * apply Qle_bool_iff in L. rewrite D1, D2.
        now apply Q.min_le_compat_r.
    + intros R Ha Hm.
      pose proof (mul_pow2 b (attempt - 1) Hb ltac:(lia) R) as M.
      replace (attempt - 1 <? 1024)%Z with true in M
        by (symmetry; apply Z.ltb_lt; lia).
      cbn [andb] in M.
      destruct (Qle_bool (2 ^ 1024) (b * 2 ^ (attempt - 1))) eqn:C;
        cbn [negb] in M.
      * apply Qle_bool_iff in C.
        destruct Sd as [[_ D]|(q & M' & _)]; [|congruence].
        rewrite D, Q.min_r; [reflexivity|lra].
      * destruct M as (q & M & Eq).
        destruct Sd as [[M' _]|(q' & M' & D)]; [congruence|].
        rewrite M in M'. injection M' as <-.
        rewrite D. now rewrite Eq.
  - intros Hb Ha. unfold Double.pow2.
    pose proof (pow2_pos (attempt - 1)) as P.
    destruct (of_Q_nonneg (2 ^ (attempt - 1))) as [[-> _]|(q & _ & Eq & Hq)];
      [lra| |].
    + cbn [Double.mul]. apply Qeq_bool_iff in Hb. now rewrite Hb.
    + exfalso. pose proof (round_pow2 (attempt - 1) ltac:(lia)) as R.
      unfold Double.representable in R.
      pose proof (pow2_le 1024 (attempt - 1) ltac:(lia)). lra.
  - intros Ha. destruct (attempt <=? 5)%Z eqn:C.
    + apply Z.leb_le in C.
      assert (attempt = 1 \/ attempt = 2 \/ attempt = 3 \/ attempt = 4
              \/ attempt = 5)%Z as [->|[->|[->|[->| ->]]]] by lia;
        (eexists; split; [vm_compute; reflexivity|reflexivity]).
    + apply Z.leb_gt in C. exists 30000%Q. split; [|reflexivity].
      pose proof (backoff_monotone 1000 5 (attempt - 1) ltac:(reflexivity)
                    ltac:(lia)) as [_ L].
      replace (Double.mul (Double.fin 1000) (Double.pow2 5))
        with (Double.fin 32000) in L by (vm_compute; reflexivity).
      destruct (Double.mul (Double.fin 1000) (Double.pow2 (attempt - 1)))
        as [|[]|q]; cbn [Double.le] in L; try discriminate L.
      * reflexivity.
      * cbn [Double.min Double.le]. apply Qle_bool_iff in L.
        destruct (Qle_bool q 30000) eqn:T; [|reflexivity].
        apply Qle_bool_iff in T. exfalso. lra.
Qed.




